(** * The knowledge-graph store of [memory/scripts/memory_tools.py]

    A shallow embedding of the [KnowledgeGraph] class (the in-memory graph,
    its JSONL load and save, its mutating and reading methods) and of the
    tool functions that wrap it, followed by the properties of the store.

    Modelling choices, all visible in the definitions below:
    - a Python [str] is a [string]; its characters are read as the code
      points U+0000..U+00FF;
    - the [entities] dict is an association list in insertion order, with
      the dict's own update rules ([dict_set] keeps the position of a key
      already present and appends a new one);
    - field types are those of the source's type hints and docstrings: names,
      types and observations are strings;
    - the observations of an entity are a list by value, one per entity, as
      in every object built from a file. The source extends that list object
      in place ([add_observations]) and stores the list it is given
      ([create_entities]), so two entities created from one list object
      would change together: what is stated of [add_observations] is stated
      of the named entity, of the names and of the relations;
    - the file is the list of its lines; a device that fails keeps the first
      characters of what was written, which may end inside a line;
    - the methods run in a state-and-exception monad over the object's
      fields, the file and stderr;
    - [json.dumps] and [json.loads] belong to the Python standard library:
      the store is stated over any pair of them ([Section Codec]), and
      [PyJson] gives a printer and a parser of JSON text to run it on. *)

From Stdlib Require Import List String Ascii Bool Arith PeanoNat Lia.
Import ListNotations.
Local Open Scope string_scope.
Local Open Scope list_scope.

(** ** Python strings *)

Module PyStr.

(** [c.lower()] on one code point below 256: A-Z, and the Latin-1 capitals
    U+00C0..U+00DE except the multiplication sign U+00D7. *)
Definition lower_char (c : ascii) : ascii :=
  let n := nat_of_ascii c in
  if (((65 <=? n) && (n <=? 90)) ||
      ((192 <=? n) && (n <=? 222) && negb (n =? 215)))%nat
  then ascii_of_nat (n + 32) else c.

(** [s.lower()] *)
Fixpoint lower (s : string) : string :=
  match s with
  | EmptyString => EmptyString
  | String c t => String (lower_char c) (lower t)
  end.

(** [needle in hay] on strings: [needle] occurs in [hay] as a substring. *)
Fixpoint contains (needle hay : string) : bool :=
  prefix needle hay ||
  match hay with
  | EmptyString => false
  | String _ t => contains needle t
  end.

(** [c.isspace()] for a code point below 256. *)
Definition isspace (c : ascii) : bool :=
  let n := nat_of_ascii c in
  (((9 <=? n) && (n <=? 13)) || ((28 <=? n) && (n <=? 32)) ||
   (n =? 133) || (n =? 160))%nat.

Fixpoint all_space (s : string) : bool :=
  match s with
  | EmptyString => true
  | String c t => isspace c && all_space t
  end.

(** [bool(line.strip())]: the line has a character that is not whitespace. *)
Definition strip_nonempty (line : string) : bool := negb (all_space line).

(** [x in xs] on a list of strings. *)
Definition mem (x : string) (xs : list string) : bool :=
  existsb (String.eqb x) xs.

End PyStr.

(** ** Python dicts with string keys, in insertion order *)

Section Dict.
Context {V : Type}.

Definition dict := list (string * V).

(** [d.get(k)] / [d[k]] *)
Fixpoint dict_get (k : string) (d : dict) : option V :=
  match d with
  | [] => None
  | (k', v) :: rest => if k =? k' then Some v else dict_get k rest
  end.

(** [k in d] *)
Definition dict_mem (k : string) (d : dict) : bool :=
  match dict_get k d with Some _ => true | None => false end.

(** [d[k] = v]: a key already present keeps its place, a new one goes last. *)
Fixpoint dict_set (k : string) (v : V) (d : dict) : dict :=
  match d with
  | [] => [(k, v)]
  | (k', v') :: rest =>
      if k =? k' then (k', v) :: rest else (k', v') :: dict_set k v rest
  end.

(** [del d[k]] *)
Fixpoint dict_del (k : string) (d : dict) : dict :=
  match d with
  | [] => []
  | (k', v') :: rest =>
      if k =? k' then rest else (k', v') :: dict_del k rest
  end.

Definition keys (d : dict) : list string := map fst d.

End Dict.

Arguments dict : clear implicits.

(** ** The data model *)

(** The value stored under an entity's name. *)
Record EntityData := mkData {
  entityType : string;
  observations : list string
}.

Record Relation := mkRelation {
  from : string;
  to : string;
  relationType : string
}.

(** The fields [self.entities] and [self.relations]. *)
Record Graph := mkGraph {
  entities : dict EntityData;
  relations : list Relation
}.

Definition empty_graph : Graph := mkGraph [] [].

(** An element of the list passed to [create_entities]; ['observations'] may
    be left out. *)
Record EntityInput := mkInput {
  in_name : string;
  in_entityType : string;
  in_observations : option (list string)
}.

(** The comparison written out in [create_relations] and [delete_relations]. *)
Definition same_triple (r relation : Relation) : bool :=
  (from r =? from relation) && (to r =? to relation) &&
  (relationType r =? relationType relation).

(** ** JSON values, as [json.loads] returns them and [json.dumps] takes them *)

#[local] Set Warnings "-register-all".

Inductive json :=
| JNull
| JBool (b : bool)
| JNum (lexeme : string)
| JStr (s : string)
| JArr (items : list json)
| JObj (members : dict json).

(** The two records [_save] writes. *)
Definition entity_record (name : string) (data : EntityData) : json :=
  JObj [("type", JStr "entity"); ("name", JStr name);
        ("entityType", JStr (entityType data));
        ("observations", JArr (map JStr (observations data)))].

Definition relation_record (relation : Relation) : json :=
  JObj [("type", JStr "relation"); ("from", JStr (from relation));
        ("to", JStr (to relation));
        ("relationType", JStr (relationType relation))].

(** ** The state the methods run in *)

Inductive error :=
| EntityAlreadyExists (name : string)
| EntityNotFound (name : string)
| RelationAlreadyExists (relation : Relation)
| FailedToSave
| OSError
| JSONDecodeError
| KeyError (key : string)
| TypeError.

(** The file at [file_path]: absent, or its lines. *)
Definition file := option (list string).

Record World := mkWorld {
  self : Graph;
  disk : file;
  stderr : list error
}.

(** A run returns, raises, or leaves the typed model ([Untyped]: a loaded
    record holds a field of another JSON type than the store's). *)
Inductive Outcome (A : Type) :=
| Return (a : A) (w : World)
| Raise (e : error) (w : World)
| Untyped.

Arguments Return {A}.
Arguments Raise {A}.
Arguments Untyped {A}.

Definition M (A : Type) := World -> Outcome A.

Definition ret {A} (a : A) : M A := fun w => Return a w.
Definition raise {A} (e : error) : M A := fun w => Raise e w.
Definition untyped {A} : M A := fun _ => Untyped.

Definition bind {A B} (m : M A) (k : A -> M B) : M B :=
  fun w =>
    match m w with
    | Return a w' => k a w'
    | Raise e w' => Raise e w'
    | Untyped => Untyped
    end.

Notation "x <- m ;; k" := (bind m (fun x => k))
  (at level 61, m at next level, right associativity).
Notation "m ;; k" := (bind m (fun _ => k))
  (at level 61, right associativity).

(** [try: body  except Exception as e: handler(e)] *)
Definition try_except {A} (body : M A) (handler : error -> M A) : M A :=
  fun w =>
    match body w with
    | Raise e w' => handler e w'
    | other => other
    end.

Definition get_self : M Graph := fun w => Return (self w) w.
Definition put_self (g : Graph) : M unit :=
  fun w => Return tt (mkWorld g (disk w) (stderr w)).
Definition get_disk : M file := fun w => Return (disk w) w.
Definition put_disk (d : file) : M unit :=
  fun w => Return tt (mkWorld (self w) d (stderr w)).
Definition warn (e : error) : M unit :=
  fun w => Return tt (mkWorld (self w) (disk w) (stderr w ++ [e])).

Definition set_entities (es : dict EntityData) : M unit :=
  g <- get_self ;; put_self (mkGraph es (relations g)).
Definition set_relations (rs : list Relation) : M unit :=
  g <- get_self ;; put_self (mkGraph (entities g) rs).

(** [for x in xs: body(x)] *)
Fixpoint for_each {A} (xs : list A) (body : A -> M unit) : M unit :=
  match xs with
  | [] => ret tt
  | x :: rest => body x ;; for_each rest body
  end.

(** What can go wrong in [_save], chosen by the environment: [mkdir] fails,
    [open(..., 'w')] fails, or the device takes only the first [n]
    characters of what is written to the file. *)
Inductive io_fault :=
| NoFault
| MkdirFails
| OpenFails
| WriteFails (n : nat).

(** ** The class [KnowledgeGraph] *)

Module KnowledgeGraph.

Section Codec.

(** [json.dumps] and [json.loads]; [None] is a raised [JSONDecodeError]. *)
Variable dumps : json -> string.
Variable loads : string -> option json.

(** [data[key]] on a parsed line: a [KeyError] when the key is missing, a
    [TypeError] when [data] is not a dict. *)
Definition getitem (data : json) (key : string) : M json :=
  match data with
  | JObj members =>
      match dict_get key members with
      | Some v => ret v
      | None => raise (KeyError key)
      end
  | _ => raise TypeError
  end.

(** [v == s] for a string literal [s] *)
Definition is_str (v : json) (s : string) : bool :=
  match v with
  | JStr s' => s' =? s
  | _ => false
  end.

(** The typed reading of a loaded field. *)
Definition as_str (v : json) : M string :=
  match v with
  | JStr s => ret s
  | _ => untyped
  end.

Fixpoint strs (items : list json) : option (list string) :=
  match items with
  | [] => Some []
  | JStr s :: rest =>
      match strs rest with
      | Some l => Some (s :: l)
      | None => None
      end
  | _ :: _ => None
  end.

Definition as_str_list (v : json) : M (list string) :=
  match v with
  | JArr items =>
      match strs items with
      | Some l => ret l
      | None => untyped
      end
  | _ => untyped
  end.

(** A dict key: a list or a dict is unhashable ([TypeError]). *)
Definition as_key (v : json) : M string :=
  match v with
  | JStr s => ret s
  | JArr _ | JObj _ => raise TypeError
  | _ => untyped
  end.

(** The body of the loop of [_load], for one line of the file. *)
Definition load_line (line : string) : M unit :=
  if PyStr.strip_nonempty line then
    match loads line with
    | None => raise JSONDecodeError
    | Some data =>
        ty <- getitem data "type" ;;
        if is_str ty "entity" then
          etype <- getitem data "entityType" ;;
          obs <- getitem data "observations" ;;
          name <- getitem data "name" ;;
          name <- as_key name ;;
          etype <- as_str etype ;;
          obs <- as_str_list obs ;;
          g <- get_self ;;
          set_entities (dict_set name (mkData etype obs) (entities g))
        else
          ty <- getitem data "type" ;;
          if is_str ty "relation" then
            f <- getitem data "from" ;;
            t <- getitem data "to" ;;
            rt <- getitem data "relationType" ;;
            f <- as_str f ;;
            t <- as_str t ;;
            rt <- as_str rt ;;
            g <- get_self ;;
            set_relations (relations g ++ [mkRelation f t rt])
          else ret tt
    end
  else ret tt.

Definition _load : M unit :=
  d <- get_disk ;;
  match d with
  | None => ret tt
  | Some lines =>
      try_except (for_each lines load_line) (fun e => warn e)
  end.

(** [KnowledgeGraph()] *)
Definition __init__ : M unit :=
  put_self (mkGraph [] []) ;; _load.

(** [f.write(line + '\n')], under the fault plan [io], [written] being the
    number of characters written before. The file is a list of lines; a line
    the device took only the beginning of is the last one, without its
    newline. The file object is buffered, so the error of a device that
    takes no more surfaces in the write that flushes the buffer or when the
    [with] block closes the file: in both cases the block is left by that
    error with the file holding the characters the device took, which is
    what this definition leaves when it raises. *)
Definition f_write (io : io_fault) (written : nat) (line : string) : M unit :=
  d <- get_disk ;;
  let lines := match d with Some ls => ls | None => [] end in
  match io with
  | WriteFails n =>
      if (written + String.length line <? n)%nat
      then put_disk (Some (lines ++ [line]))
      else if (n <=? written)%nat then raise OSError
      else put_disk (Some (lines ++ [substring 0 (n - written) line])) ;;
           raise OSError
  | _ => put_disk (Some (lines ++ [line]))
  end.

Fixpoint write_all (io : io_fault) (written : nat) (lines : list string)
  : M unit :=
  match lines with
  | [] => ret tt
  | line :: rest =>
      f_write io written line ;;
      write_all io (written + S (String.length line)) rest
  end.

(** The lines [_save] writes: the entities in dict order, then the
    relations in list order. *)
Definition save_lines (g : Graph) : list string :=
  map (fun '(name, data) => dumps (entity_record name data)) (entities g) ++
  map (fun relation => dumps (relation_record relation)) (relations g).

Definition _save (io : io_fault) : M unit :=
  match io with
  | MkdirFails => raise OSError
  | _ =>
      try_except
        (match io with
         | OpenFails => raise OSError
         | _ =>
             put_disk (Some []) ;;
             g <- get_self ;;
             write_all io 0 (save_lines g)
         end)
        (fun _ => raise FailedToSave)
  end.

(** The body of the loop of [create_entities]. *)
Definition create_entities_body (entity : EntityInput) : M unit :=
  let name := in_name entity in
  g <- get_self ;;
  if dict_mem name (entities g) then raise (EntityAlreadyExists name)
  else
    set_entities
      (dict_set name
         (mkData (in_entityType entity)
            (match in_observations entity with
             | Some obs => obs
             | None => []
             end))
         (entities g)).

Definition create_entities (io : io_fault) (batch : list EntityInput)
  : M unit :=
  for_each batch create_entities_body ;;
  _save io.

(** The body of the loop of [create_relations]. *)
Definition create_relations_body (relation : Relation) : M unit :=
  g <- get_self ;;
  if negb (dict_mem (from relation) (entities g))
  then raise (EntityNotFound (from relation))
  else if negb (dict_mem (to relation) (entities g))
  then raise (EntityNotFound (to relation))
  else
    let exists_ := existsb (fun r => same_triple r relation) (relations g) in
    if exists_ then raise (RelationAlreadyExists relation)
    else set_relations (relations g ++ [relation]).

Definition create_relations (io : io_fault) (batch : list Relation)
  : M unit :=
  for_each batch create_relations_body ;;
  _save io.

(** [self.entities[entity_name]['observations'].extend(observations)]
    changes the entity's list in place; here the entity gets the extended
    list. *)
Definition add_observations (io : io_fault) (entity_name : string)
  (obs : list string) : M unit :=
  g <- get_self ;;
  match dict_get entity_name (entities g) with
  | None => raise (EntityNotFound entity_name)
  | Some data =>
      set_entities
        (dict_set entity_name
           (mkData (entityType data) (observations data ++ obs))
           (entities g)) ;;
      _save io
  end.

(** The body of the loop of [delete_entities]. *)
Definition delete_entities_body (name : string) : M unit :=
  g <- get_self ;;
  if dict_mem name (entities g) then
    put_self
      (mkGraph (dict_del name (entities g))
         (filter (fun r => negb (from r =? name) && negb (to r =? name))
            (relations g)))
  else ret tt.

Definition delete_entities (io : io_fault) (entity_names : list string)
  : M unit :=
  for_each entity_names delete_entities_body ;;
  _save io.

Definition delete_observations (io : io_fault) (entity_name : string)
  (obs : list string) : M unit :=
  g <- get_self ;;
  match dict_get entity_name (entities g) with
  | None => raise (EntityNotFound entity_name)
  | Some entity =>
      set_entities
        (dict_set entity_name
           (mkData (entityType entity)
              (filter (fun o => negb (PyStr.mem o obs)) (observations entity)))
           (entities g)) ;;
      _save io
  end.

(** The body of the loop of [delete_relations]. *)
Definition delete_relations_body (relation : Relation) : M unit :=
  g <- get_self ;;
  set_relations
    (filter (fun r => negb (same_triple r relation)) (relations g)).

Definition delete_relations (io : io_fault) (batch : list Relation)
  : M unit :=
  for_each batch delete_relations_body ;;
  _save io.

End Codec.

(** *** The reading methods *)

(** One element of what [search_nodes] returns:
    [{'name': name, **data, 'match': ...}]. *)
Record SearchResult := mkResult {
  sr_name : string;
  sr_data : EntityData;
  sr_match : string
}.

(** The loop over [data['observations']], left by [break] at the first
    observation that holds the query. *)
Fixpoint search_observations (query_lower name : string) (data : EntityData)
  (obs : list string) (results : list SearchResult) : list SearchResult :=
  match obs with
  | [] => results
  | o :: rest =>
      if PyStr.contains query_lower (PyStr.lower o)
      then results ++ [mkResult name data "observation"]
      else search_observations query_lower name data rest results
  end.

(** The loop over [self.entities.items()]; each [continue] goes on with the
    next entity. *)
Fixpoint search_items (query_lower : string) (items : dict EntityData)
  (results : list SearchResult) : list SearchResult :=
  match items with
  | [] => results
  | (name, data) :: rest =>
      if PyStr.contains query_lower (PyStr.lower name)
      then search_items query_lower rest (results ++ [mkResult name data "name"])
      else if PyStr.contains query_lower (PyStr.lower (entityType data))
      then search_items query_lower rest (results ++ [mkResult name data "type"])
      else search_items query_lower rest
             (search_observations query_lower name data (observations data) results)
  end.

Definition search_nodes (g : Graph) (query : string) : list SearchResult :=
  search_items (PyStr.lower query) (entities g) [].

(** [read_graph]: the entities as [{'name': name, **data}], and the list of
    relations. *)
Definition read_graph (g : Graph) : list (string * EntityData) * list Relation :=
  (map (fun '(name, data) => (name, data)) (entities g), relations g).

Record NodeDetail := mkNode {
  nd_name : string;
  nd_data : EntityData;
  relations_from : list Relation;
  relations_to : list Relation
}.

Fixpoint open_nodes (g : Graph) (names : list string) : list NodeDetail :=
  match names with
  | [] => []
  | name :: rest =>
      match dict_get name (entities g) with
      | None => open_nodes g rest
      | Some data =>
          mkNode name data
            (filter (fun r => from r =? name) (relations g))
            (filter (fun r => to r =? name) (relations g))
          :: open_nodes g rest
      end
  end.

End KnowledgeGraph.

(** ** The tool functions *)

(** The result every tool returns: [{'status': 'success', 'tool': ..., <count>,
    <payload>}] or [{'status': 'error', 'tool': ..., 'message': str(e)}]. *)
Inductive envelope (A : Type) :=
| success (tool : string) (count : nat) (payload : A)
| failure (tool : string) (message : error).

Arguments success {A}.
Arguments failure {A}.

Definition status {A} (r : envelope A) : string :=
  match r with
  | success _ _ _ => "success"
  | failure _ _ => "error"
  end.

Section Tools.

Variable dumps : json -> string.
Variable loads : string -> option json.

Definition create_entities (io : io_fault) (batch : list EntityInput)
  : M (envelope (list string)) :=
  try_except
    (KnowledgeGraph.__init__ loads ;;
     KnowledgeGraph.create_entities dumps io batch ;;
     ret (success "create_entities" (List.length batch) (map in_name batch)))
    (fun e => ret (failure "create_entities" e)).

Definition create_relations (io : io_fault) (batch : list Relation)
  : M (envelope (list Relation)) :=
  try_except
    (KnowledgeGraph.__init__ loads ;;
     KnowledgeGraph.create_relations dumps io batch ;;
     ret (success "create_relations" (List.length batch) batch))
    (fun e => ret (failure "create_relations" e)).

Definition add_observations (io : io_fault) (entity_name : string)
  (obs : list string) : M (envelope string) :=
  try_except
    (KnowledgeGraph.__init__ loads ;;
     KnowledgeGraph.add_observations dumps io entity_name obs ;;
     ret (success "add_observations" (List.length obs) entity_name))
    (fun e => ret (failure "add_observations" e)).

Definition delete_entities (io : io_fault) (entity_names : list string)
  : M (envelope (list string)) :=
  try_except
    (KnowledgeGraph.__init__ loads ;;
     KnowledgeGraph.delete_entities dumps io entity_names ;;
     ret (success "delete_entities" (List.length entity_names) entity_names))
    (fun e => ret (failure "delete_entities" e)).

Definition delete_observations (io : io_fault) (entity_name : string)
  (obs : list string) : M (envelope string) :=
  try_except
    (KnowledgeGraph.__init__ loads ;;
     KnowledgeGraph.delete_observations dumps io entity_name obs ;;
     ret (success "delete_observations" (List.length obs) entity_name))
    (fun e => ret (failure "delete_observations" e)).

Definition delete_relations (io : io_fault) (batch : list Relation)
  : M (envelope (list Relation)) :=
  try_except
    (KnowledgeGraph.__init__ loads ;;
     KnowledgeGraph.delete_relations dumps io batch ;;
     ret (success "delete_relations" (List.length batch) batch))
    (fun e => ret (failure "delete_relations" e)).

Definition search_nodes (query : string)
  : M (envelope (list KnowledgeGraph.SearchResult)) :=
  try_except
    (KnowledgeGraph.__init__ loads ;;
     g <- get_self ;;
     let results := KnowledgeGraph.search_nodes g query in
     ret (success "search_nodes" (List.length results) results))
    (fun e => ret (failure "search_nodes" e)).

(** [read_graph()]: the two counts, then the graph. *)
Definition read_graph
  : M (envelope (nat * (list (string * EntityData) * list Relation))) :=
  try_except
    (KnowledgeGraph.__init__ loads ;;
     g <- get_self ;;
     let data := KnowledgeGraph.read_graph g in
     ret (success "read_graph" (List.length (fst data))
            (List.length (snd data), data)))
    (fun e => ret (failure "read_graph" e)).

(** [open_nodes(names)]: ['requested'], then ['found'] and the nodes. *)
Definition open_nodes (names : list string)
  : M (envelope (nat * list KnowledgeGraph.NodeDetail)) :=
  try_except
    (KnowledgeGraph.__init__ loads ;;
     g <- get_self ;;
     let results := KnowledgeGraph.open_nodes g names in
     ret (success "open_nodes" (List.length names)
            (List.length results, results)))
    (fun e => ret (failure "open_nodes" e)).

End Tools.

(** A tool called by a process whose file is [d]. *)
Definition call {A} (tool : M A) (d : file) : Outcome A :=
  tool (mkWorld empty_graph d []).

(** ** JSON text

    A printer and a parser of JSON text to run the store on: [dumps] prints
    as [json.dumps] does with its default options (separators [", "] and
    [": "], every character outside U+0020..U+007E escaped), [loads] reads
    the JSON grammar as [json.loads] does (a number is kept as its lexeme;
    a [\u] escape above U+00FF has no character in this model and is
    refused). *)

Module PyJson.

Local Open Scope string_scope.

Definition dq : ascii := ascii_of_nat 34.
Definition bs : ascii := ascii_of_nat 92.

Definition hex_digit (n : nat) : ascii :=
  if (n <? 10)%nat then ascii_of_nat (48 + n) else ascii_of_nat (87 + n).

(** The replacement of one character in a printed string. *)
Definition escape_char (c : ascii) : string :=
  let n := nat_of_ascii c in
  if (n =? 34)%nat then String bs (String dq "")
  else if (n =? 92)%nat then String bs (String bs "")
  else if (n =? 10)%nat then String bs "n"
  else if (n =? 13)%nat then String bs "r"
  else if (n =? 9)%nat then String bs "t"
  else if (n =? 8)%nat then String bs "b"
  else if (n =? 12)%nat then String bs "f"
  else if ((32 <=? n) && (n <=? 126))%nat then String c ""
  else String bs (String "u" (String "0" (String "0"
         (String (hex_digit (n / 16)) (String (hex_digit (n mod 16)) ""))))).

Fixpoint escape (s : string) : string :=
  match s with
  | EmptyString => EmptyString
  | String c t => escape_char c ++ escape t
  end.

Definition dumps_str (s : string) : string :=
  String dq (escape s ++ String dq "").

Fixpoint join (sep : string) (parts : list string) : string :=
  match parts with
  | [] => ""
  | [p] => p
  | p :: rest => p ++ sep ++ join sep rest
  end.

Fixpoint dumps (v : json) : string :=
  match v with
  | JNull => "null"
  | JBool true => "true"
  | JBool false => "false"
  | JNum lexeme => lexeme
  | JStr s => dumps_str s
  | JArr items => "[" ++ join ", " (map dumps items) ++ "]"
  | JObj members =>
      "{" ++ join ", "
               (map (fun kv => dumps_str (fst kv) ++ ": " ++ dumps (snd kv))
                  members) ++ "}"
  end.

(** *** Reading *)

Definition is_ws (c : ascii) : bool :=
  let n := nat_of_ascii c in
  ((n =? 32) || (n =? 9) || (n =? 10) || (n =? 13))%nat.

Fixpoint skip_ws (s : string) : string :=
  match s with
  | String c t => if is_ws c then skip_ws t else s
  | EmptyString => s
  end.

Definition hex_value (c : ascii) : option nat :=
  let n := nat_of_ascii c in
  if ((48 <=? n) && (n <=? 57))%nat then Some (n - 48)
  else if ((97 <=? n) && (n <=? 102))%nat then Some (n - 87)
  else if ((65 <=? n) && (n <=? 70))%nat then Some (n - 55)
  else None.

(** The character named by the letter after a backslash. *)
Definition unescape (c : ascii) : option ascii :=
  let n := nat_of_ascii c in
  if (n =? 34)%nat then Some dq
  else if (n =? 92)%nat then Some bs
  else if (n =? 47)%nat then Some "/"%char
  else if (n =? 98)%nat then Some (ascii_of_nat 8)
  else if (n =? 102)%nat then Some (ascii_of_nat 12)
  else if (n =? 110)%nat then Some (ascii_of_nat 10)
  else if (n =? 114)%nat then Some (ascii_of_nat 13)
  else if (n =? 116)%nat then Some (ascii_of_nat 9)
  else None.

(** The rest of a string after its opening quote: the string read and the
    text after its closing quote. *)
Fixpoint scan_string (s : string) : option (string * string) :=
  match s with
  | EmptyString => None
  | String c t =>
      let n := nat_of_ascii c in
      if (n =? 34)%nat then Some ("", t)
      else if (n =? 92)%nat then
        match t with
        | String e t' =>
            if (nat_of_ascii e =? 117)%nat then
              match t' with
              | String h1 (String h2 (String h3 (String h4 t''))) =>
                  match hex_value h1, hex_value h2, hex_value h3, hex_value h4 with
                  | Some 0, Some 0, Some a, Some b =>
                      match scan_string t'' with
                      | Some (r, rest) =>
                          Some (String (ascii_of_nat (16 * a + b)) r, rest)
                      | None => None
                      end
                  | _, _, _, _ => None
                  end
              | _ => None
              end
            else
              match unescape e with
              | Some x =>
                  match scan_string t' with
                  | Some (r, rest) => Some (String x r, rest)
                  | None => None
                  end
              | None => None
              end
        | EmptyString => None
        end
      else if (n <? 32)%nat then None
      else
        match scan_string t with
        | Some (r, rest) => Some (String c r, rest)
        | None => None
        end
  end.

Definition is_digit (c : ascii) : bool :=
  let n := nat_of_ascii c in ((48 <=? n) && (n <=? 57))%nat.

(** The longest run of digits at the head of [s], and what follows it. *)
Fixpoint digits (s : string) : string * string :=
  match s with
  | String c t =>
      if is_digit c then let '(d, rest) := digits t in (String c d, rest)
      else ("", s)
  | EmptyString => ("", s)
  end.

(** An unsigned number at the head of [s]: an integer part (a lone 0 or a
    run of digits not starting with 0), then an optional fraction and an
    optional exponent, each taken only when it has digits. *)
Definition scan_unsigned (s : string) : option (string * string) :=
  match s with
  | String c t =>
      if is_digit c then
        let '(int, rest) :=
          if (nat_of_ascii c =? 48)%nat then (String c "", t)
          else let '(d, r) := digits t in (String c d, r) in
        let '(frac, rest) :=
          match rest with
          | String "." r =>
              match digits r with
              | (EmptyString, _) => ("", rest)
              | (d, r') => (String "." d, r')
              end
          | _ => ("", rest)
          end in
        let '(exp, rest) :=
          match rest with
          | String e r =>
              if ((nat_of_ascii e =? 101) || (nat_of_ascii e =? 69))%nat then
                let '(sign, r1) :=
                  match r with
                  | String "+" r1 => ("+", r1)
                  | String "-" r1 => ("-", r1)
                  | _ => ("", r)
                  end in
                match digits r1 with
                | (EmptyString, _) => ("", rest)
                | (d, r') => (String e (sign ++ d), r')
                end
              else ("", rest)
          | EmptyString => ("", rest)
          end in
        Some (int ++ frac ++ exp, rest)
      else None
  | EmptyString => None
  end.

(** [word] at the head of [s]: what follows it. *)
Fixpoint after (word s : string) : option string :=
  match word, s with
  | EmptyString, _ => Some s
  | String a w, String b t => if (a =? b)%char then after w t else None
  | String _ _, EmptyString => None
  end.

(** One value at the head of [s] (no leading whitespace), and the text after
    it. [fuel] bounds the recursion: each value, item and member read takes
    at least one character, so the length of the text is fuel enough. *)
Fixpoint scan_value (fuel : nat) (s : string) : option (json * string) :=
  match fuel with
  | O => None
  | S fuel =>
      match s with
      | EmptyString => None
      | String c t =>
          let n := nat_of_ascii c in
          if (n =? 34)%nat then
            match scan_string t with
            | Some (r, rest) => Some (JStr r, rest)
            | None => None
            end
          else if (n =? 123)%nat then
            match skip_ws t with
            | String "}" rest => Some (JObj [], rest)
            | t' => scan_members fuel t' []
            end
          else if (n =? 91)%nat then
            match skip_ws t with
            | String "]" rest => Some (JArr [], rest)
            | t' => scan_items fuel t' []
            end
          else if (n =? 45)%nat then
            match after "Infinity" t with
            | Some rest => Some (JNum "-Infinity", rest)
            | None =>
                match scan_unsigned t with
                | Some (lexeme, rest) => Some (JNum (String c lexeme), rest)
                | None => None
                end
            end
          else
            match after "null" s, after "true" s, after "false" s,
                  after "NaN" s, after "Infinity" s with
            | Some rest, _, _, _, _ => Some (JNull, rest)
            | _, Some rest, _, _, _ => Some (JBool true, rest)
            | _, _, Some rest, _, _ => Some (JBool false, rest)
            | _, _, _, Some rest, _ => Some (JNum "NaN", rest)
            | _, _, _, _, Some rest => Some (JNum "Infinity", rest)
            | _, _, _, _, _ =>
                match scan_unsigned s with
                | Some (lexeme, rest) => Some (JNum lexeme, rest)
                | None => None
                end
            end
      end
  end

(** The items of an array from its first one, [acc] being those read. *)
with scan_items (fuel : nat) (s : string) (acc : list json)
  : option (json * string) :=
  match fuel with
  | O => None
  | S fuel =>
      match scan_value fuel s with
      | Some (v, rest) =>
          match skip_ws rest with
          | String "]" rest' => Some (JArr (acc ++ [v])%list, rest')
          | String "," rest' => scan_items fuel (skip_ws rest') (acc ++ [v])%list
          | _ => None
          end
      | None => None
      end
  end

(** The members of an object from the quote of its first key; a key read
    twice keeps its first place and its last value, as [dict] does. *)
with scan_members (fuel : nat) (s : string) (acc : dict json)
  : option (json * string) :=
  match fuel with
  | O => None
  | S fuel =>
      match s with
      | String c t =>
          if (nat_of_ascii c =? 34)%nat then
            match scan_string t with
            | Some (key, rest) =>
                match skip_ws rest with
                | String ":" rest' =>
                    match scan_value fuel (skip_ws rest') with
                    | Some (v, rest'') =>
                        match skip_ws rest'' with
                        | String "}" r => Some (JObj (dict_set key v acc), r)
                        | String "," r =>
                            scan_members fuel (skip_ws r) (dict_set key v acc)
                        | _ => None
                        end
                    | None => None
                    end
                | _ => None
                end
            | None => None
            end
          else None
      | EmptyString => None
      end
  end.

(** [json.loads(s)]: one value, whitespace allowed around it, nothing else. *)
Definition loads (s : string) : option json :=
  match scan_value (S (String.length s)) (skip_ws s) with
  | Some (v, rest) =>
      match skip_ws rest with
      | EmptyString => Some v
      | _ => None
      end
  | None => None
  end.

(** A line of JSON text written with ['] for the double quote. *)
Fixpoint text (s : string) : string :=
  match s with
  | EmptyString => EmptyString
  | String c t => String (if (c =? "'")%char then dq else c) (text t)
  end.

End PyJson.

(** ** Specification vocabulary *)

(** No relation names an entity that is absent (no dangling edge). *)
Definition no_dangling (g : Graph) : Prop :=
  forall r, In r (relations g) ->
    dict_mem (from r) (entities g) = true /\
    dict_mem (to r) (entities g) = true.

(** No two entities share a name: what a dict gives for free. *)
Definition unique_names (g : Graph) : Prop := NoDup (keys (entities g)).

(** The world a call leaves behind, however it ended. *)
Definition final {A} (o : Outcome A) (w : World) : World :=
  match o with
  | Return _ w' => w'
  | Raise _ w' => w'
  | Untyped => w
  end.

(** A property of the world that holds however the run ends. *)
Definition ensures {A} (P : World -> Prop) (o : Outcome A) : Prop :=
  match o with
  | Return _ w' => P w'
  | Raise _ w' => P w'
  | Untyped => True
  end.

(** The calls a client can make on a [KnowledgeGraph] object. *)
Inductive op :=
| CreateEntities (batch : list EntityInput)
| CreateRelations (batch : list Relation)
| AddObservations (entity_name : string) (obs : list string)
| DeleteEntities (entity_names : list string)
| DeleteObservations (entity_name : string) (obs : list string)
| DeleteRelations (batch : list Relation).

Definition perform (dumps : json -> string) (io : io_fault) (o : op) : M unit :=
  match o with
  | CreateEntities batch => KnowledgeGraph.create_entities dumps io batch
  | CreateRelations batch => KnowledgeGraph.create_relations dumps io batch
  | AddObservations n obs => KnowledgeGraph.add_observations dumps io n obs
  | DeleteEntities names => KnowledgeGraph.delete_entities dumps io names
  | DeleteObservations n obs => KnowledgeGraph.delete_observations dumps io n obs
  | DeleteRelations batch => KnowledgeGraph.delete_relations dumps io batch
  end.

(** The worlds after each call of a sequence, each call under its own fault
    plan; a call that raises leaves the object as it was when it raised. *)
Fixpoint trace (dumps : json -> string) (calls : list (io_fault * op))
  (w : World) : list World :=
  match calls with
  | [] => []
  | (io, o) :: rest =>
      let w' := final (perform dumps io o w) w in
      w' :: trace dumps rest w'
  end.

(** What an entity of a batch is stored as. *)
Definition stored (entity : EntityInput) : string * EntityData :=
  (in_name entity,
   mkData (in_entityType entity)
     (match in_observations entity with Some obs => obs | None => [] end)).

(** The check [create_relations] makes on one relation, as the error it
    raises. *)
Definition rejection (g : Graph) (relation : Relation) : option error :=
  if negb (dict_mem (from relation) (entities g))
  then Some (EntityNotFound (from relation))
  else if negb (dict_mem (to relation) (entities g))
  then Some (EntityNotFound (to relation))
  else if existsb (fun r => same_triple r relation) (relations g)
  then Some (RelationAlreadyExists relation)
  else None.

(** Every relation of [batch] passes the check when its turn comes. *)
Fixpoint all_accepted (g : Graph) (batch : list Relation) : Prop :=
  match batch with
  | [] => True
  | r :: rest =>
      rejection g r = None /\
      all_accepted (mkGraph (entities g) (relations g ++ [r])) rest
  end.

(** The field the specification reports for an entity: name first, then
    type, then any observation. *)
Definition first_match (query : string) (name : string) (data : EntityData)
  : option string :=
  let q := PyStr.lower query in
  if PyStr.contains q (PyStr.lower name) then Some "name"
  else if PyStr.contains q (PyStr.lower (entityType data)) then Some "type"
  else if existsb (fun o => PyStr.contains q (PyStr.lower o)) (observations data)
  then Some "observation"
  else None.

(** The entry of the search result an entity gives rise to. *)
Definition hit (query : string) (item : string * EntityData)
  : list KnowledgeGraph.SearchResult :=
  match first_match query (fst item) (snd item) with
  | Some field => [KnowledgeGraph.mkResult (fst item) (snd item) field]
  | None => []
  end.

(** A file loaded into a fresh object: the graph and the warnings, or
    [None] outside the typed model. *)
Definition load_file (loads : string -> option json) (lines : list string)
  : option (Graph * list error) :=
  match KnowledgeGraph.__init__ loads (mkWorld empty_graph (Some lines) []) with
  | Return _ w => Some (self w, stderr w)
  | _ => None
  end.

(** The number of characters of a file of [lines], each with its newline. *)
Definition chars (lines : list string) : nat :=
  list_sum (map (fun line => S (String.length line)) lines).

(** The lines a reader finds in the first [n] characters of [lines] written
    each with its newline: the lines that went through, then the beginning
    of the next one if the cut falls inside it or before its newline. *)
Fixpoint torn (n : nat) (lines : list string) : list string :=
  match lines with
  | [] => []
  | line :: rest =>
      if (String.length line <? n)%nat
      then line :: torn (n - S (String.length line)) rest
      else if (n =? 0)%nat then []
      else [substring 0 n line]
  end.

(** The number of lines whose text is entire in the first [n] characters. *)
Fixpoint whole (n : nat) (lines : list string) : nat :=
  match lines with
  | [] => 0
  | line :: rest =>
      if (String.length line <? n)%nat
      then S (whole (n - S (String.length line)) rest)
      else if (n =? 0)%nat then 0
      else if (n =? String.length line)%nat then 1
      else 0
  end.

(** The beginning of a line that the first [n] characters end inside of. *)
Fixpoint cut (n : nat) (lines : list string) : option string :=
  match lines with
  | [] => None
  | line :: rest =>
      if (String.length line <? n)%nat
      then cut (n - S (String.length line)) rest
      else if (n =? 0)%nat then None
      else if (n =? String.length line)%nat then None
      else Some (substring 0 n line)
  end.



(** The same outcome with the file replaced by [d]. *)
Definition on_disk {A} (d : file) (o : Outcome A) : Outcome A :=
  match o with
  | Return a w => Return a (mkWorld (self w) d (stderr w))
  | Raise e w => Raise e (mkWorld (self w) d (stderr w))
  | Untyped => Untyped
  end.

(** A run that neither reads nor writes the file. *)
Definition off_disk {A} (m : M A) : Prop :=
  forall g d d' err, m (mkWorld g d' err) = on_disk d' (m (mkWorld g d err)).

(** The records of a graph, in the order [_save] writes them. *)
Definition records (g : Graph) : list json :=
  map (fun '(name, data) => entity_record name data) (entities g) ++
  map relation_record (relations g).

(** What the store needs of [json.dumps] and [json.loads] on one record: the
    printed line is not blank, and reading it gives the record back. *)
Definition codec_ok (dumps : json -> string) (loads : string -> option json)
  (v : json) : Prop :=
  PyStr.strip_nonempty (dumps v) = true /\ loads (dumps v) = Some v.

(** No two relations of the store are the same triple. *)
Definition no_duplicate_relations (g : Graph) : Prop := NoDup (relations g).

(** The file a call leaves, however it ended. *)
Definition disk_after {A} (o : Outcome A) (d : file) : file :=
  match o with
  | Return _ w => disk w
  | Raise _ w => disk w
  | Untyped => d
  end.

(** The file after one of the six mutating tools, named by the call it
    makes on the object. *)
Definition serve (dumps : json -> string) (loads : string -> option json)
  (io : io_fault) (o : op) (d : file) : file :=
  match o with
  | CreateEntities batch =>
      disk_after (call (create_entities dumps loads io batch) d) d
  | CreateRelations batch =>
      disk_after (call (create_relations dumps loads io batch) d) d
  | AddObservations n obs =>
      disk_after (call (add_observations dumps loads io n obs) d) d
  | DeleteEntities names =>
      disk_after (call (delete_entities dumps loads io names) d) d
  | DeleteObservations n obs =>
      disk_after (call (delete_observations dumps loads io n obs) d) d
  | DeleteRelations batch =>
      disk_after (call (delete_relations dumps loads io batch) d) d
  end.

(** The files after each tool call of a sequence, each call a process of its
    own under its own fault plan. *)
Fixpoint session (dumps : json -> string) (loads : string -> option json)
  (calls : list (io_fault * op)) (d : file) : list file :=
  match calls with
  | [] => []
  | (io, o) :: rest =>
      let d' := serve dumps loads io o d in
      d' :: session dumps loads rest d'
  end.

(** A file that loads without a warning into a graph that keeps the three
    invariants of the store. *)
Definition sound_file (loads : string -> option json) (d : file) : Prop :=
  match d with
  | None => True
  | Some lines =>
      exists g, load_file loads lines = Some (g, []) /\
                unique_names g /\ no_dangling g /\ no_duplicate_relations g
  end.

(** A successful tool call whose file is the saved form of the graph it ended
    with, and loads back to it. *)
Definition written_through {A} (dumps : json -> string)
  (loads : string -> option json) (o : Outcome (envelope A)) : Prop :=
  match o with
  | Return (success _ _ _) w' =>
      disk w' = Some (KnowledgeGraph.save_lines dumps (self w')) /\
      load_file loads (KnowledgeGraph.save_lines dumps (self w')) =
      Some (self w', [])
  | _ => True
  end.

(** The graph of the first [k] records of [g]: entities come first. *)
Definition first_records (k : nat) (g : Graph) : Graph :=
  mkGraph (firstn k (entities g))
          (firstn (k - List.length (entities g)) (relations g)).

(** The graph without the entities named in [names] and without the
    relations that touch one of those names. *)
Definition without (names : list string) (g : Graph) : Graph :=
  mkGraph
    (filter (fun kv => negb (PyStr.mem (fst kv) names)) (entities g))
    (filter (fun r => negb (PyStr.mem (from r) names) &&
                      negb (PyStr.mem (to r) names)) (relations g)).

(** What a fresh object holds once it has read the file [d]: the graph and
    the warnings; no file gives the empty graph. *)
Definition loaded (loads : string -> option json) (d : file)
  : option (Graph * list error) :=
  match d with
  | None => Some (empty_graph, [])
  | Some lines => load_file loads lines
  end.

(** The first of [wanted], in the order the code reads them, that a parsed
    line does not have. *)
Definition first_missing (wanted : list string) (members : dict json)
  : option string :=
  find (fun key => negb (dict_mem key members)) wanted.

(** ** A small store to run the definitions on *)

Module Example.

Definition alice : EntityInput := mkInput "Alice" "person" None.
Definition bob : EntityInput := mkInput "Bob" "person" (Some ["likes coffee"]).
Definition nameless : EntityInput := mkInput "" "thing" None.
Definition knows : Relation := mkRelation "Alice" "Bob" "knows".
Definition ghost : Relation := mkRelation "Alice" "Carol" "knows".

(** An object on a machine without a file yet. *)
Definition fresh : World := mkWorld empty_graph None [].

(** Alice and Bob, and the relation between them. *)
Definition two : Graph :=
  mkGraph [("Alice", mkData "person" []);
           ("Bob", mkData "person" ["likes coffee"])]
          [knows].

Definition alice_line : string :=
  PyJson.text
    "{'type': 'entity', 'name': 'Alice', 'entityType': 'person', 'observations': []}".
Definition bob_line : string :=
  PyJson.text
    "{'type': 'entity', 'name': 'Bob', 'entityType': 'person', 'observations': ['likes coffee']}".
Definition knows_line : string :=
  PyJson.text
    "{'type': 'relation', 'from': 'Alice', 'to': 'Bob', 'relationType': 'knows'}".
Definition torn_line : string :=
  PyJson.text "{'type': 'entity', 'name': 'Al".

(** Alice with one note already taken. *)
Definition noted : World :=
  mkWorld (mkGraph [("Alice", mkData "person" ["met at conf"])] []) None [].

End Example.

(** ** Dicts *)

Section DictFacts.
Context {V : Type}.
Implicit Types (d : dict V) (k : string) (v : V).

Lemma dict_mem_in_keys k d : dict_mem k d = true <-> In k (keys d).
Proof.
  unfold dict_mem. induction d as [|[k' v'] d IH]; simpl.
  - split; [discriminate | tauto].
  - destruct (String.eqb_spec k k') as [->|Hne].
    + split; auto.
    + rewrite IH. split; [auto | intros [H|H]; [congruence | auto]].
Qed.

Lemma dict_mem_false k d : dict_mem k d = false <-> ~ In k (keys d).
Proof.
  rewrite <- dict_mem_in_keys. destruct (dict_mem k d); split; congruence.
Qed.


Lemma dict_set_fresh k v d :
  dict_mem k d = false -> dict_set k v d = d ++ [(k, v)].
Proof.
  unfold dict_mem. induction d as [|[k' v'] d IH]; simpl; auto.
  destruct (k =? k'); [discriminate|]. intros H. now rewrite IH.
Qed.

Lemma keys_dict_set k v d :
  keys (dict_set k v d) = if dict_mem k d then keys d else keys d ++ [k].
Proof.
  unfold dict_mem. induction d as [|[k' v'] d IH]; simpl; auto.
  destruct (k =? k'); simpl; auto.
  rewrite IH. now destruct (dict_get k d).
Qed.

Lemma dict_mem_set k k' v d :
  dict_mem k (dict_set k' v d) = (k =? k') || dict_mem k d.
Proof.
  unfold dict_mem. induction d as [|[k2 v2] d IH]; simpl.
  - now destruct (k =? k').
  - destruct (String.eqb_spec k' k2) as [->|Hne]; simpl.
    + destruct (k =? k2); auto.
    + destruct (String.eqb_spec k k2) as [->|Hne2].
      * now rewrite orb_true_r.
      * exact IH.
Qed.

Lemma dict_get_set_same k v d : dict_get k (dict_set k v d) = Some v.
Proof.
  induction d as [|[k' v'] d IH]; simpl.
  - now rewrite String.eqb_refl.
  - destruct (String.eqb_spec k k') as [->|Hne]; simpl.
    + now rewrite String.eqb_refl.
    + destruct (String.eqb_spec k k'); [congruence | exact IH].
Qed.

Lemma dict_set_set k v v' d :
  dict_set k v (dict_set k v' d) = dict_set k v d.
Proof.
  induction d as [|[k' v2] d IH]; simpl.
  - now rewrite String.eqb_refl.
  - destruct (String.eqb_spec k k') as [->|Hne]; simpl.
    + now rewrite String.eqb_refl.
    + destruct (String.eqb_spec k k'); [congruence | now rewrite IH].
Qed.

Lemma dict_set_get k v d : dict_get k d = Some v -> dict_set k v d = d.
Proof.
  induction d as [|[k' v'] d IH]; simpl; [discriminate|].
  destruct (String.eqb_spec k k') as [->|Hne].
  - now intros [= ->].
  - intros H. now rewrite IH.
Qed.


Lemma dict_mem_del_other k k' d :
  k <> k' -> dict_mem k d = true -> dict_mem k (dict_del k' d) = true.
Proof.
  unfold dict_mem. intros Hne. induction d as [|[k2 v2] d IH]; simpl; auto.
  destruct (String.eqb_spec k' k2) as [->|Hne2]; simpl.
  - destruct (String.eqb_spec k k2); [congruence | auto].
  - destruct (k =? k2); auto.
Qed.



End DictFacts.

(** ** Runs *)

Lemma for_each_ensures {A} (P : World -> Prop) (body : A -> M unit) xs :
  (forall x w, P w -> ensures P (body x w)) ->
  forall w, P w -> ensures P (for_each xs body w).
Proof.
  intros Hbody. induction xs as [|x xs IH]; intros w Hw; simpl; auto.
  unfold bind. specialize (Hbody x w Hw).
  destruct (body x w) as [[] w'|e w'|]; simpl in *; auto.
Qed.

Lemma for_each_app {A} (body : A -> M unit) xs ys w :
  for_each (xs ++ ys) body w =
  match for_each xs body w with
  | Return _ w' => for_each ys body w'
  | other => other
  end.
Proof.
  revert w. induction xs as [|x xs IH]; intros w; simpl; auto.
  unfold bind. destruct (body x w) as [[] w'|e w'|]; auto.
Qed.

Lemma ensures_bind {A B} (P : World -> Prop) (m : M A) (k : A -> M B) w :
  ensures P (m w) -> (forall a w', P w' -> ensures P (k a w')) ->
  ensures P (bind m k w).
Proof.
  unfold bind. destruct (m w) as [a w'|e w'|]; simpl; auto.
Qed.

(** ** Saving *)

Section Saving.

Variable dumps : json -> string.

Let with_disk (w : World) (ls : list string) : World :=
  mkWorld (self w) (Some ls) (stderr w).

Lemma write_all_no_fault io lines : forall n g acc err,
  (forall k, io <> WriteFails k) ->
  KnowledgeGraph.write_all io n lines (mkWorld g (Some acc) err) =
  Return tt (mkWorld g (Some (acc ++ lines)) err).
Proof.
  induction lines as [|l lines IH]; intros n g acc err Hio; simpl.
  - now rewrite app_nil_r.
  - unfold bind, KnowledgeGraph.f_write, get_disk.
    destruct io; try (simpl; rewrite IH by assumption;
                      now rewrite <- app_assoc).
    now elim (Hio n0).
Qed.

Lemma chars_cons line lines :
  chars (line :: lines) = (S (String.length line) + chars lines)%nat.
Proof. reflexivity. Qed.

Lemma write_all_fault n lines : forall written g acc err,
  KnowledgeGraph.write_all (WriteFails n) written lines
    (mkWorld g (Some acc) err) =
  if (n - written <? chars lines)%nat
  then Raise OSError (mkWorld g (Some (acc ++ torn (n - written) lines)) err)
  else Return tt (mkWorld g (Some (acc ++ lines)) err).
Proof.
  induction lines as [|l lines IH]; intros written g acc err.
  - simpl. now rewrite app_nil_r.
  - cbn [KnowledgeGraph.write_all torn]. rewrite chars_cons.
    unfold bind at 1. unfold KnowledgeGraph.f_write, bind, get_disk.
    cbn [disk].
    destruct (Nat.ltb_spec (written + String.length l) n) as [Hfit|Hcut].
    + unfold put_disk. cbn [self disk stderr]. rewrite IH.
      assert (E : (String.length l <? n - written)%nat = true)
        by (apply Nat.ltb_lt; lia).
      rewrite E.
      replace (n - (written + S (String.length l)))%nat
        with (n - written - S (String.length l))%nat by lia.
      destruct (Nat.ltb_spec (n - written - S (String.length l))
                  (chars lines));
        destruct (Nat.ltb_spec (n - written)
                    (S (String.length l) + chars lines)); try lia;
        now rewrite <- app_assoc.
    + assert (E : (String.length l <? n - written)%nat = false)
        by (apply Nat.ltb_ge; lia).
      rewrite E.
      assert (E' : (n - written <? S (String.length l) + chars lines)%nat
                   = true) by (apply Nat.ltb_lt; lia).
      rewrite E'.
      destruct (Nat.leb_spec n written) as [Hnone|Hsome].
      * replace (n - written)%nat with 0%nat by lia. simpl.
        now rewrite app_nil_r.
      * assert (E2 : (n - written =? 0)%nat = false)
          by (apply Nat.eqb_neq; lia).
        rewrite E2. reflexivity.
Qed.

(** What [_save] does under each fault plan. *)
Lemma _save_spec io w :
  KnowledgeGraph._save dumps io w =
  let lines := KnowledgeGraph.save_lines dumps (self w) in
  match io with
  | NoFault => Return tt (with_disk w lines)
  | MkdirFails => Raise OSError w
  | OpenFails => Raise FailedToSave w
  | WriteFails n =>
      if (n <? chars lines)%nat
      then Raise FailedToSave (with_disk w (torn n lines))
      else Return tt (with_disk w lines)
  end.
Proof.
  destruct w as [g d err]. unfold KnowledgeGraph._save, with_disk.
  destruct io; simpl; auto.
  - unfold try_except, bind, put_disk, get_self. simpl.
    rewrite write_all_no_fault by discriminate. reflexivity.
  - unfold try_except, bind, put_disk, get_self. simpl.
    rewrite write_all_fault. rewrite Nat.sub_0_r. simpl.
    now destruct (n <? _)%nat.
Qed.

(** [_save] never touches the object. *)
Lemma _save_self io w :
  ensures (fun w' => self w' = self w) (KnowledgeGraph._save dumps io w).
Proof.
  rewrite _save_spec. destruct io; simpl; auto.
  now destruct (_ <? _)%nat.
Qed.

End Saving.

Lemma bind_return {A B} (m : M A) (k : A -> M B) w a w' :
  m w = Return a w' -> bind m k w = k a w'.
Proof. unfold bind. now intros ->. Qed.

Lemma bind_raise {A B} (m : M A) (k : A -> M B) w e w' :
  m w = Raise e w' -> bind m k w = Raise e w'.
Proof. unfold bind. now intros ->. Qed.

(** ** The dangling-edge invariant *)

Section Invariant.

Variable dumps : json -> string.

Let inv (w : World) : Prop := no_dangling (self w).

Ltac run_state :=
  unfold set_entities, set_relations, put_self, get_self, raise, ret, bind;
  simpl.

Lemma then_save_inv (m : M unit) io w :
  ensures inv (m w) ->
  ensures inv (bind m (fun _ => KnowledgeGraph._save dumps io) w).
Proof.
  intros H. apply ensures_bind; auto.
  intros _ w' Hw'. pose proof (_save_self dumps io w') as Hs.
  destruct (KnowledgeGraph._save dumps io w') as [[] w2|e w2|];
    simpl in *; unfold inv in *; try rewrite Hs; auto.
Qed.

Lemma create_entities_inv io batch w :
  inv w -> ensures inv (KnowledgeGraph.create_entities dumps io batch w).
Proof.
  intros Hw. apply then_save_inv. apply for_each_ensures; auto.
  clear. intros entity [g d err] Hg.
  unfold KnowledgeGraph.create_entities_body. run_state.
  destruct (dict_mem (in_name entity) (entities g)) eqn:Hm; simpl; auto.
  intros r Hr. destruct (Hg r Hr) as [Hf Ht]. simpl in *.
  rewrite !dict_mem_set, Hf, Ht, !orb_true_r. auto.
Qed.

Lemma create_relations_inv io batch w :
  inv w -> ensures inv (KnowledgeGraph.create_relations dumps io batch w).
Proof.
  intros Hw. apply then_save_inv. apply for_each_ensures; auto.
  clear. intros relation [g d err] Hg.
  unfold KnowledgeGraph.create_relations_body. run_state.
  destruct (dict_mem (from relation) (entities g)) eqn:Hf; simpl; auto.
  destruct (dict_mem (to relation) (entities g)) eqn:Ht; simpl; auto.
  destruct (existsb _ (relations g)); simpl; auto.
  intros r Hr. simpl in *. apply in_app_or in Hr as [Hr|[<-|[]]]; auto.
Qed.

Lemma add_observations_inv io name obs w :
  inv w -> ensures inv (KnowledgeGraph.add_observations dumps io name obs w).
Proof.
  intros Hw. unfold KnowledgeGraph.add_observations.
  unfold bind at 1. unfold get_self.
  destruct (dict_get name (entities (self w))); simpl; auto.
  apply then_save_inv. destruct w as [g d err]. run_state.
  intros r Hr. destruct (Hw r Hr) as [Hf Ht]. simpl in *.
  rewrite !dict_mem_set, Hf, Ht, !orb_true_r. auto.
Qed.

Lemma delete_observations_inv io name obs w :
  inv w ->
  ensures inv (KnowledgeGraph.delete_observations dumps io name obs w).
Proof.
  intros Hw. unfold KnowledgeGraph.delete_observations.
  unfold bind at 1. unfold get_self.
  destruct (dict_get name (entities (self w))); simpl; auto.
  apply then_save_inv. destruct w as [g d err]. run_state.
  intros r Hr. destruct (Hw r Hr) as [Hf Ht]. simpl in *.
  rewrite !dict_mem_set, Hf, Ht, !orb_true_r. auto.
Qed.

(** One turn of the loop of [delete_entities]. *)
Lemma delete_one name g d err :
  no_dangling g ->
  exists g',
    KnowledgeGraph.delete_entities_body name (mkWorld g d err) =
    Return tt (mkWorld g' d err) /\
    no_dangling g' /\ incl (relations g') (relations g) /\
    forall r, In r (relations g') -> from r <> name /\ to r <> name.
Proof.
  intros Hg. unfold KnowledgeGraph.delete_entities_body. run_state.
  destruct (dict_mem name (entities g)) eqn:Hm; simpl.
  - eexists. split; [reflexivity|]. split; [|split].
    + intros r Hr. simpl in *. apply filter_In in Hr as [Hr Hne].
      apply andb_true_iff in Hne as [H1 H2].
      apply negb_true_iff in H1, H2.
      apply String.eqb_neq in H1, H2.
      destruct (Hg r Hr). split; apply dict_mem_del_other; auto.
    + simpl. intros r Hr. now apply filter_In in Hr.
    + simpl. intros r Hr. apply filter_In in Hr as [_ Hne].
      apply andb_true_iff in Hne as [H1 H2].
      apply negb_true_iff in H1, H2. now apply String.eqb_neq in H1, H2.
  - exists g. split; [reflexivity|]. split; [auto|]. split; [apply incl_refl|].
    intros r Hr. destruct (Hg r Hr) as [Hf Ht].
    split; intros E; rewrite <- E in Hm; congruence.
Qed.

Lemma delete_loop names : forall g d err,
  no_dangling g ->
  exists g',
    for_each names KnowledgeGraph.delete_entities_body (mkWorld g d err) =
    Return tt (mkWorld g' d err) /\
    no_dangling g' /\ incl (relations g') (relations g) /\
    forall n r, In n names -> In r (relations g') ->
                from r <> n /\ to r <> n.
Proof.
  induction names as [|name names IH]; intros g d err Hg; simpl.
  - exists g. split; [reflexivity|]. split; [auto|]. split; [apply incl_refl|].
    intros n r [].
  - destruct (delete_one name g d err Hg) as (g1 & E1 & Hg1 & Hincl1 & Hn1).
    destruct (IH g1 d err Hg1) as (g2 & E2 & Hg2 & Hincl2 & Hn2).
    exists g2. unfold bind at 1. rewrite E1. split; [exact E2|].
    split; [auto|]. split; [eapply incl_tran; eauto|].
    intros n r [<-|Hin] Hr; auto.
Qed.

Lemma delete_entities_inv io names w :
  inv w -> ensures inv (KnowledgeGraph.delete_entities dumps io names w).
Proof.
  intros Hw. apply then_save_inv. destruct w as [g d err].
  destruct (delete_loop names g d err Hw) as (g' & E & Hg' & _).
  rewrite E. exact Hg'.
Qed.

Lemma delete_relations_inv io batch w :
  inv w -> ensures inv (KnowledgeGraph.delete_relations dumps io batch w).
Proof.
  intros Hw. apply then_save_inv. apply for_each_ensures; auto.
  clear. intros relation [g d err] Hg.
  unfold KnowledgeGraph.delete_relations_body. run_state.
  intros r Hr. simpl in *. apply filter_In in Hr as [Hr _]. now apply Hg.
Qed.

Lemma perform_inv io o w :
  inv w -> ensures inv (perform dumps io o w).
Proof.
  destruct o; simpl.
  - apply create_entities_inv.
  - apply create_relations_inv.
  - apply add_observations_inv.
  - apply delete_entities_inv.
  - apply delete_observations_inv.
  - apply delete_relations_inv.
Qed.

Lemma trace_inv calls : forall w,
  inv w -> Forall inv (trace dumps calls w).
Proof.
  induction calls as [|[io o] calls IH]; intros w Hw; simpl; constructor.
  - pose proof (perform_inv io o w Hw) as H.
    destruct (perform dumps io o w); simpl in *; auto.
  - apply IH. pose proof (perform_inv io o w Hw) as H.
    destruct (perform dumps io o w); simpl in *; auto.
Qed.

(** The loop of [create_relations] raises at a relation with an absent
    endpoint, if not before, and nothing is saved. *)
Lemma create_relations_rejects io batch r w :
  In r batch ->
  dict_mem (from r) (entities (self w)) &&
  dict_mem (to r) (entities (self w)) = false ->
  exists e w',
    KnowledgeGraph.create_relations dumps io batch w = Raise e w' /\
    disk w' = disk w /\ entities (self w') = entities (self w).
Proof.
  unfold KnowledgeGraph.create_relations. intros Hin Hmiss.
  set (body := KnowledgeGraph.create_relations_body).
  assert (H : exists e w', for_each batch body w = Raise e w' /\
              disk w' = disk w /\ entities (self w') = entities (self w)).
  { revert w Hmiss. induction batch as [|x xs IH]; intros w Hmiss;
      [destruct Hin|].
    simpl. unfold bind at 1.
    assert (Hx : (exists e, body x w = Raise e w) \/
                 (x <> r /\ exists w1, body x w = Return tt w1 /\
                    disk w1 = disk w /\
                    entities (self w1) = entities (self w))).
    { subst body. unfold KnowledgeGraph.create_relations_body.
      destruct w as [g d err]. run_state. simpl in Hmiss.
      destruct (dict_mem (from x) (entities g)) eqn:Hf; simpl; eauto.
      destruct (dict_mem (to x) (entities g)) eqn:Ht; simpl; eauto.
      destruct (existsb _ (relations g)); simpl; eauto.
      right. split; [|eauto]. intros ->. rewrite Hf, Ht in Hmiss.
      discriminate. }
    destruct Hx as [[e ->]|(Hne & w1 & -> & Hd & He)]; [eauto|].
    destruct Hin as [->|Hin]; [congruence|].
    destruct (IH Hin w1) as (e & w' & E & Hd' & He').
    { now rewrite He. }
    exists e, w'. repeat split; congruence. }
  destruct H as (e & w' & E & Hd & He). exists e, w'.
  now rewrite (bind_raise _ _ _ _ _ E).
Qed.

(** After [delete_entities], no relation touches a name of the request. *)
Lemma delete_entities_cascades io names w :
  inv w ->
  ensures (fun w' => forall n r, In n names -> In r (relations (self w')) ->
                                 from r <> n /\ to r <> n)
    (KnowledgeGraph.delete_entities dumps io names w).
Proof.
  intros Hw. unfold KnowledgeGraph.delete_entities. destruct w as [g d err].
  destruct (delete_loop names g d err Hw) as (g' & E & _ & _ & Hn).
  rewrite (bind_return _ _ _ _ _ E).
  pose proof (_save_self dumps io (mkWorld g' d err)) as Hs.
  destruct (KnowledgeGraph._save dumps io _) as [[] w2|e w2|]; simpl in *;
    auto; rewrite Hs; exact Hn.
Qed.

End Invariant.

(** ** Batches, deletions and observations *)

Lemma mem_In x xs : PyStr.mem x xs = true <-> In x xs.
Proof.
  unfold PyStr.mem. rewrite existsb_exists. split.
  - intros (y & Hy & E). apply String.eqb_eq in E. now subst.
  - intros H. exists x. split; [auto | apply String.eqb_refl].
Qed.

Lemma filter_out_added (obs0 obs : list string) :
  (forall o, In o obs -> ~ In o obs0) ->
  filter (fun o => negb (PyStr.mem o obs)) (obs0 ++ obs) = obs0.
Proof.
  intros Hdisj. rewrite filter_app.
  assert (H1 : filter (fun o => negb (PyStr.mem o obs)) obs0 = obs0).
  { apply forallb_filter_id. apply forallb_forall. intros o Ho.
    apply negb_true_iff. destruct (PyStr.mem o obs) eqn:E; auto.
    apply mem_In in E. now elim (Hdisj o E). }
  assert (H2 : forall l, (forall o, In o l -> In o obs) ->
                 filter (fun o => negb (PyStr.mem o obs)) l = []).
  { induction l as [|o l IH]; intros Hl; simpl; auto.
    assert (E : PyStr.mem o obs = true) by (apply mem_In, Hl; now left).
    rewrite E. simpl. apply IH. intros o' Ho'. apply Hl. now right. }
  rewrite H1, H2 by auto. apply app_nil_r.
Qed.

Section Batches.

Variable dumps : json -> string.

Let with_graph (w : World) (g : Graph) : World :=
  mkWorld g (disk w) (stderr w).

Ltac run_state :=
  unfold set_entities, set_relations, put_self, get_self, raise, ret, bind;
  simpl.

(** A batch of new, distinct names is stored whole, in order. *)
Lemma create_entities_loop_fresh batch : forall w,
  NoDup (map in_name batch) ->
  (forall e, In e batch -> dict_mem (in_name e) (entities (self w)) = false) ->
  for_each batch KnowledgeGraph.create_entities_body w =
  Return tt
    (with_graph w (mkGraph (entities (self w) ++ map stored batch)
                     (relations (self w)))).
Proof.
  unfold with_graph.
  induction batch as [|e batch IH]; intros [[es rs] d err] Hnd Hfresh; simpl.
  - now rewrite app_nil_r.
  - inversion Hnd as [|? ? Hnotin Hnd']; subst. simpl in Hfresh.
    assert (He : dict_mem (in_name e) es = false)
      by (apply (Hfresh e); now left).
    erewrite bind_return.
    2:{ unfold KnowledgeGraph.create_entities_body. run_state.
        rewrite He. simpl. reflexivity. }
    rewrite IH; simpl; auto.
    + rewrite (dict_set_fresh _ _ _ He), <- app_assoc. reflexivity.
    + intros e' He'. rewrite dict_mem_set.
      rewrite (Hfresh e') by now right. rewrite orb_false_r.
      apply String.eqb_neq. intros E. apply Hnotin. rewrite <- E.
      now apply in_map.
Qed.

(** The loop stops at the first name already in the store or earlier in
    the batch; what came before it stays in the object. *)
Lemma create_entities_loop_duplicate pre dup post w :
  NoDup (map in_name pre) ->
  (forall e, In e pre -> dict_mem (in_name e) (entities (self w)) = false) ->
  dict_mem (in_name dup) (entities (self w)) = true \/
  In (in_name dup) (map in_name pre) ->
  for_each (pre ++ dup :: post) KnowledgeGraph.create_entities_body w =
  Raise (EntityAlreadyExists (in_name dup))
    (with_graph w (mkGraph (entities (self w) ++ map stored pre)
                     (relations (self w)))).
Proof.
  intros Hnd Hfresh Hdup. rewrite for_each_app.
  rewrite create_entities_loop_fresh by assumption. simpl.
  erewrite bind_raise; [reflexivity|].
  unfold KnowledgeGraph.create_entities_body, with_graph. run_state.
  assert (E : dict_mem (in_name dup)
                (entities (self w) ++ map stored pre) = true).
  { apply dict_mem_in_keys. unfold keys. rewrite map_app. apply in_or_app.
    destruct Hdup as [H|H].
    - left. now apply dict_mem_in_keys in H.
    - right. rewrite map_map. exact H. }
  now rewrite E.
Qed.

Lemma create_relations_body_spec relation g d err :
  KnowledgeGraph.create_relations_body relation (mkWorld g d err) =
  match rejection g relation with
  | Some e => Raise e (mkWorld g d err)
  | None =>
      Return tt (mkWorld (mkGraph (entities g) (relations g ++ [relation]))
                   d err)
  end.
Proof.
  unfold KnowledgeGraph.create_relations_body, rejection. run_state.
  destruct (dict_mem (from relation) (entities g)); simpl; auto.
  destruct (dict_mem (to relation) (entities g)); simpl; auto.
  destruct (existsb _ (relations g)); simpl; auto.
Qed.

Lemma create_relations_loop_accepted batch : forall g d err,
  all_accepted g batch ->
  for_each batch KnowledgeGraph.create_relations_body (mkWorld g d err) =
  Return tt (mkWorld (mkGraph (entities g) (relations g ++ batch)) d err).
Proof.
  induction batch as [|r batch IH]; intros g d err Hacc; simpl.
  - rewrite app_nil_r. now destruct g.
  - destruct Hacc as [Hr Hrest].
    erewrite bind_return
      by (rewrite create_relations_body_spec, Hr; reflexivity).
    rewrite IH by assumption. simpl. now rewrite <- app_assoc.
Qed.

Lemma create_relations_loop_rejected pre bad post e g d err :
  all_accepted g pre ->
  rejection (mkGraph (entities g) (relations g ++ pre)) bad = Some e ->
  for_each (pre ++ bad :: post) KnowledgeGraph.create_relations_body
    (mkWorld g d err) =
  Raise e (mkWorld (mkGraph (entities g) (relations g ++ pre)) d err).
Proof.
  intros Hacc Hrej. rewrite for_each_app.
  rewrite create_relations_loop_accepted by assumption. simpl.
  erewrite bind_raise; [reflexivity|].
  now rewrite create_relations_body_spec, Hrej.
Qed.

(** Names that are absent leave the loop of [delete_entities] idle. *)
Lemma delete_entities_loop_absent names : forall w,
  (forall n, In n names -> dict_mem n (entities (self w)) = false) ->
  for_each names KnowledgeGraph.delete_entities_body w = Return tt w.
Proof.
  induction names as [|n names IH]; intros w Habs; simpl; auto.
  erewrite bind_return.
  2:{ unfold KnowledgeGraph.delete_entities_body. run_state.
      rewrite (Habs n) by now left. reflexivity. }
  apply IH. intros n' Hn'. apply Habs. now right.
Qed.

Lemma final_then_save (m : M unit) io w w1 :
  m w = Return tt w1 ->
  self (final (bind m (fun _ => KnowledgeGraph._save dumps io) w) w) = self w1.
Proof.
  intros E. rewrite (bind_return _ _ _ _ _ E).
  pose proof (_save_self dumps io w1) as Hs.
  destruct (KnowledgeGraph._save dumps io w1) as [[] w2|e w2|] eqn:Es;
    simpl in *; auto.
  rewrite _save_spec in Es. destruct io; simpl in *; try discriminate.
  destruct (_ <? _)%nat; discriminate.
Qed.

Lemma add_observations_final io name obs w data :
  dict_get name (entities (self w)) = Some data ->
  self (final (KnowledgeGraph.add_observations dumps io name obs w) w) =
  mkGraph (dict_set name (mkData (entityType data) (observations data ++ obs))
             (entities (self w)))
    (relations (self w)).
Proof.
  intros Hget. unfold KnowledgeGraph.add_observations.
  unfold bind at 1. unfold get_self. rewrite Hget.
  erewrite final_then_save; [|run_state; reflexivity]. reflexivity.
Qed.

Lemma delete_observations_final io name obs w entity :
  dict_get name (entities (self w)) = Some entity ->
  self (final (KnowledgeGraph.delete_observations dumps io name obs w) w) =
  mkGraph (dict_set name
             (mkData (entityType entity)
                (filter (fun o => negb (PyStr.mem o obs))
                   (observations entity)))
             (entities (self w)))
    (relations (self w)).
Proof.
  intros Hget. unfold KnowledgeGraph.delete_observations.
  unfold bind at 1. unfold get_self. rewrite Hget.
  erewrite final_then_save; [|run_state; reflexivity]. reflexivity.
Qed.

End Batches.

(** ** Searching *)

Lemma prefix_append (p s : string) :
  prefix p s = true <-> exists post, s = (p ++ post)%string.
Proof.
  revert s. induction p as [|c p IH]; intros s; simpl.
  - split; [intros _; now exists s | intros _; now destruct s].
  - destruct s as [|c' s]; simpl.
    + split; [discriminate | intros [post H]; discriminate].
    + destruct (Ascii.ascii_dec c c') as [->|Hne].
      * rewrite IH. split; intros [post H]; exists post; congruence.
      * split; [discriminate | intros [post H]; congruence].
Qed.

(** [contains] is the substring test. *)
Lemma contains_spec (needle hay : string) :
  PyStr.contains needle hay = true <->
  exists pre post, hay = (pre ++ needle ++ post)%string.
Proof.
  induction hay as [|c hay IH].
  - change (PyStr.contains needle "") with (prefix needle "" || false).
    rewrite orb_false_r, prefix_append. split.
    + intros [post H]. now exists ""%string, post.
    + intros (pre & post & H). destruct pre; simpl in H.
      * now exists post.
      * discriminate.
  - change (PyStr.contains needle (String c hay))
      with (prefix needle (String c hay) || PyStr.contains needle hay).
    rewrite orb_true_iff, IH, prefix_append. split.
    + intros [[post H]|(pre & post & H)].
      * now exists ""%string, post.
      * exists (String c pre), post. simpl. now rewrite H.
    + intros (pre & post & H). destruct pre as [|c' pre]; simpl in H.
      * left. now exists post.
      * right. exists pre, post. congruence.
Qed.

Section Searching.

Import KnowledgeGraph.

Lemma search_observations_spec q name data obs results :
  search_observations q name data obs results =
  results ++
  (if existsb (fun o => PyStr.contains q (PyStr.lower o)) obs
   then [mkResult name data "observation"] else []).
Proof.
  induction obs as [|o obs IH]; simpl.
  - now rewrite app_nil_r.
  - destruct (PyStr.contains q (PyStr.lower o)); simpl; auto.
Qed.

Lemma search_items_spec query items : forall results,
  search_items (PyStr.lower query) items results =
  results ++ flat_map (hit query) items.
Proof.
  induction items as [|[name data] items IH]; intros results; simpl.
  - now rewrite app_nil_r.
  - unfold hit at 1, first_match. simpl.
    destruct (PyStr.contains (PyStr.lower query) (PyStr.lower name)).
    { rewrite IH, <- app_assoc. reflexivity. }
    destruct (PyStr.contains (PyStr.lower query)
                (PyStr.lower (entityType data))).
    { rewrite IH, <- app_assoc. reflexivity. }
    rewrite IH, search_observations_spec, <- app_assoc.
    now destruct (existsb _ (observations data)).
Qed.

Lemma search_nodes_spec g query :
  search_nodes g query = flat_map (hit query) (entities g).
Proof. unfold search_nodes. now rewrite search_items_spec. Qed.

Lemma hit_name query item r :
  In r (hit query item) -> sr_name r = fst item.
Proof.
  unfold hit. destruct (first_match _ _ _); simpl; [|tauto].
  now intros [<-|[]].
Qed.

Lemma filter_hits_absent query name items :
  ~ In name (keys items) ->
  filter (fun r => sr_name r =? name) (flat_map (hit query) items) = [].
Proof.
  induction items as [|item items IH]; simpl; auto.
  intros Hn. rewrite filter_app, IH by tauto. rewrite app_nil_r.
  assert (H : forall l, (forall r, In r l -> sr_name r <> name) ->
                filter (fun r => sr_name r =? name) l = []).
  { induction l as [|r l IHl]; intros Hl; simpl; auto.
    destruct (String.eqb_spec (sr_name r) name) as [E|_].
    - elim (Hl r); auto. now left.
    - apply IHl. intros r' Hr'. apply Hl. now right. }
  apply H. intros r Hr E. apply hit_name in Hr. apply Hn. left. congruence.
Qed.

Lemma filter_hits_own query name data :
  filter (fun r => sr_name r =? name) (hit query (name, data)) =
  hit query (name, data).
Proof.
  unfold hit. simpl. destruct (first_match query name data); simpl; auto.
  now rewrite String.eqb_refl.
Qed.

Lemma filter_hits query name data items :
  NoDup (keys items) -> dict_get name items = Some data ->
  filter (fun r => sr_name r =? name) (flat_map (hit query) items) =
  hit query (name, data).
Proof.
  induction items as [|[n d] items IH]; simpl; [discriminate|].
  intros Hnd Hget. inversion Hnd as [|? ? Hnotin Hnd']; subst.
  rewrite filter_app.
  destruct (String.eqb_spec name n) as [->|Hne].
  - injection Hget as ->.
    rewrite filter_hits_own, filter_hits_absent by assumption.
    apply app_nil_r.
  - rewrite IH by assumption.
    replace (filter _ (hit query (n, d))) with (@nil SearchResult); auto.
    symmetry.
    pose proof (filter_hits_absent query name [(n, d)]) as H.
    simpl in H. rewrite app_nil_r in H. apply H.
    intros [E|[]]. congruence.
Qed.

End Searching.

(** ** Loading *)

Lemma off_disk_bind {A B} (m : M A) (k : A -> M B) :
  off_disk m -> (forall a, off_disk (k a)) -> off_disk (bind m k).
Proof.
  intros Hm Hk g d d' err. unfold bind. rewrite (Hm g d d' err).
  destruct (m (mkWorld g d err)) as [a [g1 d1 err1]|e [g1 d1 err1]|]; simpl; auto.
  apply Hk.
Qed.

Lemma off_disk_ret {A} (a : A) : off_disk (ret a).
Proof. now intros g d d' err. Qed.

Lemma off_disk_raise {A} e : off_disk (@raise A e).
Proof. now intros g d d' err. Qed.

Lemma off_disk_untyped {A} : off_disk (@untyped A).
Proof. now intros g d d' err. Qed.

Lemma off_disk_get_self : off_disk get_self.
Proof. now intros g d d' err. Qed.

Lemma off_disk_put_self g : off_disk (put_self g).
Proof. now intros g0 d d' err. Qed.

Lemma off_disk_for_each {A} (body : A -> M unit) xs :
  (forall x, off_disk (body x)) -> off_disk (for_each xs body).
Proof.
  intros Hb. induction xs as [|x xs IH]; simpl.
  - apply off_disk_ret.
  - apply off_disk_bind; auto.
Qed.

Section Loading.

Variable dumps : json -> string.
Variable loads : string -> option json.

Ltac off_disk_step :=
  first
    [ apply off_disk_ret | apply off_disk_raise | apply off_disk_untyped
    | apply off_disk_get_self | apply off_disk_put_self
    | apply off_disk_bind; [|intros ?] ].

Lemma off_disk_getitem data key : off_disk (KnowledgeGraph.getitem data key).
Proof.
  unfold KnowledgeGraph.getitem. destruct data; try off_disk_step.
  destruct (dict_get key members); off_disk_step.
Qed.

Lemma off_disk_load_line line : off_disk (KnowledgeGraph.load_line loads line).
Proof.
  unfold KnowledgeGraph.load_line.
  destruct (PyStr.strip_nonempty line); [|off_disk_step].
  destruct (loads line) as [data|]; [|off_disk_step].
  apply off_disk_bind; [apply off_disk_getitem|intros ty].
  destruct (KnowledgeGraph.is_str ty "entity").
  - repeat (apply off_disk_bind; [apply off_disk_getitem|intros ?]).
    apply off_disk_bind.
    { unfold KnowledgeGraph.as_key. destruct a1; off_disk_step. }
    intros name. apply off_disk_bind.
    { unfold KnowledgeGraph.as_str. destruct a; off_disk_step. }
    intros etype. apply off_disk_bind.
    { unfold KnowledgeGraph.as_str_list. destruct a0; try off_disk_step.
      destruct (KnowledgeGraph.strs items); off_disk_step. }
    intros obs. unfold set_entities. repeat off_disk_step.
  - apply off_disk_bind; [apply off_disk_getitem|intros ty'].
    destruct (KnowledgeGraph.is_str ty' "relation"); [|off_disk_step].
    repeat (apply off_disk_bind; [apply off_disk_getitem|intros ?]).
    repeat (apply off_disk_bind;
            [unfold KnowledgeGraph.as_str;
             match goal with |- off_disk (match ?x with _ => _ end) =>
               destruct x end; off_disk_step
            |intros ?]).
    unfold set_relations. repeat off_disk_step.
Qed.

Lemma off_disk_load_lines lines :
  off_disk (for_each lines (KnowledgeGraph.load_line loads)).
Proof. apply off_disk_for_each, off_disk_load_line. Qed.

(** [KnowledgeGraph()] in terms of the loop over the lines. *)
Lemma __init___spec g d err :
  KnowledgeGraph.__init__ loads (mkWorld g d err) =
  match d with
  | None => Return tt (mkWorld empty_graph d err)
  | Some lines =>
      match for_each lines (KnowledgeGraph.load_line loads)
              (mkWorld empty_graph d err) with
      | Return _ w => Return tt w
      | Raise e w => Return tt (mkWorld (self w) (disk w) (stderr w ++ [e]))
      | Untyped => Untyped
      end
  end.
Proof.
  unfold KnowledgeGraph.__init__, KnowledgeGraph._load, bind, put_self,
    get_disk, try_except, warn. simpl.
  destruct d as [lines|]; auto.
  now destruct (for_each lines _ _) as [[] w|e w|].
Qed.

(** [KnowledgeGraph()] never raises and leaves the file alone. *)
Lemma __init___outcome w :
  match KnowledgeGraph.__init__ loads w with
  | Return _ w' => disk w' = disk w
  | Raise _ _ => False
  | Untyped => True
  end.
Proof.
  destruct w as [g d err]. rewrite __init___spec.
  destruct d as [lines|]; simpl; auto.
  pose proof (off_disk_load_lines lines empty_graph None (Some lines) err) as H.
  rewrite H.
  destruct (for_each lines _ (mkWorld empty_graph None err))
    as [[] w|e w|]; simpl; auto.
Qed.

Lemma load_file_spec lines :
  load_file loads lines =
  match for_each lines (KnowledgeGraph.load_line loads)
          (mkWorld empty_graph None []) with
  | Return _ w => Some (self w, stderr w)
  | Raise e w => Some (self w, stderr w ++ [e])
  | Untyped => None
  end.
Proof.
  unfold load_file. rewrite __init___spec.
  rewrite (off_disk_load_lines lines empty_graph None (Some lines) []).
  now destruct (for_each lines _ _) as [[] w|e w|].
Qed.


Lemma load_line_blank line w :
  PyStr.strip_nonempty line = false ->
  KnowledgeGraph.load_line loads line w = Return tt w.
Proof. unfold KnowledgeGraph.load_line. now intros ->. Qed.

Lemma load_line_malformed line w :
  PyStr.strip_nonempty line = true -> loads line = None ->
  KnowledgeGraph.load_line loads line w = Raise JSONDecodeError w.
Proof. unfold KnowledgeGraph.load_line. now intros -> ->. Qed.

Lemma strs_map_JStr obs : KnowledgeGraph.strs (map JStr obs) = Some obs.
Proof. induction obs as [|o obs IH]; simpl; auto. now rewrite IH. Qed.

Lemma load_line_entity line name data g d err :
  PyStr.strip_nonempty line = true ->
  loads line = Some (entity_record name data) ->
  KnowledgeGraph.load_line loads line (mkWorld g d err) =
  Return tt (mkWorld (mkGraph (dict_set name data (entities g)) (relations g))
               d err).
Proof.
  unfold KnowledgeGraph.load_line. intros -> ->.
  unfold bind, KnowledgeGraph.getitem, entity_record. simpl.
  unfold KnowledgeGraph.as_str_list. rewrite strs_map_JStr.
  now destruct data.
Qed.

Lemma load_line_relation line relation g d err :
  PyStr.strip_nonempty line = true ->
  loads line = Some (relation_record relation) ->
  KnowledgeGraph.load_line loads line (mkWorld g d err) =
  Return tt (mkWorld (mkGraph (entities g) (relations g ++ [relation])) d err).
Proof.
  unfold KnowledgeGraph.load_line. intros -> ->.
  unfold bind, KnowledgeGraph.getitem, relation_record. simpl.
  now destruct relation.
Qed.

End Loading.

(** ** Saving, then loading *)

Section RoundTrip.

Variable dumps : json -> string.
Variable loads : string -> option json.

Let load_line := KnowledgeGraph.load_line loads.

Lemma save_lines_records g :
  KnowledgeGraph.save_lines dumps g = map dumps (records g).
Proof.
  unfold KnowledgeGraph.save_lines, records.
  rewrite map_app, !map_map. f_equal.
  apply map_ext. now intros [name data].
Qed.

Lemma load_entity_lines es : forall es0 rs0 d err,
  NoDup (keys (es0 ++ es)) ->
  (forall name data, In (name, data) es ->
     codec_ok dumps loads (entity_record name data)) ->
  for_each (map dumps (map (fun '(name, data) => entity_record name data) es))
    load_line (mkWorld (mkGraph es0 rs0) d err) =
  Return tt (mkWorld (mkGraph (es0 ++ es) rs0) d err).
Proof.
  induction es as [|[name data] es IH]; intros es0 rs0 d err Hnd Hok; simpl.
  - now rewrite app_nil_r.
  - destruct (Hok name data) as [Hblank Hload]; [now left|].
    assert (Hfresh : dict_mem name es0 = false).
    { apply dict_mem_false. unfold keys in *. rewrite map_app in Hnd.
      simpl in Hnd. apply NoDup_remove_2 in Hnd. intros Hin. apply Hnd.
      apply in_or_app. now left. }
    erewrite bind_return
      by (apply (load_line_entity loads); eassumption).
    simpl. rewrite (dict_set_fresh _ _ _ Hfresh).
    rewrite IH.
    + now rewrite <- app_assoc.
    + now rewrite <- app_assoc.
    + intros n dt Hin. apply Hok. now right.
Qed.

Lemma load_relation_lines rs : forall es0 rs0 d err,
  (forall r, In r rs -> codec_ok dumps loads (relation_record r)) ->
  for_each (map dumps (map relation_record rs))
    load_line (mkWorld (mkGraph es0 rs0) d err) =
  Return tt (mkWorld (mkGraph es0 (rs0 ++ rs)) d err).
Proof.
  induction rs as [|r rs IH]; intros es0 rs0 d err Hok; simpl.
  - now rewrite app_nil_r.
  - destruct (Hok r) as [Hblank Hload]; [now left|].
    erewrite bind_return
      by (apply (load_line_relation loads); eassumption).
    simpl. rewrite IH.
    + now rewrite <- app_assoc.
    + intros r' Hin. apply Hok. now right.
Qed.

(** The lines of a graph load back into that graph, without a warning. *)
Lemma load_saved_lines g :
  NoDup (keys (entities g)) ->
  (forall v, In v (records g) -> codec_ok dumps loads v) ->
  load_file loads (KnowledgeGraph.save_lines dumps g) = Some (g, []).
Proof.
  intros Hnd Hok. rewrite load_file_spec, save_lines_records.
  unfold records. rewrite map_app, for_each_app.
  fold load_line. unfold empty_graph.
  rewrite load_entity_lines; simpl; auto.
  - rewrite load_relation_lines; simpl.
    + now destruct g.
    + intros r Hr. apply Hok. unfold records. apply in_or_app. right.
      now apply in_map.
  - intros name data Hin. apply Hok. unfold records. apply in_or_app. left.
    now apply (in_map (fun '(name, data) => entity_record name data)) in Hin.
Qed.

(** A blank line changes nothing. *)
Lemma load_file_blank pre line post :
  PyStr.strip_nonempty line = false ->
  load_file loads (pre ++ line :: post) = load_file loads (pre ++ post).
Proof.
  intros Hblank. rewrite !load_file_spec, !for_each_app. simpl.
  destruct (for_each pre _ _) as [[] w|e w|]; auto.
  now rewrite (bind_return _ _ _ _ _ (load_line_blank loads line w Hblank)).
Qed.

(** The load ends at a line that does not parse. *)
Lemma load_file_malformed pre line post g :
  PyStr.strip_nonempty line = true -> loads line = None ->
  load_file loads pre = Some (g, []) ->
  load_file loads (pre ++ line :: post) = Some (g, [JSONDecodeError]).
Proof.
  intros Hline Hbad. rewrite !load_file_spec, for_each_app. simpl.
  destruct (for_each pre _ _) as [[] w|e w|]; try discriminate.
  - intros [= <- Herr].
    rewrite (bind_raise _ _ _ _ _ (load_line_malformed loads line w Hline Hbad)).
    now rewrite Herr.
  - intros [= _ Herr]. now destruct (stderr w).
Qed.

End RoundTrip.

(** ** The tools *)

Section ToolFacts.

Variable dumps : json -> string.
Variable loads : string -> option json.

Ltac run_state :=
  unfold set_entities, set_relations, put_self, get_self, raise, ret, bind;
  simpl.

(** Every tool has one shape: build the object, call the method, wrap. *)
Lemma tool_shape {A} (method : M unit) (env : envelope A) name d :
  call (try_except
          (KnowledgeGraph.__init__ loads ;; method ;; ret env)
          (fun e => ret (failure name e))) d =
  match KnowledgeGraph.__init__ loads (mkWorld empty_graph d []) with
  | Return _ w0 =>
      match method w0 with
      | Return _ w1 => Return env w1
      | Raise e w1 => Return (failure name e) w1
      | Untyped => Untyped
      end
  | Raise e w0 => Return (failure name e) w0
  | Untyped => Untyped
  end.
Proof.
  unfold call, try_except, bind.
  destruct (KnowledgeGraph.__init__ loads _) as [[] w0|e w0|]; auto.
  destruct (method w0) as [[] w1|e w1|]; auto.
Qed.

(** The part of each method before [_save] leaves the file alone. *)
(** A run that leaves the file alone and does not fail as a save does. *)
Let checks_only (w : World) (o : Outcome unit) : Prop :=
  match o with
  | Return _ w' => disk w' = disk w
  | Raise e w' => disk w' = disk w /\ e <> FailedToSave
  | Untyped => True
  end.

(** What a method that raised has left of the file. *)
Let kept_or_torn (io : io_fault) (w : World) (o : Outcome unit) : Prop :=
  match o with
  | Raise e w1 =>
      match io, e with
      | WriteFails n, FailedToSave =>
          (n < chars (KnowledgeGraph.save_lines dumps (self w1)))%nat /\
          disk w1 = Some (torn n (KnowledgeGraph.save_lines dumps (self w1)))
      | _, _ => disk w1 = disk w
      end
  | _ => True
  end.

Lemma loop_checks_only {A} (body : A -> M unit) xs : forall w,
  (forall x w0, checks_only w0 (body x w0)) ->
  checks_only w (for_each xs body w).
Proof.
  induction xs as [|x xs IH]; intros w Hb; simpl; [reflexivity|].
  unfold bind. specialize (Hb x w) as Hx.
  destruct (body x w) as [[] w'|e w'|]; simpl in *; auto.
  specialize (IH w' Hb).
  destruct (for_each xs body w') as [[] w2|e w2|]; simpl in *;
    [congruence | | exact I].
  destruct IH as [E Hne]. split; [congruence | exact Hne].
Qed.

Lemma then_save_kept_or_torn (m : M unit) io w :
  checks_only w (m w) ->
  kept_or_torn io w (bind m (fun _ => KnowledgeGraph._save dumps io) w).
Proof.
  unfold bind, checks_only, kept_or_torn.
  destruct (m w) as [[] w'|e w'|]; simpl; auto.
  - intros Hd. rewrite _save_spec. destruct io; simpl; auto.
    destruct (Nat.ltb_spec n
                (chars (KnowledgeGraph.save_lines dumps (self w'))));
      simpl; auto.
  - intros [Hd Hne]. destruct io; auto. destruct e; auto. contradiction.
Qed.

Lemma perform_kept_or_torn io o w :
  kept_or_torn io w (perform dumps io o w).
Proof.
  destruct o; simpl.
  - apply then_save_kept_or_torn, loop_checks_only.
    intros x [g d err]. unfold KnowledgeGraph.create_entities_body.
    run_state. destruct (dict_mem _ _); simpl; auto.
    split; [reflexivity | discriminate].
  - apply then_save_kept_or_torn, loop_checks_only.
    intros x [g d err]. unfold KnowledgeGraph.create_relations_body.
    run_state.
    destruct (dict_mem (from x) _); simpl;
      [|split; [reflexivity | discriminate]].
    destruct (dict_mem (to x) _); simpl;
      [|split; [reflexivity | discriminate]].
    destruct (existsb _ _); simpl; auto.
    split; [reflexivity | discriminate].
  - unfold KnowledgeGraph.add_observations. unfold bind at 1, get_self.
    destruct (dict_get _ _); simpl.
    + apply then_save_kept_or_torn. destruct w. now run_state.
    + now destruct io.
  - apply then_save_kept_or_torn, loop_checks_only.
    intros x [g d err]. unfold KnowledgeGraph.delete_entities_body.
    run_state. now destruct (dict_mem _ _).
  - unfold KnowledgeGraph.delete_observations. unfold bind at 1, get_self.
    destruct (dict_get _ _); simpl.
    + apply then_save_kept_or_torn. destruct w. now run_state.
    + now destruct io.
  - apply then_save_kept_or_torn, loop_checks_only.
    intros x [g d err]. unfold KnowledgeGraph.delete_relations_body.
    now run_state.
Qed.






(** A tool that succeeds returns the envelope it was built with. *)
Lemma tool_success {A} (method : M unit) (env : envelope A) name d r w :
  call (try_except
          (KnowledgeGraph.__init__ loads ;; method ;; ret env)
          (fun e => ret (failure name e))) d = Return r w ->
  status r = "success" -> r = env.
Proof.
  rewrite tool_shape.
  destruct (KnowledgeGraph.__init__ loads _) as [[] w0|e w0|];
    try discriminate.
  - destruct (method w0) as [[] w1|e w1|]; try discriminate.
    + now intros [= <- _].
    + intros [= <- _]. discriminate.
  - intros [= <- _]. discriminate.
Qed.

(** [delete_entities] on names that are all absent. *)
Lemma delete_entities_absent io names w :
  (forall n, In n names -> dict_mem n (entities (self w)) = false) ->
  KnowledgeGraph.delete_entities dumps io names w =
  KnowledgeGraph._save dumps io w.
Proof.
  intros Habs. unfold KnowledgeGraph.delete_entities.
  now rewrite (bind_return _ _ _ _ _ (delete_entities_loop_absent names w Habs)).
Qed.

End ToolFacts.

(** ** Names are unique *)

Lemma NoDup_keys_set {V} (k : string) (v : V) (d : dict V) :
  NoDup (keys d) -> NoDup (keys (dict_set k v d)).
Proof.
  intros Hnd. rewrite keys_dict_set. destruct (dict_mem k d) eqn:E; auto.
  apply dict_mem_false in E. apply NoDup_app; auto.
  - repeat constructor. intros [].
  - intros x Hx [<-|[]]. contradiction.
Qed.

Lemma keys_dict_del_incl {V} (k : string) (d : dict V) :
  incl (keys (dict_del k d)) (keys d).
Proof.
  induction d as [|[k' v'] d IH]; simpl; [apply incl_refl|].
  destruct (k =? k'); simpl.
  - apply incl_tl, incl_refl.
  - intros x [<-|Hx]; [now left | right; now apply IH].
Qed.

Lemma NoDup_keys_del {V} (k : string) (d : dict V) :
  NoDup (keys d) -> NoDup (keys (dict_del k d)).
Proof.
  induction d as [|[k' v'] d IH]; simpl; auto.
  intros Hnd. inversion Hnd as [|? ? Hnotin Hnd']; subst.
  destruct (k =? k'); simpl; auto.
  constructor; auto. intros Hin. apply Hnotin.
  now apply (keys_dict_del_incl k d).
Qed.

Section UniqueNames.

Variable dumps : json -> string.
Variable loads : string -> option json.

Let uniq (w : World) : Prop := unique_names (self w).

Ltac run_state :=
  unfold set_entities, set_relations, put_self, get_self, raise, ret, bind;
  simpl.

Lemma then_save_unique (m : M unit) io w :
  ensures uniq (m w) ->
  ensures uniq (bind m (fun _ => KnowledgeGraph._save dumps io) w).
Proof.
  intros H. apply ensures_bind; auto.
  intros _ w' Hw'. pose proof (_save_self dumps io w') as Hs.
  destruct (KnowledgeGraph._save dumps io w') as [[] w2|e w2|];
    simpl in *; unfold uniq in *; try rewrite Hs; auto.
Qed.

(** Every method keeps the names of the store distinct. *)
Lemma perform_unique io o w :
  uniq w -> ensures uniq (perform dumps io o w).
Proof.
  intros Hw. destruct o; simpl.
  - apply then_save_unique. apply for_each_ensures; [|exact Hw].
    clear. intros entity [g d err] Hg.
    unfold KnowledgeGraph.create_entities_body. run_state.
    destruct (dict_mem _ _); simpl; auto.
    now apply NoDup_keys_set.
  - apply then_save_unique. apply for_each_ensures; [|exact Hw].
    clear. intros relation [g d err] Hg.
    unfold KnowledgeGraph.create_relations_body. run_state.
    destruct (dict_mem (from relation) _); simpl; auto.
    destruct (dict_mem (to relation) _); simpl; auto.
    now destruct (existsb _ _).
  - unfold KnowledgeGraph.add_observations. unfold bind at 1, get_self.
    destruct (dict_get _ _); simpl; auto.
    apply then_save_unique. destruct w as [g d err]. run_state.
    now apply NoDup_keys_set.
  - apply then_save_unique. apply for_each_ensures; [|exact Hw].
    clear. intros name [g d err] Hg.
    unfold KnowledgeGraph.delete_entities_body. run_state.
    destruct (dict_mem _ _); simpl; auto.
    now apply NoDup_keys_del.
  - unfold KnowledgeGraph.delete_observations. unfold bind at 1, get_self.
    destruct (dict_get _ _); simpl; auto.
    apply then_save_unique. destruct w as [g d err]. run_state.
    now apply NoDup_keys_set.
  - apply then_save_unique. apply for_each_ensures; [|exact Hw].
    clear. intros relation [g d err] Hg.
    unfold KnowledgeGraph.delete_relations_body. now run_state.
Qed.

Lemma trace_unique calls : forall w,
  uniq w -> Forall uniq (trace dumps calls w).
Proof.
  induction calls as [|[io o] calls IH]; intros w Hw; simpl; constructor.
  - pose proof (perform_unique io o w Hw) as H.
    destruct (perform dumps io o w); simpl in *; auto.
  - apply IH. pose proof (perform_unique io o w Hw) as H.
    destruct (perform dumps io o w); simpl in *; auto.
Qed.

Lemma load_line_unique line w :
  uniq w -> ensures uniq (KnowledgeGraph.load_line loads line w).
Proof.
  destruct w as [g d err]. intros Hw.
  unfold KnowledgeGraph.load_line, KnowledgeGraph.getitem,
    KnowledgeGraph.as_key, KnowledgeGraph.as_str, KnowledgeGraph.as_str_list,
    set_entities, set_relations, put_self, get_self, raise, ret, untyped, bind.
  repeat (match goal with
          | |- context [match ?x with _ => _ end] =>
              lazymatch x with
              | context [match _ with _ => _ end] => fail
              | _ => destruct x
              end
          | |- context [if ?x then _ else _] => destruct x
          end; simpl; auto);
    now apply NoDup_keys_set.
Qed.

(** Whatever the file holds, the graph loaded from it has distinct names. *)
Lemma load_file_unique lines g errs :
  load_file loads lines = Some (g, errs) -> unique_names g.
Proof.
  rewrite load_file_spec.
  pose proof (for_each_ensures uniq (KnowledgeGraph.load_line loads) lines
                (fun x w => load_line_unique x w)
                (mkWorld empty_graph None [])) as H.
  destruct (for_each lines _ _) as [[] w|e w|]; try discriminate;
    intros [= <- _]; apply H; constructor.
Qed.

End UniqueNames.

(** ** JSON text read back *)

Module PyJsonFacts.

Import PyJson.
Local Open Scope string_scope.

Lemma append_assoc (a b c : string) : (a ++ b) ++ c = a ++ (b ++ c).
Proof. induction a as [|x a IH]; simpl; [reflexivity | now rewrite IH]. Qed.

Lemma length_append (a b : string) :
  String.length (a ++ b) = (String.length a + String.length b)%nat.
Proof. induction a as [|x a IH]; simpl; [reflexivity | now rewrite IH]. Qed.

(** A printed character reads back as itself. *)
Lemma scan_escape_char (c : ascii) (tail : string) :
  scan_string (escape_char c ++ tail) =
  match scan_string tail with
  | Some (r, rest) => Some (String c r, rest)
  | None => None
  end.
Proof.
  destruct c as [[] [] [] [] [] [] [] []]; reflexivity.
Qed.

(** A printed string reads back as itself, up to its closing quote. *)
Lemma scan_escape (s rest : string) :
  scan_string (escape s ++ String dq rest) = Some (s, rest).
Proof.
  induction s as [|c s IH]; simpl.
  - reflexivity.
  - now rewrite append_assoc, scan_escape_char, IH.
Qed.

Lemma dumps_str_append (s rest : string) :
  dumps_str s ++ rest = String dq (escape s ++ String dq rest).
Proof. unfold dumps_str. simpl. now rewrite append_assoc. Qed.

Lemma scan_value_str (fuel : nat) (s rest : string) :
  scan_value (S fuel) (dumps_str s ++ rest) = Some (JStr s, rest).
Proof.
  rewrite dumps_str_append.
  change (scan_value (S fuel) (String dq (escape s ++ String dq rest)))
    with (match scan_string (escape s ++ String dq rest) with
          | Some (r, rest) => Some (JStr r, rest)
          | None => None
          end).
  now rewrite scan_escape.
Qed.

Lemma dumps_arr (items : list json) :
  dumps (JArr items) = "[" ++ join ", " (map dumps items) ++ "]".
Proof. reflexivity. Qed.

Lemma dumps_obj (members : dict json) :
  dumps (JObj members) =
  "{" ++ join ", "
           (map (fun kv => dumps_str (fst kv) ++ ": " ++ dumps (snd kv)) members)
      ++ "}".
Proof. reflexivity. Qed.

Lemma scan_items_unfold (fuel : nat) (s : string) (acc : list json) :
  scan_items (S fuel) s acc =
  match scan_value fuel s with
  | Some (v, rest) =>
      match skip_ws rest with
      | String "]" rest' => Some (JArr (acc ++ [v])%list, rest')
      | String "," rest' => scan_items fuel (skip_ws rest') (acc ++ [v])%list
      | _ => None
      end
  | None => None
  end.
Proof. reflexivity. Qed.

Lemma scan_items_close fuel s acc v rest :
  scan_value fuel s = Some (v, String "]" rest) ->
  scan_items (S fuel) s acc = Some (JArr (acc ++ [v])%list, rest).
Proof. intros H. now rewrite scan_items_unfold, H. Qed.

Lemma scan_items_comma fuel s acc v more :
  scan_value fuel s = Some (v, ", " ++ more) ->
  scan_items (S fuel) s acc = scan_items fuel (skip_ws more) (acc ++ [v])%list.
Proof. intros H. now rewrite scan_items_unfold, H. Qed.

Lemma join_cons (sep a b : string) (l : list string) :
  join sep (a :: b :: l) = a ++ sep ++ join sep (b :: l).
Proof. reflexivity. Qed.

(** A printed string, and so a run of them, starts with its quote. *)
Lemma skip_ws_dumps_str (s rest : string) :
  skip_ws (dumps_str s ++ rest) = dumps_str s ++ rest.
Proof. reflexivity. Qed.

Lemma skip_ws_join (o : string) (obs : list string) (rest : string) :
  skip_ws (join ", " (map dumps_str (o :: obs)) ++ rest) =
  join ", " (map dumps_str (o :: obs)) ++ rest.
Proof. destruct obs; reflexivity. Qed.

(** The items of a printed array of strings read back. *)
Lemma scan_items_strs (obs : list string) :
  forall o acc fuel rest,
    scan_items (S (S (List.length obs + fuel)))
      (join ", " (map dumps_str (o :: obs)) ++ String "]" rest) acc =
    Some (JArr (acc ++ map JStr (o :: obs))%list, rest).
Proof.
  induction obs as [|o' obs IH]; intros o acc fuel rest.
  - apply scan_items_close. apply scan_value_str.
  - rewrite (scan_items_comma _ _ _ (JStr o)
               (join ", " (map dumps_str (o' :: obs)) ++ String "]" rest)).
    + rewrite skip_ws_join. simpl List.length. simpl plus. rewrite IH.
      now rewrite <- app_assoc.
    + rewrite !map_cons, join_cons, !append_assoc.
      apply scan_value_str.
Qed.

Lemma map_dumps_strs (obs : list string) :
  map dumps (map JStr obs) = map dumps_str obs.
Proof. rewrite map_map. now apply map_ext. Qed.

(** A printed array of strings reads back. *)
Lemma scan_value_strs (obs : list string) (fuel : nat) (rest : string) :
  scan_value (S (S (S (List.length obs + fuel))))
    (dumps (JArr (map JStr obs)) ++ rest) =
  Some (JArr (map JStr obs), rest).
Proof.
  rewrite dumps_arr, map_dumps_strs. destruct obs as [|o obs].
  - reflexivity.
  - rewrite !append_assoc.
    change (scan_value (S (S (S (List.length (o :: obs) + fuel))))
              ("[" ++ join ", " (map dumps_str (o :: obs)) ++ "]" ++ rest))
      with (match skip_ws (join ", " (map dumps_str (o :: obs)) ++ "]" ++ rest)
            with
            | String "]" r => Some (JArr [], r)
            | t' => scan_items (S (S (List.length (o :: obs) + fuel))) t' []
            end).
    rewrite skip_ws_join.
    replace (match join ", " (map dumps_str (o :: obs)) ++ "]" ++ rest with
             | String "]" r => Some (JArr [], r)
             | t' => scan_items (S (S (List.length (o :: obs) + fuel))) t' []
             end)
      with (scan_items (S (S (List.length (o :: obs) + fuel)))
              (join ", " (map dumps_str (o :: obs)) ++ "]" ++ rest) []).
    + replace (S (S (List.length (o :: obs) + fuel)))
        with (S (S (List.length obs + S fuel))) by (simpl; lia).
      change ("]" ++ rest) with (String "]" rest).
      apply scan_items_strs.
    + destruct obs; reflexivity.
Qed.

Lemma scan_members_unfold (fuel : nat) (t : string) (acc : dict json) :
  scan_members (S fuel) (String dq t) acc =
  match scan_string t with
  | Some (key, rest) =>
      match skip_ws rest with
      | String ":" rest' =>
          match scan_value fuel (skip_ws rest') with
          | Some (v, rest'') =>
              match skip_ws rest'' with
              | String "}" r => Some (JObj (dict_set key v acc), r)
              | String "," r =>
                  scan_members fuel (skip_ws r) (dict_set key v acc)
              | _ => None
              end
          | None => None
          end
      | _ => None
      end
  | None => None
  end.
Proof. reflexivity. Qed.

(** A member followed by another one. *)
Lemma scan_members_more fuel k v vtext more acc :
  skip_ws vtext = vtext ->
  scan_value fuel vtext = Some (v, ", " ++ more) ->
  scan_members (S fuel) (dumps_str k ++ ": " ++ vtext) acc =
  scan_members fuel (skip_ws more) (dict_set k v acc).
Proof.
  intros Hws Hv. rewrite dumps_str_append, scan_members_unfold, scan_escape.
  change (skip_ws (": " ++ vtext)) with (String ":" (String " " vtext)).
  cbv iota.
  change (skip_ws (String " " vtext)) with (skip_ws vtext).
  now rewrite Hws, Hv.
Qed.

(** The last member of an object. *)
Lemma scan_members_last fuel k v vtext rest acc :
  skip_ws vtext = vtext ->
  scan_value fuel vtext = Some (v, String "}" rest) ->
  scan_members (S fuel) (dumps_str k ++ ": " ++ vtext) acc =
  Some (JObj (dict_set k v acc), rest).
Proof.
  intros Hws Hv. rewrite dumps_str_append, scan_members_unfold, scan_escape.
  change (skip_ws (": " ++ vtext)) with (String ":" (String " " vtext)).
  cbv iota.
  change (skip_ws (String " " vtext)) with (skip_ws vtext).
  now rewrite Hws, Hv.
Qed.

Lemma scan_value_obj fuel k more :
  scan_value (S fuel) ("{" ++ dumps_str k ++ more) =
  scan_members fuel (dumps_str k ++ more) [].
Proof. reflexivity. Qed.

Lemma skip_ws_dumps_arr (items : list json) (rest : string) :
  skip_ws (dumps (JArr items) ++ rest) = dumps (JArr items) ++ rest.
Proof. reflexivity. Qed.

(** The text of the two records, a member at a time. *)
Lemma dumps_entity_record name data :
  dumps (entity_record name data) =
  "{" ++ dumps_str "type" ++ ": " ++ dumps_str "entity" ++ ", " ++
  dumps_str "name" ++ ": " ++ dumps_str name ++ ", " ++
  dumps_str "entityType" ++ ": " ++ dumps_str (entityType data) ++ ", " ++
  dumps_str "observations" ++ ": " ++
  dumps (JArr (map JStr (observations data))) ++ "}".
Proof.
  unfold entity_record. rewrite dumps_obj.
  cbn [map fst snd join]. rewrite !append_assoc. reflexivity.
Qed.

Lemma dumps_relation_record r :
  dumps (relation_record r) =
  "{" ++ dumps_str "type" ++ ": " ++ dumps_str "relation" ++ ", " ++
  dumps_str "from" ++ ": " ++ dumps_str (from r) ++ ", " ++
  dumps_str "to" ++ ": " ++ dumps_str (to r) ++ ", " ++
  dumps_str "relationType" ++ ": " ++ dumps_str (relationType r) ++ "}".
Proof.
  unfold relation_record. rewrite dumps_obj.
  cbn [map fst snd join]. rewrite !append_assoc. reflexivity.
Qed.

Lemma scan_entity_record name data fuel :
  scan_value (8 + List.length (observations data) + fuel)
    (dumps (entity_record name data)) =
  Some (entity_record name data, "").
Proof.
  rewrite dumps_entity_record. cbn [Nat.add].
  rewrite scan_value_obj.
  erewrite scan_members_more;
    [|apply skip_ws_dumps_str|apply scan_value_str].
  rewrite skip_ws_dumps_str.
  erewrite scan_members_more;
    [|apply skip_ws_dumps_str|apply scan_value_str].
  rewrite skip_ws_dumps_str.
  erewrite scan_members_more;
    [|apply skip_ws_dumps_str|apply scan_value_str].
  rewrite skip_ws_dumps_str.
  erewrite scan_members_last;
    [reflexivity|apply skip_ws_dumps_arr|].
  change ("}" : string) with (String "}" ""). apply scan_value_strs.
Qed.

Lemma scan_relation_record r fuel :
  scan_value (6 + fuel) (dumps (relation_record r)) =
  Some (relation_record r, "").
Proof.
  rewrite dumps_relation_record. cbn [Nat.add].
  rewrite scan_value_obj.
  erewrite scan_members_more;
    [|apply skip_ws_dumps_str|apply scan_value_str].
  rewrite skip_ws_dumps_str.
  erewrite scan_members_more;
    [|apply skip_ws_dumps_str|apply scan_value_str].
  rewrite skip_ws_dumps_str.
  erewrite scan_members_more;
    [|apply skip_ws_dumps_str|apply scan_value_str].
  rewrite skip_ws_dumps_str.
  erewrite scan_members_last;
    [reflexivity|apply skip_ws_dumps_str|].
  change ("}" : string) with (String "}" ""). apply scan_value_str.
Qed.

Lemma length_join_strs (obs : list string) :
  (List.length obs <= String.length (join ", " (map dumps_str obs)))%nat.
Proof.
  induction obs as [|o obs IH]; [simpl; lia|].
  rewrite map_cons. destruct (map dumps_str obs) as [|p ps] eqn:E.
  - destruct obs; [simpl; lia | discriminate].
  - rewrite join_cons, !length_append. cbn [String.length List.length]. lia.
Qed.

(** The length of a line is fuel enough to read it. *)
Lemma length_dumps_entity_record name data :
  (8 + List.length (observations data) <=
   S (String.length (dumps (entity_record name data))))%nat.
Proof.
  rewrite dumps_entity_record, dumps_arr, map_dumps_strs.
  rewrite !length_append.
  pose proof (length_join_strs (observations data)) as H.
  cbn [String.length]. lia.
Qed.

Lemma length_dumps_relation_record r :
  (6 <= S (String.length (dumps (relation_record r))))%nat.
Proof.
  rewrite dumps_relation_record. rewrite !length_append.
  cbn [String.length]. lia.
Qed.

Lemma loads_entity_record name data :
  loads (dumps (entity_record name data)) = Some (entity_record name data).
Proof.
  unfold loads.
  replace (skip_ws (dumps (entity_record name data)))
    with (dumps (entity_record name data)) by reflexivity.
  pose proof (length_dumps_entity_record name data) as Hlen.
  replace (S (String.length (dumps (entity_record name data))))
    with (8 + List.length (observations data) +
          (S (String.length (dumps (entity_record name data))) - 8 -
           List.length (observations data)))%nat by lia.
  now rewrite scan_entity_record.
Qed.

Lemma loads_relation_record r :
  loads (dumps (relation_record r)) = Some (relation_record r).
Proof.
  unfold loads.
  replace (skip_ws (dumps (relation_record r)))
    with (dumps (relation_record r)) by reflexivity.
  pose proof (length_dumps_relation_record r) as Hlen.
  replace (S (String.length (dumps (relation_record r))))
    with (6 + (S (String.length (dumps (relation_record r))) - 6))%nat by lia.
  now rewrite scan_relation_record.
Qed.

(** A printed object is not a blank line. *)
Lemma strip_nonempty_dumps_obj (members : dict json) :
  PyStr.strip_nonempty (dumps (JObj members)) = true.
Proof. reflexivity. Qed.

(** The printer and the parser agree on every record of every graph. *)
Lemma records_codec_ok (g : Graph) (v : json) :
  In v (records g) -> codec_ok dumps loads v.
Proof.
  unfold records. intros H. apply in_app_or in H as [H|H];
    apply in_map_iff in H.
  - destruct H as ([name data] & <- & _). split.
    + apply strip_nonempty_dumps_obj.
    + apply loads_entity_record.
  - destruct H as (r & <- & _). split.
    + apply strip_nonempty_dumps_obj.
    + apply loads_relation_record.
Qed.

(** So a graph saved as JSON text loads back as itself. *)
Lemma load_saved_json (g : Graph) :
  NoDup (keys (entities g)) ->
  load_file loads (KnowledgeGraph.save_lines dumps g) = Some (g, []).
Proof.
  intros Hnd. apply load_saved_lines; [exact Hnd|]. apply records_codec_ok.
Qed.

End PyJsonFacts.

(** * The properties of the store *)

(** ** Invariants *)

(** C1. Starting from an object without a dangling edge (the empty store is
    one), after every call of any sequence of [create_entities],
    [create_relations], [add_observations], [delete_entities],
    [delete_observations] and [delete_relations], whether it returned or
    raised, every relation names two entities of the store. In particular
    [create_relations] raises when a relation of the batch has an absent
    endpoint, saving nothing, and after [delete_entities] no relation touches
    a name of the request. *)
Theorem no_dangling_after_every_call (dumps : json -> string) :
  (forall calls w,
     no_dangling (self w) ->
     Forall (fun w' => no_dangling (self w')) (trace dumps calls w)) /\
  (forall io batch r w,
     In r batch ->
     dict_mem (from r) (entities (self w)) &&
     dict_mem (to r) (entities (self w)) = false ->
     exists e w',
       KnowledgeGraph.create_relations dumps io batch w = Raise e w' /\
       disk w' = disk w /\ entities (self w') = entities (self w)) /\
  (forall io names w,
     no_dangling (self w) ->
     ensures (fun w' => forall n r, In n names -> In r (relations (self w')) ->
                                    from r <> n /\ to r <> n)
       (KnowledgeGraph.delete_entities dumps io names w)).
Proof.
  split; [|split].
  - intros calls w Hw. now apply trace_inv.
  - intros io batch r w. apply create_relations_rejects.
  - intros io names w. apply delete_entities_cascades.
Qed.

Lemma no_dangling_after_every_call_witness :
  (no_dangling (self Example.fresh) /\
   Forall (fun w' => no_dangling (self w'))
     (trace PyJson.dumps
        [(NoFault, CreateEntities [Example.alice; Example.bob]);
         (NoFault, CreateRelations [Example.knows]);
         (WriteFails 0, DeleteEntities ["Bob"])]
        Example.fresh)) /\
  (In Example.ghost [Example.knows; Example.ghost] /\
   dict_mem (from Example.ghost) (entities Example.two) &&
   dict_mem (to Example.ghost) (entities Example.two) = false /\
   exists e w',
     KnowledgeGraph.create_relations PyJson.dumps NoFault
       [Example.knows; Example.ghost] (mkWorld Example.two None []) =
     Raise e w' /\ disk w' = None /\ entities (self w') = entities Example.two) /\
  (no_dangling Example.two /\
   ensures (fun w' => forall n r, In n ["Bob"] -> In r (relations (self w')) ->
                                  from r <> n /\ to r <> n)
     (KnowledgeGraph.delete_entities PyJson.dumps NoFault ["Bob"]
        (mkWorld Example.two None []))).
Proof.
  assert (H0 : no_dangling (self Example.fresh)) by (intros r []).
  assert (H2 : no_dangling Example.two).
  { intros r [<-|[]]. split; reflexivity. }
  destruct (no_dangling_after_every_call PyJson.dumps) as (T1 & T2 & T3).
  split; [|split].
  - split; [exact H0 | apply T1; exact H0].
  - assert (Hin : In Example.ghost [Example.knows; Example.ghost])
      by (right; left; reflexivity).
    split; [exact Hin|]. split; [reflexivity|].
    apply (T2 NoFault [Example.knows; Example.ghost] Example.ghost
             (mkWorld Example.two None []) Hin). reflexivity.
  - split; [exact H2|].
    apply (T3 NoFault ["Bob"] (mkWorld Example.two None []) H2).
Defined.

(** C9, as the code has it. [create_entities] does not look at what a name
    is, only at whether it is already in the store: a batch of distinct names
    that are all absent is admitted whole, in order, and saved, whatever the
    names are, the empty string included. *)
Theorem create_entities_admits_absent_names (dumps : json -> string)
  (batch : list EntityInput) (w : World) :
  NoDup (map in_name batch) ->
  (forall e, In e batch -> dict_mem (in_name e) (entities (self w)) = false) ->
  let g' := mkGraph (entities (self w) ++ map stored batch) (relations (self w)) in
  KnowledgeGraph.create_entities dumps NoFault batch w =
  Return tt (mkWorld g' (Some (KnowledgeGraph.save_lines dumps g')) (stderr w)).
Proof.
  intros Hnd Hfresh g'. unfold KnowledgeGraph.create_entities.
  rewrite (bind_return _ _ _ _ _
             (create_entities_loop_fresh batch w Hnd Hfresh)).
  now rewrite _save_spec.
Qed.

Lemma create_entities_admits_absent_names_witness :
  NoDup (map in_name [Example.nameless]) /\
  (forall e, In e [Example.nameless] ->
     dict_mem (in_name e) (entities (self Example.fresh)) = false) /\
  KnowledgeGraph.create_entities PyJson.dumps NoFault [Example.nameless]
    Example.fresh =
  Return tt
    (mkWorld (mkGraph [("", mkData "thing" [])] [])
       (Some (KnowledgeGraph.save_lines PyJson.dumps
                (mkGraph [("", mkData "thing" [])] [])))
       []).
Proof.
  assert (Hnd : NoDup (map in_name [Example.nameless])).
  { constructor; [intros [] | constructor]. }
  assert (Hfresh : forall e, In e [Example.nameless] ->
            dict_mem (in_name e) (entities (self Example.fresh)) = false).
  { intros e _. reflexivity. }
  split; [exact Hnd|]. split; [exact Hfresh|].
  exact (create_entities_admits_absent_names PyJson.dumps [Example.nameless]
           Example.fresh Hnd Hfresh).
Defined.

(** C9 as stated fails: the tool admits an entity whose name is the empty
    string into an empty store, reports success and writes it to the file. *)
Lemma empty_name_is_admitted :
  exists w',
    call (create_entities PyJson.dumps PyJson.loads NoFault [Example.nameless])
      None =
    Return (success "create_entities" 1 [""]) w' /\
    dict_get "" (entities (self w')) = Some (mkData "thing" []) /\
    disk w' =
    Some [PyJson.text
            "{'type': 'entity', 'name': '', 'entityType': 'thing', 'observations': []}"].
Proof. eexists. split; [reflexivity|]. split; reflexivity. Qed.

(** ** Batches *)

(** C4. [create_entities] takes the entities one at a time: a batch whose
    first duplicate name comes after the new, distinct names [pre] raises
    at that duplicate, the rest of the batch is not looked at, and the
    entities of [pre] are in the object when it raises (nothing is undone,
    and nothing is saved). [create_relations] does the same at the first
    relation it rejects. *)
Theorem batches_abort_at_first_failure (dumps : json -> string)
  (io : io_fault) (w : World) :
  (forall pre dup post,
     NoDup (map in_name pre) ->
     (forall e, In e pre -> dict_mem (in_name e) (entities (self w)) = false) ->
     dict_mem (in_name dup) (entities (self w)) = true \/
     In (in_name dup) (map in_name pre) ->
     KnowledgeGraph.create_entities dumps io (pre ++ dup :: post) w =
     Raise (EntityAlreadyExists (in_name dup))
       (mkWorld (mkGraph (entities (self w) ++ map stored pre)
                   (relations (self w)))
          (disk w) (stderr w))) /\
  (forall pre bad post e,
     all_accepted (self w) pre ->
     rejection (mkGraph (entities (self w)) (relations (self w) ++ pre)) bad
     = Some e ->
     KnowledgeGraph.create_relations dumps io (pre ++ bad :: post) w =
     Raise e
       (mkWorld (mkGraph (entities (self w)) (relations (self w) ++ pre))
          (disk w) (stderr w))).
Proof.
  split.
  - intros pre dup post Hnd Hfresh Hdup. unfold KnowledgeGraph.create_entities.
    now rewrite (bind_raise _ _ _ _ _
                   (create_entities_loop_duplicate pre dup post w
                      Hnd Hfresh Hdup)).
  - intros pre bad post e Hacc Hrej. unfold KnowledgeGraph.create_relations.
    destruct w as [g d err]. simpl in *.
    now rewrite (bind_raise _ _ _ _ _
                   (create_relations_loop_rejected pre bad post e g d err
                      Hacc Hrej)).
Qed.

Lemma batches_abort_at_first_failure_witness :
  (NoDup (map in_name [Example.alice]) /\
   (forall e, In e [Example.alice] ->
      dict_mem (in_name e) (entities (self Example.fresh)) = false) /\
   (dict_mem (in_name Example.alice) (entities (self Example.fresh)) = true \/
    In (in_name Example.alice) (map in_name [Example.alice])) /\
   KnowledgeGraph.create_entities PyJson.dumps NoFault
     ([Example.alice] ++ Example.alice :: [Example.bob]) Example.fresh =
   Raise (EntityAlreadyExists "Alice")
     (mkWorld (mkGraph [("Alice", mkData "person" [])] []) None [])) /\
  (all_accepted (mkGraph (entities Example.two) []) [Example.knows] /\
   rejection (mkGraph (entities Example.two) [Example.knows]) Example.knows =
   Some (RelationAlreadyExists Example.knows) /\
   KnowledgeGraph.create_relations PyJson.dumps NoFault
     ([Example.knows] ++ Example.knows :: [Example.ghost])
     (mkWorld (mkGraph (entities Example.two) []) None []) =
   Raise (RelationAlreadyExists Example.knows)
     (mkWorld Example.two None [])).
Proof.
  assert (Hnd : NoDup (map in_name [Example.alice])).
  { constructor; [intros [] | constructor]. }
  assert (Hfresh : forall e, In e [Example.alice] ->
            dict_mem (in_name e) (entities (self Example.fresh)) = false).
  { intros e _. reflexivity. }
  assert (Hdup : dict_mem (in_name Example.alice)
                   (entities (self Example.fresh)) = true \/
                 In (in_name Example.alice) (map in_name [Example.alice])).
  { right. left. reflexivity. }
  assert (Hacc : all_accepted (mkGraph (entities Example.two) [])
                   [Example.knows]).
  { split; [reflexivity | exact I]. }
  split.
  - split; [exact Hnd|]. split; [exact Hfresh|]. split; [exact Hdup|].
    exact (proj1 (batches_abort_at_first_failure PyJson.dumps NoFault
                    Example.fresh)
             [Example.alice] Example.alice [Example.bob] Hnd Hfresh Hdup).
  - split; [exact Hacc|]. split; [reflexivity|].
    exact (proj2 (batches_abort_at_first_failure PyJson.dumps NoFault
                    (mkWorld (mkGraph (entities Example.two) []) None []))
             [Example.knows] Example.knows [Example.ghost]
             (RelationAlreadyExists Example.knows) Hacc eq_refl).
Defined.

(** ** The file *)

(** C5. A graph saved by [_save] and loaded by a fresh object is the same
    graph: the same entities with the same data and the same relations (in
    the same order, hence equal as sets and of the same sizes), and no
    warning is printed. The graph has the distinct names of a dict, and
    [json.loads] reads back each record [json.dumps] printed. *)
Theorem save_then_load_is_identity (dumps : json -> string)
  (loads : string -> option json) (g : Graph) (d : file) (err : list error) :
  NoDup (keys (entities g)) ->
  (forall v, In v (records g) -> codec_ok dumps loads v) ->
  exists lines,
    KnowledgeGraph._save dumps NoFault (mkWorld g d err) =
    Return tt (mkWorld g (Some lines) err) /\
    List.length lines =
    (List.length (entities g) + List.length (relations g))%nat /\
    load_file loads lines = Some (g, []).
Proof.
  intros Hnd Hok. exists (KnowledgeGraph.save_lines dumps g).
  split; [now rewrite _save_spec|]. split.
  - unfold KnowledgeGraph.save_lines. now rewrite length_app, !length_map.
  - now apply load_saved_lines.
Qed.

Lemma save_then_load_is_identity_witness :
  NoDup (keys (entities Example.two)) /\
  (forall v, In v (records Example.two) ->
     codec_ok PyJson.dumps PyJson.loads v) /\
  exists lines,
    KnowledgeGraph._save PyJson.dumps NoFault (mkWorld Example.two None []) =
    Return tt (mkWorld Example.two (Some lines) []) /\
    List.length lines =
    (List.length (entities Example.two) +
     List.length (relations Example.two))%nat /\
    load_file PyJson.loads lines = Some (Example.two, []).
Proof.
  assert (Hnd : NoDup (keys (entities Example.two))).
  { repeat constructor; simpl; intuition discriminate. }
  assert (Hok : forall v, In v (records Example.two) ->
                  codec_ok PyJson.dumps PyJson.loads v).
  { intros v [<-|[<-|[<-|[]]]]; split; vm_compute; reflexivity. }
  split; [exact Hnd|]. split; [exact Hok|].
  exact (save_then_load_is_identity PyJson.dumps PyJson.loads Example.two
           None [] Hnd Hok).
Defined.

(** C3, as the code has it. [_load] reads the file line by line and skips
    blank lines; the [try] encloses the whole loop, so at the first line that
    does not parse the load ends with one warning: the records of the lines
    before it are loaded, and that line and every line after it are left
    out. *)
Theorem load_skips_blank_and_stops_at_malformed
  (loads : string -> option json) (pre post : list string) (line : string) :
  (PyStr.strip_nonempty line = false ->
   load_file loads (pre ++ line :: post) = load_file loads (pre ++ post)) /\
  (PyStr.strip_nonempty line = true -> loads line = None ->
   forall g, load_file loads pre = Some (g, []) ->
     load_file loads (pre ++ line :: post) = Some (g, [JSONDecodeError])).
Proof.
  split.
  - apply load_file_blank.
  - intros Hline Hbad g. now apply load_file_malformed.
Qed.

Lemma load_skips_blank_and_stops_at_malformed_witness :
  (PyStr.strip_nonempty "  " = false /\
   load_file PyJson.loads
     ([Example.alice_line] ++ "  " :: [Example.bob_line; Example.knows_line]) =
   Some (Example.two, [])) /\
  (PyStr.strip_nonempty Example.torn_line = true /\
   PyJson.loads Example.torn_line = None /\
   load_file PyJson.loads [Example.alice_line] =
   Some (mkGraph [("Alice", mkData "person" [])] [], []) /\
   load_file PyJson.loads
     ([Example.alice_line] ++
      Example.torn_line :: [Example.bob_line; Example.knows_line]) =
   Some (mkGraph [("Alice", mkData "person" [])] [], [JSONDecodeError])).
Proof.
  split.
  - assert (Hblank : PyStr.strip_nonempty "  " = false) by reflexivity.
    split; [exact Hblank|].
    rewrite (proj1 (load_skips_blank_and_stops_at_malformed PyJson.loads
                      [Example.alice_line]
                      [Example.bob_line; Example.knows_line] "  ") Hblank).
    vm_compute. reflexivity.
  - assert (Hline : PyStr.strip_nonempty Example.torn_line = true)
      by (vm_compute; reflexivity).
    assert (Hbad : PyJson.loads Example.torn_line = None)
      by (vm_compute; reflexivity).
    assert (Hpre : load_file PyJson.loads [Example.alice_line] =
                   Some (mkGraph [("Alice", mkData "person" [])] [], []))
      by (vm_compute; reflexivity).
    split; [exact Hline|]. split; [exact Hbad|]. split; [exact Hpre|].
    exact (proj2 (load_skips_blank_and_stops_at_malformed PyJson.loads
                    [Example.alice_line]
                    [Example.bob_line; Example.knows_line] Example.torn_line)
             Hline Hbad _ Hpre).
Defined.

(** C3 as stated fails: in a file whose second line is cut short, the
    records of the third and fourth lines are well formed (alone, or after
    the first line, they load) and yet are not in the loaded graph. *)
Lemma records_after_malformed_line_are_lost :
  PyJson.loads Example.bob_line =
  Some (entity_record "Bob" (mkData "person" ["likes coffee"])) /\
  load_file PyJson.loads
    [Example.alice_line; Example.bob_line; Example.knows_line] =
  Some (Example.two, []) /\
  exists g,
    load_file PyJson.loads
      [Example.alice_line; Example.torn_line; Example.bob_line;
       Example.knows_line] = Some (g, [JSONDecodeError]) /\
    dict_mem "Alice" (entities g) = true /\
    dict_mem "Bob" (entities g) = false /\
    relations g = [].
Proof.
  split; [vm_compute; reflexivity|]. split; [vm_compute; reflexivity|].
  eexists. split; [vm_compute; reflexivity|]. repeat split.
Qed.




(** ** Reading *)

(** C6. [search_nodes] lowers the query and each field and tests for a
    substring, on the name, then on the type, then on the observations in
    turn: its result is, entity by entity in store order, the one entry of
    the first field that holds the query. So an entity of the store has at
    most one entry, tagged ['name'], ['type'] or ['observation'] after that
    first field, and none when no field holds the query. *)
Theorem search_nodes_reports_first_match (g : Graph) (query : string) :
  KnowledgeGraph.search_nodes g query = flat_map (hit query) (entities g) /\
  (NoDup (keys (entities g)) ->
   forall name data,
     dict_get name (entities g) = Some data ->
     filter (fun r => KnowledgeGraph.sr_name r =? name) (KnowledgeGraph.search_nodes g query) =
     match first_match query name data with
     | Some field => [KnowledgeGraph.mkResult name data field]
     | None => []
     end).
Proof.
  split; [apply search_nodes_spec|].
  intros Hnd name data Hget. rewrite search_nodes_spec.
  now rewrite (filter_hits query name data (entities g) Hnd Hget).
Qed.

Lemma search_nodes_reports_first_match_witness :
  NoDup (keys (entities Example.two)) /\
  dict_get "Bob" (entities Example.two) =
  Some (mkData "person" ["likes coffee"]) /\
  filter (fun r => KnowledgeGraph.sr_name r =? "Bob")
    (KnowledgeGraph.search_nodes Example.two "COFFEE") =
  [KnowledgeGraph.mkResult "Bob" (mkData "person" ["likes coffee"]) "observation"].
Proof.
  assert (Hnd : NoDup (keys (entities Example.two))).
  { repeat constructor; simpl; intuition discriminate. }
  assert (Hget : dict_get "Bob" (entities Example.two) =
                 Some (mkData "person" ["likes coffee"])) by reflexivity.
  split; [exact Hnd|]. split; [exact Hget|].
  exact (proj2 (search_nodes_reports_first_match Example.two "COFFEE")
           Hnd "Bob" _ Hget).
Defined.

(** ** Observations *)

(** C7, as the code has it. [delete_observations] removes every observation
    equal to a string of the list, those that were there before the add
    included. So [add_observations] followed by [delete_observations] with
    the same list gives the entity its observations back (and its type, in
    its place among the entities, with the relations as they were) when no
    string of the list was among them before the add. The statement is about
    the named entity: [add_observations] extends its list object in place,
    [delete_observations] gives it a new list. *)
Theorem add_then_delete_observations_restores (dumps : json -> string)
  (io1 io2 : io_fault) (name : string) (obs : list string) (w : World)
  (data : EntityData) :
  dict_get name (entities (self w)) = Some data ->
  (forall o, In o obs -> ~ In o (observations data)) ->
  let w1 := final (KnowledgeGraph.add_observations dumps io1 name obs w) w in
  let w2 :=
    final (KnowledgeGraph.delete_observations dumps io2 name obs w1) w1 in
  dict_get name (entities (self w1)) =
  Some (mkData (entityType data) (observations data ++ obs)) /\
  dict_get name (entities (self w2)) = Some data /\
  keys (entities (self w2)) = keys (entities (self w)) /\
  relations (self w2) = relations (self w).
Proof.
  intros Hget Hdisj w1 w2.
  assert (H1 : self w1 =
               mkGraph (dict_set name
                          (mkData (entityType data) (observations data ++ obs))
                          (entities (self w)))
                 (relations (self w))).
  { apply add_observations_final. exact Hget. }
  assert (H2 : self w2 = self w).
  { unfold w2. erewrite delete_observations_final
      by (rewrite H1; simpl; apply dict_get_set_same).
    rewrite H1. simpl. rewrite filter_out_added by assumption.
    rewrite dict_set_set. destruct data as [ty obs0]. simpl.
    rewrite (dict_set_get _ _ _ Hget). now destruct (self w). }
  split; [rewrite H1; simpl; apply dict_get_set_same|].
  rewrite H2. auto.
Qed.

Lemma add_then_delete_observations_restores_witness :
  dict_get "Alice" (entities (self Example.noted)) =
  Some (mkData "person" ["met at conf"]) /\
  (forall o, In o ["likes tea"] -> ~ In o ["met at conf"]) /\
  dict_get "Alice"
    (entities
       (self (final (KnowledgeGraph.add_observations PyJson.dumps NoFault
                       "Alice" ["likes tea"] Example.noted) Example.noted))) =
  Some (mkData "person" (["met at conf"] ++ ["likes tea"])) /\
  dict_get "Alice"
    (entities
       (self (final
                (KnowledgeGraph.delete_observations PyJson.dumps NoFault
                   "Alice" ["likes tea"]
                   (final (KnowledgeGraph.add_observations PyJson.dumps
                             NoFault "Alice" ["likes tea"] Example.noted)
                      Example.noted))
                (final (KnowledgeGraph.add_observations PyJson.dumps NoFault
                          "Alice" ["likes tea"] Example.noted)
                   Example.noted)))) =
  Some (mkData "person" ["met at conf"]).
Proof.
  assert (Hget : dict_get "Alice" (entities (self Example.noted)) =
                 Some (mkData "person" ["met at conf"])) by reflexivity.
  assert (Hdisj : forall o, In o ["likes tea"] -> ~ In o ["met at conf"]).
  { intros o [<-|[]] [E|[]]. discriminate. }
  split; [exact Hget|]. split; [exact Hdisj|].
  pose proof (add_then_delete_observations_restores PyJson.dumps NoFault
                NoFault "Alice" ["likes tea"] Example.noted _ Hget Hdisj)
    as (T1 & T2 & _).
  split; [exact T1 | exact T2].
Defined.

(** C7 as stated fails: Alice has the note "met at conf"; adding that same
    note and then deleting it leaves her with no note at all. *)
Lemma add_then_delete_loses_earlier_observation :
  dict_get "Alice" (entities (self Example.noted)) =
  Some (mkData "person" ["met at conf"]) /\
  dict_get "Alice"
    (entities
       (self (final (KnowledgeGraph.add_observations PyJson.dumps NoFault
                       "Alice" ["met at conf"] Example.noted) Example.noted))) =
  Some (mkData "person" ["met at conf"; "met at conf"]) /\
  dict_get "Alice"
    (entities
       (self
          (final
             (KnowledgeGraph.delete_observations PyJson.dumps NoFault "Alice"
                ["met at conf"]
                (final (KnowledgeGraph.add_observations PyJson.dumps NoFault
                          "Alice" ["met at conf"] Example.noted) Example.noted))
             (final (KnowledgeGraph.add_observations PyJson.dumps NoFault
                       "Alice" ["met at conf"] Example.noted) Example.noted)))) =
  Some (mkData "person" []).
Proof. repeat split. Qed.

(** ** Deleting *)

(** C8. [delete_entities] on names that are all absent leaves the entities
    and the relations of the object as they were, whatever happens to the
    save; without a fault it returns, having rewritten the file from the
    unchanged graph, and the tool reports success. *)
Theorem delete_absent_entities_is_noop (dumps : json -> string)
  (loads : string -> option json) (names : list string) :
  (forall io w,
     (forall n, In n names -> dict_mem n (entities (self w)) = false) ->
     self (final (KnowledgeGraph.delete_entities dumps io names w) w) = self w /\
     KnowledgeGraph.delete_entities dumps NoFault names w =
     Return tt
       (mkWorld (self w) (Some (KnowledgeGraph.save_lines dumps (self w)))
          (stderr w))) /\
  (forall d w0,
     KnowledgeGraph.__init__ loads (mkWorld empty_graph d []) = Return tt w0 ->
     (forall n, In n names -> dict_mem n (entities (self w0)) = false) ->
     call (delete_entities dumps loads NoFault names) d =
     Return (success "delete_entities" (List.length names) names)
       (mkWorld (self w0) (Some (KnowledgeGraph.save_lines dumps (self w0)))
          (stderr w0))).
Proof.
  split.
  - intros io w Habs. rewrite !delete_entities_absent by assumption. split.
    + pose proof (_save_self dumps io w) as Hs.
      now destruct (KnowledgeGraph._save dumps io w).
    + now rewrite _save_spec.
  - intros d w0 Hinit Habs. unfold delete_entities. rewrite tool_shape, Hinit.
    rewrite delete_entities_absent by assumption. now rewrite _save_spec.
Qed.

Lemma delete_absent_entities_is_noop_witness :
  (forall n, In n ["Carol"; "Dave"] ->
     dict_mem n (entities Example.two) = false) /\
  self (final (KnowledgeGraph.delete_entities PyJson.dumps (WriteFails 1)
                 ["Carol"; "Dave"] (mkWorld Example.two None []))
          (mkWorld Example.two None [])) = Example.two /\
  KnowledgeGraph.__init__ PyJson.loads
    (mkWorld empty_graph
       (Some [Example.alice_line; Example.bob_line; Example.knows_line]) []) =
  Return tt
    (mkWorld Example.two
       (Some [Example.alice_line; Example.bob_line; Example.knows_line]) []) /\
  call (delete_entities PyJson.dumps PyJson.loads NoFault ["Carol"; "Dave"])
    (Some [Example.alice_line; Example.bob_line; Example.knows_line]) =
  Return (success "delete_entities" 2 ["Carol"; "Dave"])
    (mkWorld Example.two
       (Some (KnowledgeGraph.save_lines PyJson.dumps Example.two)) []).
Proof.
  assert (Habs : forall n, In n ["Carol"; "Dave"] ->
            dict_mem n (entities Example.two) = false).
  { intros n [<-|[<-|[]]]; reflexivity. }
  assert (Hinit : KnowledgeGraph.__init__ PyJson.loads
            (mkWorld empty_graph
               (Some [Example.alice_line; Example.bob_line; Example.knows_line])
               []) =
          Return tt
            (mkWorld Example.two
               (Some [Example.alice_line; Example.bob_line; Example.knows_line])
               [])) by (vm_compute; reflexivity).
  destruct (delete_absent_entities_is_noop PyJson.dumps PyJson.loads
              ["Carol"; "Dave"]) as [T1 T2].
  split; [exact Habs|]. split.
  - exact (proj1 (T1 (WriteFails 1) (mkWorld Example.two None []) Habs)).
  - split; [exact Hinit|]. exact (T2 _ _ Hinit Habs).
Defined.

(** ** Envelopes *)

(** C10. When [delete_entities] or [delete_relations] succeeds, the count it
    reports under ['deleted'] is the length of the request, whatever was in
    the store; asked to delete one name, or one relation, from a store that
    has none, each reports 1 and removes nothing. *)
Theorem deleted_count_is_request_length (dumps : json -> string)
  (loads : string -> option json) :
  (forall io names d r w,
     call (delete_entities dumps loads io names) d = Return r w ->
     status r = "success" ->
     r = success "delete_entities" (List.length names) names) /\
  (forall io batch d r w,
     call (delete_relations dumps loads io batch) d = Return r w ->
     status r = "success" ->
     r = success "delete_relations" (List.length batch) batch) /\
  (exists names w0 w,
     KnowledgeGraph.__init__ loads (mkWorld empty_graph None []) = Return tt w0 /\
     call (delete_entities dumps loads NoFault names) None =
     Return (success "delete_entities" (List.length names) names) w /\
     (List.length (entities (self w0)) - List.length (entities (self w))
      < List.length names)%nat) /\
  (exists batch w0 w,
     KnowledgeGraph.__init__ loads (mkWorld empty_graph None []) = Return tt w0 /\
     call (delete_relations dumps loads NoFault batch) None =
     Return (success "delete_relations" (List.length batch) batch) w /\
     (List.length (relations (self w0)) - List.length (relations (self w))
      < List.length batch)%nat).
Proof.
  split; [|split; [|split]].
  - intros io names d r w. apply tool_success.
  - intros io batch d r w. apply tool_success.
  - exists ["Ghost"]. eexists. eexists.
    split; [reflexivity|]. split; [reflexivity|]. simpl. lia.
  - exists [Example.knows]. eexists. eexists.
    split; [reflexivity|]. split; [reflexivity|]. simpl. lia.
Qed.

Lemma deleted_count_is_request_length_witness :
  call (delete_entities PyJson.dumps PyJson.loads NoFault ["Bob"; "Carol"])
    (Some [Example.alice_line; Example.bob_line; Example.knows_line]) =
  Return (success "delete_entities" 2 ["Bob"; "Carol"])
    (mkWorld (mkGraph [("Alice", mkData "person" [])] [])
       (Some [Example.alice_line]) []) /\
  status (success "delete_entities" 2 ["Bob"; "Carol"]) = "success" /\
  success "delete_entities" 2 ["Bob"; "Carol"] =
  success "delete_entities" (List.length ["Bob"; "Carol"]) ["Bob"; "Carol"] /\
  call (delete_relations PyJson.dumps PyJson.loads NoFault
          [Example.knows; Example.ghost])
    (Some [Example.alice_line; Example.bob_line; Example.knows_line]) =
  Return (success "delete_relations" 2 [Example.knows; Example.ghost])
    (mkWorld (mkGraph (entities Example.two) [])
       (Some [Example.alice_line; Example.bob_line]) []) /\
  success "delete_relations" 2 [Example.knows; Example.ghost] =
  success "delete_relations"
    (List.length [Example.knows; Example.ghost]) [Example.knows; Example.ghost].
Proof.
  assert (H1 : call (delete_entities PyJson.dumps PyJson.loads NoFault
                       ["Bob"; "Carol"])
                 (Some [Example.alice_line; Example.bob_line;
                        Example.knows_line]) =
               Return (success "delete_entities" 2 ["Bob"; "Carol"])
                 (mkWorld (mkGraph [("Alice", mkData "person" [])] [])
                    (Some [Example.alice_line]) []))
    by (vm_compute; reflexivity).
  assert (H2 : call (delete_relations PyJson.dumps PyJson.loads NoFault
                       [Example.knows; Example.ghost])
                 (Some [Example.alice_line; Example.bob_line;
                        Example.knows_line]) =
               Return (success "delete_relations" 2
                         [Example.knows; Example.ghost])
                 (mkWorld (mkGraph (entities Example.two) [])
                    (Some [Example.alice_line; Example.bob_line]) []))
    by (vm_compute; reflexivity).
  destruct (deleted_count_is_request_length PyJson.dumps PyJson.loads)
    as (T1 & T2 & _ & _).
  split; [exact H1|]. split; [reflexivity|].
  split; [exact (T1 _ _ _ _ _ H1 eq_refl)|].
  split; [exact H2|]. exact (T2 _ _ _ _ _ H2 eq_refl).
Defined.

(** * More of the store *)

(** ** Lookups after updates *)

Lemma dict_get_set_other {V} (k k' : string) (v : V) (d : dict V) :
  k <> k' -> dict_get k (dict_set k' v d) = dict_get k d.
Proof.
  intros Hne. induction d as [|[k2 v2] d IH]; simpl.
  - destruct (String.eqb_spec k k'); [congruence | reflexivity].
  - destruct (String.eqb_spec k' k2) as [->|Hne2]; simpl.
    + destruct (String.eqb_spec k k2); [congruence | reflexivity].
    + destruct (k =? k2); auto.
Qed.

Lemma keys_dict_set_present {V} (k : string) (v : V) (d : dict V) :
  dict_mem k d = true -> keys (dict_set k v d) = keys d.
Proof. intros H. now rewrite keys_dict_set, H. Qed.

Lemma dict_get_app_left {V} (k : string) (v : V) (d d' : dict V) :
  dict_get k d = Some v -> dict_get k (d ++ d') = Some v.
Proof.
  induction d as [|[k2 v2] d IH]; simpl; [discriminate|].
  destruct (k =? k2); auto.
Qed.

Lemma dict_get_some_mem {V} (k : string) (v : V) (d : dict V) :
  dict_get k d = Some v -> dict_mem k d = true.
Proof. unfold dict_mem. now intros ->. Qed.

Lemma same_triple_eq (r r' : Relation) : same_triple r r' = true <-> r = r'.
Proof.
  unfold same_triple. rewrite !andb_true_iff, !String.eqb_eq.
  destruct r, r'; simpl. split.
  - intros [[-> ->] ->]. reflexivity.
  - intros [= -> -> ->]. auto.
Qed.

Lemma exists_same_triple (r : Relation) (rs : list Relation) :
  existsb (fun r' => same_triple r' r) rs = true <-> In r rs.
Proof.
  rewrite existsb_exists. split.
  - intros (r' & Hin & E). apply same_triple_eq in E. now subst.
  - intros Hin. exists r. split; [auto | now apply same_triple_eq].
Qed.

(** ** Creating *)

Section Creating.

Variable dumps : json -> string.

Ltac run_state :=
  unfold set_entities, set_relations, put_self, get_self, raise, ret, bind;
  simpl.

Lemma then_save_ensures (P : Graph -> Prop) (m : M unit) io w :
  ensures (fun w' => P (self w')) (m w) ->
  ensures (fun w' => P (self w'))
    (bind m (fun _ => KnowledgeGraph._save dumps io) w).
Proof.
  intros H. apply ensures_bind; auto.
  intros _ w' Hw'. pose proof (_save_self dumps io w') as Hs.
  destruct (KnowledgeGraph._save dumps io w') as [[] w2|e w2|];
    simpl in *; try rewrite Hs; auto.
Qed.

(** X1. [create_entities] only ever appends: however the call ends, the
    entities that were in the store are still there, in their places and with
    their data, followed by what the call added, and the relations are
    untouched. In particular a name already present keeps its data. *)
Theorem create_entities_only_appends (io : io_fault)
  (batch : list EntityInput) (w : World) :
  ensures
    (fun w' =>
       (exists added, entities (self w') = entities (self w) ++ added) /\
       relations (self w') = relations (self w) /\
       forall name data,
         dict_get name (entities (self w)) = Some data ->
         dict_get name (entities (self w')) = Some data)
    (KnowledgeGraph.create_entities dumps io batch w).
Proof.
  set (P := fun g : Graph =>
              (exists added, entities g = entities (self w) ++ added) /\
              relations g = relations (self w)).
  assert (H : ensures (fun w' => P (self w'))
                (KnowledgeGraph.create_entities dumps io batch w)).
  { apply then_save_ensures.
    apply (for_each_ensures (fun w' => P (self w'))).
    - intros entity [g d err] [[added Ha] Hr].
      unfold KnowledgeGraph.create_entities_body. run_state.
      destruct (dict_mem (in_name entity) (entities g)) eqn:Hm; simpl.
      + split; [now exists added | exact Hr].
      + split; [|exact Hr]. simpl in *.
        rewrite (dict_set_fresh _ _ _ Hm), Ha, <- app_assoc. eauto.
    - split; [exists []; now rewrite app_nil_r | reflexivity]. }
  destruct (KnowledgeGraph.create_entities dumps io batch w) as [[] w'|e w'|];
    simpl in *; auto;
    destruct H as [[added Ha] Hr]; (split; [eauto|]); (split; [exact Hr|]);
    intros name data Hget; rewrite Ha; now apply dict_get_app_left.
Qed.

(** One turn of each loop keeps the relations free of duplicates. *)
Lemma perform_no_duplicates io o w :
  no_duplicate_relations (self w) ->
  ensures (fun w' => no_duplicate_relations (self w')) (perform dumps io o w).
Proof.
  intros Hw. destruct o; simpl.
  - apply (then_save_ensures no_duplicate_relations).
    apply (for_each_ensures (fun w' => no_duplicate_relations (self w')));
      [|exact Hw].
    intros entity [g d err] Hg.
    unfold KnowledgeGraph.create_entities_body. run_state.
    now destruct (dict_mem _ _).
  - apply (then_save_ensures no_duplicate_relations).
    apply (for_each_ensures (fun w' => no_duplicate_relations (self w')));
      [|exact Hw].
    intros relation [g d err] Hg.
    unfold KnowledgeGraph.create_relations_body. run_state.
    destruct (dict_mem (from relation) _); simpl; auto.
    destruct (dict_mem (to relation) _); simpl; auto.
    destruct (existsb _ (relations g)) eqn:E; simpl; auto.
    unfold no_duplicate_relations in *. simpl in *.
    apply NoDup_app; auto.
    + repeat constructor. intros [].
    + intros x Hx [<-|[]].
      apply exists_same_triple in Hx. congruence.
  - unfold KnowledgeGraph.add_observations. unfold bind at 1, get_self.
    destruct (dict_get _ _); simpl; auto.
    apply (then_save_ensures no_duplicate_relations).
    destruct w as [g d err]. now run_state.
  - apply (then_save_ensures no_duplicate_relations).
    apply (for_each_ensures (fun w' => no_duplicate_relations (self w')));
      [|exact Hw].
    intros name [g d err] Hg.
    unfold KnowledgeGraph.delete_entities_body. run_state.
    destruct (dict_mem _ _); simpl; auto.
    now apply NoDup_filter.
  - unfold KnowledgeGraph.delete_observations. unfold bind at 1, get_self.
    destruct (dict_get _ _); simpl; auto.
    apply (then_save_ensures no_duplicate_relations).
    destruct w as [g d err]. now run_state.
  - apply (then_save_ensures no_duplicate_relations).
    apply (for_each_ensures (fun w' => no_duplicate_relations (self w')));
      [|exact Hw].
    intros relation [g d err] Hg.
    unfold KnowledgeGraph.delete_relations_body. run_state.
    now apply NoDup_filter.
Qed.

(** X2. From an object whose relations are pairwise distinct triples (the
    empty store is one), after every call of any sequence of the six mutating
    methods, whether it returned or raised, no triple [(from, to,
    relationType)] is stored twice: [create_relations] is the only method that
    adds relations, and it refuses a triple already there, earlier in the
    same batch included. *)
Theorem no_duplicate_relations_after_every_call
  (calls : list (io_fault * op)) (w : World) :
  no_duplicate_relations (self w) ->
  Forall (fun w' => no_duplicate_relations (self w')) (trace dumps calls w).
Proof.
  revert w. induction calls as [|[io o] calls IH]; intros w Hw; simpl;
    constructor.
  - pose proof (perform_no_duplicates io o w Hw) as H.
    destruct (perform dumps io o w); simpl in *; auto.
  - apply IH. pose proof (perform_no_duplicates io o w Hw) as H.
    destruct (perform dumps io o w); simpl in *; auto.
Qed.

End Creating.

Lemma no_duplicate_relations_after_every_call_witness :
  no_duplicate_relations (self Example.fresh) /\
  Forall (fun w' => no_duplicate_relations (self w'))
    (trace PyJson.dumps
       [(NoFault, CreateEntities [Example.alice; Example.bob]);
        (NoFault, CreateRelations [Example.knows; Example.knows]);
        (NoFault, CreateRelations [Example.knows])]
       Example.fresh).
Proof.
  assert (H0 : no_duplicate_relations (self Example.fresh)) by constructor.
  split; [exact H0|].
  exact (no_duplicate_relations_after_every_call PyJson.dumps _ _ H0).
Defined.

(** ** Observations and relations *)

Lemma ensures_final {A} (P : World -> Prop) (o : Outcome A) (w : World) :
  P (final o w) -> ensures P o.
Proof. destruct o; simpl; auto. Qed.

Lemma filter_twice {A} (f g : A -> bool) (l : list A) :
  filter f (filter g l) = filter (fun x => g x && f x) l.
Proof.
  induction l as [|x l IH]; simpl; auto.
  destruct (g x); simpl; [|exact IH].
  destruct (f x); now rewrite IH.
Qed.

Section Observing.

Variable dumps : json -> string.

Ltac run_state :=
  unfold set_entities, set_relations, put_self, get_self, raise, ret, bind;
  simpl.

(** X3. [add_observations] on a name that is not in the store raises
    [EntityNotFound] and changes nothing, neither the object nor the file. On
    a name that is there it appends the given strings, in order and without
    removing repeats, to that entity's observations, and leaves its type,
    the order of the entities and the relations as they were, however the
    save ends. (The list is extended in place: the statement is about the
    named entity.) *)
Theorem add_observations_appends (io : io_fault) (name : string)
  (obs : list string) (w : World) :
  (dict_mem name (entities (self w)) = false ->
   KnowledgeGraph.add_observations dumps io name obs w =
   Raise (EntityNotFound name) w) /\
  (forall data,
     dict_get name (entities (self w)) = Some data ->
     ensures
       (fun w' =>
          dict_get name (entities (self w')) =
          Some (mkData (entityType data) (observations data ++ obs)) /\
          keys (entities (self w')) = keys (entities (self w)) /\
          relations (self w') = relations (self w))
       (KnowledgeGraph.add_observations dumps io name obs w)).
Proof.
  split.
  - intros Habs. unfold dict_mem in Habs.
    unfold KnowledgeGraph.add_observations. unfold bind, get_self.
    now destruct (dict_get name (entities (self w))).
  - intros data Hget. apply (ensures_final _ _ w).
    rewrite (add_observations_final dumps io name obs w data Hget). simpl.
    split; [apply dict_get_set_same|]. split; [|reflexivity].
    apply keys_dict_set_present. now apply (dict_get_some_mem _ data).
Qed.


(** X4. [delete_observations] on a name that is not in the store raises
    [EntityNotFound] and changes nothing. On a name that is there, what is
    left of its observations is, in the same order, every observation that is
    not equal to one of the given strings: all the occurrences of a given
    string go, none of the others does; every other entity, the order of the
    entities and the relations stay as they were. A given string that the
    entity does not have is no error. *)
Theorem delete_observations_removes_every_occurrence (io : io_fault)
  (name : string) (obs : list string) (w : World) :
  (dict_mem name (entities (self w)) = false ->
   KnowledgeGraph.delete_observations dumps io name obs w =
   Raise (EntityNotFound name) w) /\
  (forall data,
     dict_get name (entities (self w)) = Some data ->
     ensures
       (fun w' =>
          (exists left,
             dict_get name (entities (self w')) =
             Some (mkData (entityType data) left) /\
             left = filter (fun o => negb (PyStr.mem o obs)) (observations data) /\
             forall o, In o left <-> In o (observations data) /\ ~ In o obs) /\
          (forall n, n <> name ->
             dict_get n (entities (self w')) = dict_get n (entities (self w))) /\
          keys (entities (self w')) = keys (entities (self w)) /\
          relations (self w') = relations (self w))
       (KnowledgeGraph.delete_observations dumps io name obs w)).
Proof.
  split.
  - intros Habs. unfold dict_mem in Habs.
    unfold KnowledgeGraph.delete_observations. unfold bind, get_self.
    now destruct (dict_get name (entities (self w))).
  - intros data Hget. apply (ensures_final _ _ w).
    rewrite (delete_observations_final dumps io name obs w data Hget). simpl.
    split; [|split; [|split; [|reflexivity]]].
    + eexists. split; [apply dict_get_set_same|]. split; [reflexivity|].
      intros o. rewrite filter_In, negb_true_iff.
      split; intros [Hin Hno]; split; auto.
      * intros Hm. apply mem_In in Hm. congruence.
      * destruct (PyStr.mem o obs) eqn:E; auto. apply mem_In in E. tauto.
    + intros n Hn. now apply dict_get_set_other.
    + apply keys_dict_set_present. now apply (dict_get_some_mem _ data).
Qed.


(** The loop of [delete_relations] is one filter. *)
Lemma delete_relations_loop batch : forall g d err,
  for_each batch KnowledgeGraph.delete_relations_body (mkWorld g d err) =
  Return tt
    (mkWorld
       (mkGraph (entities g)
          (filter (fun r => negb (existsb (same_triple r) batch)) (relations g)))
       d err).
Proof.
  induction batch as [|x batch IH]; intros g d err; simpl.
  - rewrite forallb_filter_id; [now destruct g|]. now apply forallb_forall.
  - erewrite bind_return
      by (unfold KnowledgeGraph.delete_relations_body; run_state; reflexivity).
    rewrite IH. simpl. rewrite filter_twice.
    erewrite filter_ext; [reflexivity|].
    intros r. simpl. now rewrite negb_orb.
Qed.

(** X5. [delete_relations] never looks at the entities and never fails on
    its input: it keeps, in order, exactly the stored relations that are not
    the same triple as any relation of the request, whatever the request
    holds (relations that are not in the store are passed over); without a
    fault it returns and saves that graph. *)
Theorem delete_relations_filters (io : io_fault) (batch : list Relation)
  (w : World) :
  self (final (KnowledgeGraph.delete_relations dumps io batch w) w) =
  mkGraph (entities (self w))
    (filter (fun r => negb (existsb (same_triple r) batch))
       (relations (self w))) /\
  (forall r, In r (relations
                     (self (final (KnowledgeGraph.delete_relations dumps io
                                     batch w) w))) <->
             In r (relations (self w)) /\ ~ In r batch) /\
  KnowledgeGraph.delete_relations dumps NoFault batch w =
  Return tt
    (mkWorld
       (mkGraph (entities (self w))
          (filter (fun r => negb (existsb (same_triple r) batch))
             (relations (self w))))
       (Some (KnowledgeGraph.save_lines dumps
                (mkGraph (entities (self w))
                   (filter (fun r => negb (existsb (same_triple r) batch))
                      (relations (self w))))))
       (stderr w)).
Proof.
  assert (Hfinal :
            self (final (KnowledgeGraph.delete_relations dumps io batch w) w) =
            mkGraph (entities (self w))
              (filter (fun r => negb (existsb (same_triple r) batch))
                 (relations (self w)))).
  { unfold KnowledgeGraph.delete_relations. destruct w as [g d err].
    now rewrite (final_then_save dumps _ io _ _ (delete_relations_loop batch g d err)). }
  split; [exact Hfinal|]. split.
  - intros r. rewrite Hfinal. simpl. rewrite filter_In, negb_true_iff.
    split; intros [Hin Hno]; split; auto.
    + intros Hb. assert (existsb (same_triple r) batch = true); [|congruence].
      apply existsb_exists. exists r. split; [auto | now apply same_triple_eq].
    + destruct (existsb (same_triple r) batch) eqn:E; auto.
      apply existsb_exists in E as (r' & Hr' & E).
      apply same_triple_eq in E. subst. tauto.
  - unfold KnowledgeGraph.delete_relations. destruct w as [g d err].
    rewrite (bind_return _ _ _ _ _ (delete_relations_loop batch g d err)).
    now rewrite _save_spec.
Qed.

End Observing.

Lemma add_observations_appends_witness :
  (dict_mem "Carol" (entities (self Example.noted)) = false /\
   KnowledgeGraph.add_observations PyJson.dumps NoFault "Carol" ["hi"]
     Example.noted = Raise (EntityNotFound "Carol") Example.noted) /\
  (dict_get "Alice" (entities (self Example.noted)) =
   Some (mkData "person" ["met at conf"]) /\
   ensures
     (fun w' =>
        dict_get "Alice" (entities (self w')) =
        Some (mkData "person" (["met at conf"] ++ ["met at conf"; "tea"])) /\
        keys (entities (self w')) = keys (entities (self Example.noted)) /\
        relations (self w') = relations (self Example.noted))
     (KnowledgeGraph.add_observations PyJson.dumps NoFault "Alice"
        ["met at conf"; "tea"] Example.noted)).
Proof.
  split.
  - assert (H : dict_mem "Carol" (entities (self Example.noted)) = false)
      by reflexivity.
    split; [exact H|].
    exact (proj1 (add_observations_appends PyJson.dumps NoFault "Carol"
                    ["hi"] Example.noted) H).
  - assert (H : dict_get "Alice" (entities (self Example.noted)) =
                Some (mkData "person" ["met at conf"])) by reflexivity.
    split; [exact H|].
    exact (proj2 (add_observations_appends PyJson.dumps NoFault "Alice"
                    ["met at conf"; "tea"] Example.noted) _ H).
Defined.

Lemma delete_observations_removes_every_occurrence_witness :
  (dict_mem "Carol" (entities (self Example.noted)) = false /\
   KnowledgeGraph.delete_observations PyJson.dumps NoFault "Carol" ["hi"]
     Example.noted = Raise (EntityNotFound "Carol") Example.noted) /\
  (dict_get "Alice" (entities (self Example.noted)) =
   Some (mkData "person" ["met at conf"]) /\
   KnowledgeGraph.delete_observations PyJson.dumps NoFault "Alice"
     ["never said"] Example.noted =
   Return tt
     (mkWorld (self Example.noted)
        (Some (KnowledgeGraph.save_lines PyJson.dumps (self Example.noted)))
        []) /\
   ensures
     (fun w' =>
        exists left,
          dict_get "Alice" (entities (self w')) = Some (mkData "person" left) /\
          left = filter (fun o => negb (PyStr.mem o ["never said"]))
                   ["met at conf"])
     (KnowledgeGraph.delete_observations PyJson.dumps NoFault "Alice"
        ["never said"] Example.noted)).
Proof.
  split.
  - assert (H : dict_mem "Carol" (entities (self Example.noted)) = false)
      by reflexivity.
    split; [exact H|].
    exact (proj1 (delete_observations_removes_every_occurrence PyJson.dumps
                    NoFault "Carol" ["hi"] Example.noted) H).
  - assert (H : dict_get "Alice" (entities (self Example.noted)) =
                Some (mkData "person" ["met at conf"])) by reflexivity.
    split; [exact H|]. split; [reflexivity|].
    pose proof (proj2 (delete_observations_removes_every_occurrence
                         PyJson.dumps NoFault "Alice" ["never said"]
                         Example.noted) _ H) as T.
    destruct (KnowledgeGraph.delete_observations PyJson.dumps NoFault "Alice"
                ["never said"] Example.noted) as [[] w'|e w'|];
      simpl in *; auto;
      destruct T as [(left & Hl & Hf & _) _]; exists left; auto.
Defined.

(** ** Deleting entities *)

Lemma filter_id {A} (f : A -> bool) (l : list A) :
  (forall x, In x l -> f x = true) -> filter f l = l.
Proof.
  intros H. apply forallb_filter_id. now apply forallb_forall.
Qed.

Lemma in_keys {V} (k : string) (d : dict V) :
  In k (keys d) <-> exists v, In (k, v) d.
Proof.
  unfold keys. rewrite in_map_iff. split.
  - intros ([k' v] & <- & Hin). now exists v.
  - intros (v & Hin). now exists (k, v).
Qed.

Lemma dict_del_filter {V} (k : string) (d : dict V) :
  NoDup (keys d) ->
  dict_del k d = filter (fun kv => negb (fst kv =? k)) d.
Proof.
  induction d as [|[k' v'] d IH]; simpl; auto.
  intros Hnd. inversion Hnd as [|? ? Hnotin Hnd']; subst.
  rewrite (String.eqb_sym k' k).
  destruct (String.eqb_spec k k') as [->|Hne]; simpl.
  - symmetry. apply filter_id. intros [k2 v2] Hin. simpl.
    apply negb_true_iff, String.eqb_neq. intros ->.
    apply Hnotin, in_keys. now exists v2.
  - now rewrite IH.
Qed.

Lemma NoDup_keys_filter {V} (f : string * V -> bool) (d : dict V) :
  NoDup (keys d) -> NoDup (keys (filter f d)).
Proof.
  induction d as [|[k v] d IH]; simpl; auto.
  intros Hnd. inversion Hnd as [|? ? Hnotin Hnd']; subst.
  destruct (f (k, v)); simpl; auto.
  constructor; auto. intros Hin. apply Hnotin.
  apply in_keys in Hin as (v' & Hin). apply filter_In in Hin as [Hin _].
  apply in_keys. now exists v'.
Qed.

Lemma mem_cons (x n : string) (rest : list string) :
  PyStr.mem x (n :: rest) = (x =? n) || PyStr.mem x rest.
Proof. reflexivity. Qed.

Lemma without_cons (n : string) (rest : list string) (g : Graph) :
  without rest (without [n] g) = without (n :: rest) g.
Proof.
  unfold without. simpl entities. simpl relations. rewrite !filter_twice.
  f_equal; apply filter_ext; intros x; rewrite !mem_cons; simpl;
    rewrite ?orb_false_r.
  - now rewrite negb_orb.
  - destruct (from x =? n), (to x =? n); simpl; auto;
      now rewrite ?andb_false_r.
Qed.

Lemma without_twice (names : list string) (g : Graph) :
  without names (without names g) = without names g.
Proof.
  unfold without. simpl entities. simpl relations. rewrite !filter_twice.
  f_equal; apply filter_ext; intros x; now rewrite andb_diag.
Qed.

Section Cascading.

Variable dumps : json -> string.

Ltac run_state :=
  unfold set_entities, set_relations, put_self, get_self, raise, ret, bind;
  simpl.

(** One turn of the loop of [delete_entities], on a graph that keeps its
    invariants. *)
Lemma delete_entities_body_spec n g d err :
  unique_names g -> no_dangling g ->
  KnowledgeGraph.delete_entities_body n (mkWorld g d err) =
  Return tt (mkWorld (without [n] g) d err) /\
  unique_names (without [n] g) /\ no_dangling (without [n] g).
Proof.
  intros Hu Hd.
  destruct (delete_one n g d err Hd) as (g' & E & Hd' & _).
  assert (Hg' : g' = without [n] g).
  { revert E. unfold KnowledgeGraph.delete_entities_body. run_state.
    destruct (dict_mem n (entities g)) eqn:Hm; simpl; intros [= <-].
    - unfold without. f_equal.
      + rewrite (dict_del_filter n _ Hu). apply filter_ext.
        intros kv. rewrite mem_cons. simpl. now rewrite orb_false_r.
      + apply filter_ext. intros r. rewrite !mem_cons. simpl.
        now rewrite !orb_false_r.
    - apply dict_mem_false in Hm. unfold without. destruct g as [es rs].
      cbn [entities relations] in *. f_equal; symmetry; apply filter_id.
      + intros [k v] Hin. rewrite mem_cons. simpl. rewrite orb_false_r.
        apply negb_true_iff, String.eqb_neq. intros ->.
        apply Hm, in_keys. now exists v.
      + intros r Hr. destruct (Hd r Hr) as [Hf Ht].
        cbn [entities relations] in *. rewrite !mem_cons. simpl. rewrite !orb_false_r.
        apply dict_mem_in_keys in Hf, Ht.
        apply andb_true_iff. split; apply negb_true_iff, String.eqb_neq;
          intros E'; rewrite E' in *; contradiction. }
  subst g'. split; [exact E|]. split; [|exact Hd'].
  unfold unique_names, without. simpl. now apply NoDup_keys_filter.
Qed.

Lemma delete_entities_loop_spec names : forall g d err,
  unique_names g -> no_dangling g ->
  for_each names KnowledgeGraph.delete_entities_body (mkWorld g d err) =
  Return tt (mkWorld (without names g) d err) /\
  unique_names (without names g) /\ no_dangling (without names g).
Proof.
  induction names as [|n names IH]; intros g d err Hu Hd.
  - assert (E : without [] g = g).
    { unfold without. destruct g as [es rs]. simpl.
      f_equal; now apply filter_id. }
    rewrite E. simpl. auto.
  - destruct (delete_entities_body_spec n g d err Hu Hd) as (E1 & Hu1 & Hd1).
    destruct (IH (without [n] g) d err Hu1 Hd1) as (E2 & Hu2 & Hd2).
    rewrite without_cons in *. simpl.
    rewrite (bind_return _ _ _ _ _ E1). auto.
Qed.

Lemma delete_entities_final io names w :
  unique_names (self w) -> no_dangling (self w) ->
  self (final (KnowledgeGraph.delete_entities dumps io names w) w) =
  without names (self w) /\
  unique_names (without names (self w)) /\
  no_dangling (without names (self w)).
Proof.
  intros Hu Hd. destruct w as [g d err]. simpl in *.
  destruct (delete_entities_loop_spec names g d err Hu Hd) as (E & Hu' & Hd').
  split; [|auto]. unfold KnowledgeGraph.delete_entities.
  now rewrite (final_then_save dumps _ io _ _ E).
Qed.

Lemma delete_relations_final io batch w :
  self (final (KnowledgeGraph.delete_relations dumps io batch w) w) =
  mkGraph (entities (self w))
    (filter (fun r => negb (existsb (same_triple r) batch))
       (relations (self w))).
Proof.
  unfold KnowledgeGraph.delete_relations. destruct w as [g d err].
  now rewrite (final_then_save dumps _ io _ _
                 (delete_relations_loop batch g d err)).
Qed.

(** X6. On a store that keeps its invariants (distinct names, no dangling
    relation), [delete_entities] leaves exactly the entities whose name is not
    in the request, in their order and with their data, and exactly the
    relations neither end of which is in the request, in their order; names
    that are absent or repeated in the request change nothing more. The
    graph left keeps both invariants. *)
Theorem delete_entities_cascades_exactly (io : io_fault)
  (names : list string) (w : World) :
  unique_names (self w) -> no_dangling (self w) ->
  self (final (KnowledgeGraph.delete_entities dumps io names w) w) =
  without names (self w) /\
  unique_names (without names (self w)) /\
  no_dangling (without names (self w)).
Proof.
  apply delete_entities_final.
Qed.

(** X7. Deleting is idempotent: repeating a [delete_entities] (on a store
    that keeps its invariants), a [delete_observations] or a
    [delete_relations] with the same arguments leaves the graph as the first
    call left it. *)
Theorem deletes_are_idempotent (io1 io2 : io_fault) (w : World) :
  (forall names,
     unique_names (self w) -> no_dangling (self w) ->
     self (final (KnowledgeGraph.delete_entities dumps io2 names
                    (final (KnowledgeGraph.delete_entities dumps io1 names w) w))
             (final (KnowledgeGraph.delete_entities dumps io1 names w) w)) =
     self (final (KnowledgeGraph.delete_entities dumps io1 names w) w)) /\
  (forall name obs,
     self (final (KnowledgeGraph.delete_observations dumps io2 name obs
                    (final (KnowledgeGraph.delete_observations dumps io1 name
                              obs w) w))
             (final (KnowledgeGraph.delete_observations dumps io1 name obs w)
                w)) =
     self (final (KnowledgeGraph.delete_observations dumps io1 name obs w) w)) /\
  (forall batch,
     self (final (KnowledgeGraph.delete_relations dumps io2 batch
                    (final (KnowledgeGraph.delete_relations dumps io1 batch w)
                       w))
             (final (KnowledgeGraph.delete_relations dumps io1 batch w) w)) =
     self (final (KnowledgeGraph.delete_relations dumps io1 batch w) w)).
Proof.
  split; [|split].
  - intros names Hu Hd.
    destruct (delete_entities_final io1 names w Hu Hd)
      as (E1 & Hu1 & Hd1).
    set (w1 := final (KnowledgeGraph.delete_entities dumps io1 names w) w) in *.
    rewrite <- E1 in Hu1, Hd1.
    destruct (delete_entities_final io2 names w1 Hu1 Hd1)
      as (E2 & _).
    rewrite E2, E1. apply without_twice.
  - intros name obs.
    set (w1 := final (KnowledgeGraph.delete_observations dumps io1 name obs w)
                 w).
    destruct (dict_get name (entities (self w))) as [data|] eqn:Hget.
    + assert (E1 : self w1 =
                   mkGraph
                     (dict_set name
                        (mkData (entityType data)
                           (filter (fun o => negb (PyStr.mem o obs))
                              (observations data)))
                        (entities (self w)))
                     (relations (self w)))
        by (apply delete_observations_final; exact Hget).
      erewrite delete_observations_final
        by (rewrite E1; simpl; apply dict_get_set_same).
      rewrite E1. simpl. rewrite dict_set_set, filter_twice.
      erewrite filter_ext; [reflexivity|].
      intros o. simpl. now rewrite andb_diag.
    + assert (E1 : final (KnowledgeGraph.delete_observations dumps io1 name
                            obs w) w = w).
      { unfold KnowledgeGraph.delete_observations, bind, get_self.
        now rewrite Hget. }
      assert (E2 : final (KnowledgeGraph.delete_observations dumps io2 name
                            obs w) w = w).
      { unfold KnowledgeGraph.delete_observations, bind, get_self.
        now rewrite Hget. }
      unfold w1. now rewrite !E1, E2.
  - intros batch.
    pose proof (delete_relations_final io1 batch w) as E1.
    set (w1 := final (KnowledgeGraph.delete_relations dumps io1 batch w) w) in *.
    pose proof (delete_relations_final io2 batch w1) as E2.
    rewrite E2, E1. simpl. rewrite filter_twice. f_equal.
    apply filter_ext. intros r. now rewrite andb_diag.
Qed.

End Cascading.

Lemma delete_entities_cascades_exactly_witness :
  unique_names Example.two /\ no_dangling Example.two /\
  self (final (KnowledgeGraph.delete_entities PyJson.dumps NoFault
                 ["Bob"; "Carol"; "Bob"] (mkWorld Example.two None []))
          (mkWorld Example.two None [])) =
  without ["Bob"; "Carol"; "Bob"] Example.two /\
  unique_names (without ["Bob"; "Carol"; "Bob"] Example.two) /\
  no_dangling (without ["Bob"; "Carol"; "Bob"] Example.two).
Proof.
  assert (Hu : unique_names Example.two).
  { repeat constructor; simpl; intuition discriminate. }
  assert (Hd : no_dangling Example.two).
  { intros r [<-|[]]. split; reflexivity. }
  split; [exact Hu|]. split; [exact Hd|].
  exact (delete_entities_cascades_exactly PyJson.dumps NoFault
           ["Bob"; "Carol"; "Bob"] (mkWorld Example.two None []) Hu Hd).
Defined.

Lemma deletes_are_idempotent_witness :
  unique_names Example.two /\ no_dangling Example.two /\
  self (final (KnowledgeGraph.delete_entities PyJson.dumps NoFault ["Bob"]
                 (final (KnowledgeGraph.delete_entities PyJson.dumps
                           (WriteFails 0) ["Bob"]
                           (mkWorld Example.two None []))
                    (mkWorld Example.two None [])))
          (final (KnowledgeGraph.delete_entities PyJson.dumps (WriteFails 0)
                    ["Bob"] (mkWorld Example.two None []))
             (mkWorld Example.two None []))) =
  self (final (KnowledgeGraph.delete_entities PyJson.dumps (WriteFails 0)
                 ["Bob"] (mkWorld Example.two None []))
          (mkWorld Example.two None [])).
Proof.
  assert (Hu : unique_names Example.two).
  { repeat constructor; simpl; intuition discriminate. }
  assert (Hd : no_dangling Example.two).
  { intros r [<-|[]]. split; reflexivity. }
  split; [exact Hu|]. split; [exact Hd|].
  exact (proj1 (deletes_are_idempotent PyJson.dumps (WriteFails 0) NoFault
                  (mkWorld Example.two None [])) ["Bob"] Hu Hd).
Defined.

(** ** Reading *)

Lemma open_nodes_names g names :
  map KnowledgeGraph.nd_name (KnowledgeGraph.open_nodes g names) =
  filter (fun n => dict_mem n (entities g)) names.
Proof.
  induction names as [|n names IH]; simpl; auto.
  unfold dict_mem. destruct (dict_get n (entities g)); simpl; now rewrite IH.
Qed.

Lemma contains_empty (s : string) : PyStr.contains "" s = true.
Proof. apply contains_spec. now exists ""%string, s. Qed.

(** X8. [open_nodes] answers the requested names that are in the store, in
    the order of the request and as often as the request repeats them, and
    passes over the others without an error. Each node carries the entity's
    stored data, and as [relations_from] (resp. [relations_to]) exactly the
    stored relations that leave (resp. reach) that name. *)
Theorem open_nodes_answers_present_names (g : Graph) (names : list string) :
  map KnowledgeGraph.nd_name (KnowledgeGraph.open_nodes g names) =
  filter (fun n => dict_mem n (entities g)) names /\
  (List.length (KnowledgeGraph.open_nodes g names) <= List.length names)%nat /\
  forall node, In node (KnowledgeGraph.open_nodes g names) ->
    In (KnowledgeGraph.nd_name node) names /\
    dict_get (KnowledgeGraph.nd_name node) (entities g) =
    Some (KnowledgeGraph.nd_data node) /\
    (forall r, In r (KnowledgeGraph.relations_from node) <->
               In r (relations g) /\ from r = KnowledgeGraph.nd_name node) /\
    (forall r, In r (KnowledgeGraph.relations_to node) <->
               In r (relations g) /\ to r = KnowledgeGraph.nd_name node).
Proof.
  split; [apply open_nodes_names|]. split.
  - rewrite <- (length_map KnowledgeGraph.nd_name), open_nodes_names.
    apply filter_length_le.
  - induction names as [|n names IH]; simpl; [tauto|].
    intros node. destruct (dict_get n (entities g)) as [data|] eqn:Hget.
    + intros [<-|Hin]; simpl.
      * split; [now left|]. split; [exact Hget|].
        split; intros r; rewrite filter_In, String.eqb_eq; tauto.
      * destruct (IH node Hin) as (H1 & H2). split; [now right | exact H2].
    + intros Hin. destruct (IH node Hin) as (H1 & H2).
      split; [now right | exact H2].
Qed.

(** X9. A query that is the empty string matches every entity on its name:
    [search_nodes] then returns the whole store, in order, every entry tagged
    ['name']. *)
Theorem search_nodes_empty_query_returns_all (g : Graph) :
  KnowledgeGraph.search_nodes g "" =
  map (fun kv => KnowledgeGraph.mkResult (fst kv) (snd kv) "name")
    (entities g).
Proof.
  rewrite search_nodes_spec.
  induction (entities g) as [|[name data] es IH]; simpl; auto.
  rewrite IH. unfold hit, first_match. simpl.
  now rewrite contains_empty.
Qed.

Section Reading.

Variable loads : string -> option json.

(** The constructor, on a file that loads within the typed model. *)
Lemma __init___loaded d g errs :
  loaded loads d = Some (g, errs) ->
  KnowledgeGraph.__init__ loads (mkWorld empty_graph d []) =
  Return tt (mkWorld g d errs).
Proof.
  destruct d as [lines|]; simpl.
  - unfold load_file.
    pose proof (__init___outcome loads (mkWorld empty_graph (Some lines) []))
      as Hd.
    destruct (KnowledgeGraph.__init__ loads _) as [[] [g' d' err']|e w'|];
      try discriminate.
    simpl in *. intros [= <- <-]. now subst.
  - intros [= <- <-]. now rewrite __init___spec.
Qed.

(** X10. On a file whose load stays within the typed model (every field
    it reaches has the JSON type the store writes: strings, and a list of
    strings for the observations), whether there is no file, a complete
    file, or a file whose load stopped at some line with a warning, each of
    the three reading tools reports success, leaves the file alone and
    answers from the graph the load produced; [read_graph] reports the
    numbers of entities and relations, [search_nodes] the number of results,
    [open_nodes] the number of names requested and the number found. (A
    record with a field of another type, such as a null [entityType], is
    outside this statement.) *)
Theorem read_tools_answer_from_loaded_graph (d : file) (g : Graph)
  (errs : list error) :
  loaded loads d = Some (g, errs) ->
  call (read_graph loads) d =
  Return (success "read_graph" (List.length (entities g))
            (List.length (relations g), (entities g, relations g)))
    (mkWorld g d errs) /\
  (forall query,
     call (search_nodes loads query) d =
     Return (success "search_nodes"
               (List.length (KnowledgeGraph.search_nodes g query))
               (KnowledgeGraph.search_nodes g query))
       (mkWorld g d errs)) /\
  (forall names,
     call (open_nodes loads names) d =
     Return (success "open_nodes" (List.length names)
               (List.length (KnowledgeGraph.open_nodes g names),
                KnowledgeGraph.open_nodes g names))
       (mkWorld g d errs)).
Proof.
  intros Hload. apply __init___loaded in Hload.
  assert (Hmap : forall es : list (string * EntityData),
             map (fun '(name, data) => (name, data)) es = es).
  { induction es as [|[n v] es IH]; simpl; [auto | now rewrite IH]. }
  split; [|split; intros x];
    unfold call, read_graph, search_nodes, open_nodes, try_except;
    rewrite (bind_return _ _ _ _ _ Hload);
    unfold bind, get_self, ret, KnowledgeGraph.read_graph; simpl;
    rewrite ?Hmap, ?length_map; reflexivity.
Qed.

End Reading.

Lemma read_tools_answer_from_loaded_graph_witness :
  loaded PyJson.loads
    (Some [Example.alice_line; Example.torn_line; Example.bob_line]) =
  Some (mkGraph [("Alice", mkData "person" [])] [], [JSONDecodeError]) /\
  call (read_graph PyJson.loads)
    (Some [Example.alice_line; Example.torn_line; Example.bob_line]) =
  Return (success "read_graph" 1 (0%nat, ([("Alice", mkData "person" [])], [])))
    (mkWorld (mkGraph [("Alice", mkData "person" [])] [])
       (Some [Example.alice_line; Example.torn_line; Example.bob_line])
       [JSONDecodeError]).
Proof.
  assert (H : loaded PyJson.loads
                (Some [Example.alice_line; Example.torn_line;
                       Example.bob_line]) =
              Some (mkGraph [("Alice", mkData "person" [])] [],
                    [JSONDecodeError])) by (vm_compute; reflexivity).
  split; [exact H|].
  exact (proj1 (read_tools_answer_from_loaded_graph PyJson.loads _ _ _ H)).
Defined.

(** ** The file between calls *)

Lemma in_firstn {A} (k : nat) (x : A) (l : list A) :
  In x (firstn k l) -> In x l.
Proof.
  intros H. rewrite <- (firstn_skipn k l). apply in_or_app. now left.
Qed.

Lemma NoDup_firstn' {A} (k : nat) (l : list A) :
  NoDup l -> NoDup (firstn k l).
Proof.
  intros H. rewrite <- (firstn_skipn k l) in H.
  now apply NoDup_app_remove_r in H.
Qed.

Lemma keys_firstn {V} (k : nat) (d : dict V) :
  keys (firstn k d) = firstn k (keys d).
Proof. unfold keys. now rewrite firstn_map. Qed.

Lemma records_first_records (k : nat) (g : Graph) :
  records (first_records k g) = firstn k (records g).
Proof.
  unfold records, first_records. simpl.
  now rewrite firstn_app, length_map, !firstn_map.
Qed.

Lemma first_records_unique k g :
  unique_names g -> unique_names (first_records k g).
Proof.
  unfold unique_names, first_records. simpl. rewrite keys_firstn.
  apply NoDup_firstn'.
Qed.

Lemma first_records_no_dangling k g :
  no_dangling g -> no_dangling (first_records k g).
Proof.
  intros Hd r Hr. unfold first_records in *. simpl in *.
  destruct (Nat.le_gt_cases k (List.length (entities g))) as [Hle|Hgt].
  - replace (k - List.length (entities g))%nat with 0%nat in Hr by lia.
    destruct Hr.
  - rewrite firstn_all2 by lia. apply Hd. now apply in_firstn in Hr.
Qed.

Lemma substring_all (s : string) : substring 0 (String.length s) s = s.
Proof. induction s as [|c s IH]; simpl; [reflexivity | now rewrite IH]. Qed.

(** The first [n] characters of a file are its entire lines, then the
    beginning of the line the cut falls into, if it falls into one. *)
Lemma torn_split lines : forall n,
  torn n lines =
  firstn (whole n lines) lines ++
  match cut n lines with Some p => [p] | None => [] end.
Proof.
  induction lines as [|line lines IH]; intros n; simpl; [reflexivity|].
  destruct (String.length line <? n)%nat.
  - simpl. now rewrite IH.
  - destruct (n =? 0)%nat; [reflexivity|].
    destruct (Nat.eqb_spec n (String.length line)) as [->|Hne];
      [|reflexivity].
    simpl. now rewrite substring_all.
Qed.

Section Rewriting.

Variable dumps : json -> string.
Variable loads : string -> option json.

(** A method that returns has saved the graph it ends with. *)
Lemma then_save_returns (m : M unit) io w w1 :
  bind m (fun _ => KnowledgeGraph._save dumps io) w = Return tt w1 ->
  disk w1 = Some (KnowledgeGraph.save_lines dumps (self w1)).
Proof.
  unfold bind. destruct (m w) as [[] w'|e w'|]; try discriminate.
  rewrite _save_spec. destruct io; simpl; try discriminate.
  - now intros [= <-].
  - destruct (_ <? _)%nat; [discriminate|]. now intros [= <-].
Qed.

Lemma perform_returns io o w w1 :
  perform dumps io o w = Return tt w1 ->
  disk w1 = Some (KnowledgeGraph.save_lines dumps (self w1)).
Proof.
  destruct o; simpl; try apply then_save_returns.
  - unfold KnowledgeGraph.add_observations. unfold bind at 1, get_self.
    destruct (dict_get _ _); [apply then_save_returns | discriminate].
  - unfold KnowledgeGraph.delete_observations. unfold bind at 1, get_self.
    destruct (dict_get _ _); [apply then_save_returns | discriminate].
Qed.

(** The first [k] lines of a saved graph load, without a warning, as the
    graph of its first [k] records. *)
Lemma load_first_lines k g :
  unique_names g ->
  (forall v, In v (records g) -> codec_ok dumps loads v) ->
  load_file loads (firstn k (KnowledgeGraph.save_lines dumps g)) =
  Some (first_records k g, []).
Proof.
  intros Hu Hok.
  rewrite save_lines_records, firstn_map, <- records_first_records.
  rewrite <- save_lines_records.
  apply load_saved_lines; [now apply first_records_unique|].
  intros v Hv. apply Hok. rewrite records_first_records in Hv.
  now apply in_firstn in Hv.
Qed.

(** What the constructor returns is what [loaded] says. *)
Lemma __init___returns d w0 :
  KnowledgeGraph.__init__ loads (mkWorld empty_graph d []) = Return tt w0 ->
  loaded loads d = Some (self w0, stderr w0) /\ disk w0 = d.
Proof.
  intros E.
  pose proof (__init___outcome loads (mkWorld empty_graph d [])) as Hd.
  rewrite E in Hd. simpl in Hd. split; [|exact Hd].
  destruct d as [lines|]; simpl.
  - unfold load_file. now rewrite E.
  - rewrite __init___spec in E. now injection E as <-.
Qed.

Lemma loaded_unique d g errs :
  loaded loads d = Some (g, errs) -> unique_names g.
Proof.
  destruct d as [lines|]; simpl.
  - apply load_file_unique.
  - intros [= <- _]. constructor.
Qed.

(** X11. On a device that takes only the first [n] characters of the text
    of the graph, [_save] fails and leaves those characters. The next load
    reads the records whose line is entire in them, the first entities and
    then, once every entity is in, the first relations; it warns (once) when
    the cut falls inside a line, whose beginning does not parse, and is
    silent when the cut falls between two lines or before a newline, with
    nothing to tell the next process that records are missing. *)
Theorem torn_file_loads_entire_records (n : nat) (g : Graph) (d : file)
  (err : list error) :
  unique_names g ->
  (forall v, In v (records g) -> codec_ok dumps loads v) ->
  (forall p, cut n (KnowledgeGraph.save_lines dumps g) = Some p ->
     PyStr.strip_nonempty p = true /\ loads p = None) ->
  (n < chars (KnowledgeGraph.save_lines dumps g))%nat ->
  KnowledgeGraph._save dumps (WriteFails n) (mkWorld g d err) =
  Raise FailedToSave
    (mkWorld g (Some (torn n (KnowledgeGraph.save_lines dumps g))) err) /\
  load_file loads (torn n (KnowledgeGraph.save_lines dumps g)) =
  Some (first_records (whole n (KnowledgeGraph.save_lines dumps g)) g,
        match cut n (KnowledgeGraph.save_lines dumps g) with
        | Some _ => [JSONDecodeError]
        | None => []
        end) /\
  (no_dangling g ->
   no_dangling (first_records (whole n (KnowledgeGraph.save_lines dumps g)) g)).
Proof.
  intros Hu Hok Hcut Hn. split; [|split].
  - rewrite _save_spec. simpl. apply Nat.ltb_lt in Hn. now rewrite Hn.
  - rewrite torn_split.
    pose proof (load_first_lines
                  (whole n (KnowledgeGraph.save_lines dumps g)) g Hu Hok)
      as Hpre.
    destruct (cut n (KnowledgeGraph.save_lines dumps g)) as [p|].
    + destruct (Hcut p eq_refl) as [Hs Hbad].
      now apply (load_file_malformed loads).
    + now rewrite app_nil_r.
  - apply first_records_no_dangling.
Qed.

(** X14. Every mutating call that returns rewrites the whole file from the
    graph it loaded, so what did not load is gone from the file: even
    [create_entities] with an empty batch, which changes nothing in the
    graph, leaves as the file the saved form of the loaded graph (blank
    lines, records of another type, and every line from the first one that
    failed to load are dropped). *)
Theorem empty_batch_rewrites_file (d : file) (g : Graph) (errs : list error) :
  loaded loads d = Some (g, errs) ->
  call (create_entities dumps loads NoFault []) d =
  Return (success "create_entities" 0 [])
    (mkWorld g (Some (KnowledgeGraph.save_lines dumps g)) errs).
Proof.
  intros Hload. apply __init___loaded in Hload.
  unfold call, create_entities, try_except.
  rewrite (bind_return _ _ _ _ _ Hload).
  unfold KnowledgeGraph.create_entities. simpl for_each.
  unfold bind at 1. unfold bind at 1. unfold ret at 1.
  now rewrite _save_spec.
Qed.

End Rewriting.

Section Persisting.

Variable dumps : json -> string.
Variable loads : string -> option json.

(** What the store needs of [json.dumps] and [json.loads]: every record
    [_save] can print is read back from its line. *)
Hypothesis codec : forall g v, In v (records g) -> codec_ok dumps loads v.

Lemma sound_saved g :
  unique_names g -> no_dangling g -> no_duplicate_relations g ->
  sound_file loads (Some (KnowledgeGraph.save_lines dumps g)).
Proof.
  intros Hu Hd Hn. exists g. split; [|auto].
  apply load_saved_lines; [exact Hu | apply codec].
Qed.

(** A file that is sound loads into a graph that keeps the invariants. *)
Lemma sound_loaded d :
  sound_file loads d ->
  exists g, loaded loads d = Some (g, []) /\
            unique_names g /\ no_dangling g /\ no_duplicate_relations g.
Proof.
  destruct d as [lines|]; simpl; auto.
  intros _. exists empty_graph. split; [reflexivity|].
  split; [constructor|]. split; [intros r [] | constructor].
Qed.

(** One method call on a graph that keeps the invariants, when no write is
    cut short. *)
Lemma perform_sound io o w :
  (forall n, io <> WriteFails n) ->
  unique_names (self w) -> no_dangling (self w) ->
  no_duplicate_relations (self w) -> sound_file loads (disk w) ->
  sound_file loads (disk_after (perform dumps io o w) (disk w)).
Proof.
  intros Hio Hu Hd Hn Hs.
  pose proof (perform_unique dumps io o w Hu) as Hu1.
  pose proof (perform_inv dumps io o w Hd) as Hd1.
  pose proof (perform_no_duplicates dumps io o w Hn) as Hn1.
  pose proof (perform_kept_or_torn dumps io o w) as Hk.
  pose proof (perform_returns dumps io o w) as Hr.
  destruct (perform dumps io o w) as [[] w1|e w1|]; simpl in *; auto.
  - specialize (Hr w1 eq_refl). rewrite Hr. now apply sound_saved.
  - destruct io; try (now rewrite Hk). now elim (Hio n).
Qed.

(** The six mutating tools, by the method they call. *)
Lemma tool_sound {A} io o (env : envelope A) name d :
  (forall n, io <> WriteFails n) ->
  sound_file loads d ->
  sound_file loads
    (disk_after
       (call (try_except
                (KnowledgeGraph.__init__ loads ;; perform dumps io o ;; ret env)
                (fun e => ret (failure name e))) d) d).
Proof.
  intros Hio Hs. rewrite tool_shape.
  destruct (sound_loaded d Hs) as (g & Hload & Hu & Hd & Hn).
  rewrite (__init___loaded loads d g [] Hload).
  pose proof (perform_sound io o (mkWorld g d []) Hio Hu Hd Hn Hs) as H1.
  simpl in H1.
  destruct (perform dumps io o (mkWorld g d [])) as [[] w1|e w1|];
    simpl in *; auto.
Qed.

Lemma tool_written {A} io o count (payload : A) name d :
  written_through dumps loads
    (call (try_except
             (KnowledgeGraph.__init__ loads ;; perform dumps io o ;;
              ret (success name count payload))
             (fun e => ret (failure name e))) d).
Proof.
  rewrite tool_shape.
  destruct (KnowledgeGraph.__init__ loads (mkWorld empty_graph d []))
    as [[] w0|e w0|] eqn:E0; simpl; auto.
  apply __init___returns in E0 as [Hload _].
  apply loaded_unique in Hload.
  pose proof (perform_unique dumps io o w0 Hload) as Hu1.
  pose proof (perform_returns dumps io o w0) as Hr.
  destruct (perform dumps io o w0) as [[] w1|e w1|]; simpl in *; auto.
  split; [now apply Hr|].
  apply load_saved_lines; [exact Hu1 | apply codec].
Qed.

Lemma serve_sound io o d :
  (forall n, io <> WriteFails n) ->
  sound_file loads d -> sound_file loads (serve dumps loads io o d).
Proof.
  intros Hio Hs. destruct o; simpl.
  - apply (tool_sound io (CreateEntities batch)); assumption.
  - apply (tool_sound io (CreateRelations batch)); assumption.
  - apply (tool_sound io (AddObservations entity_name obs)); assumption.
  - apply (tool_sound io (DeleteEntities entity_names)); assumption.
  - apply (tool_sound io (DeleteObservations entity_name obs)); assumption.
  - apply (tool_sound io (DeleteRelations batch)); assumption.
Qed.

(** X12. A mutating tool call that reports success has written the graph
    through, whatever the file held before: the file it leaves is the saved
    form of the graph the call ended with, and loads back to exactly that
    graph without a warning. *)
Theorem successful_call_is_written_through (io : io_fault) (d : file) :
  (forall batch,
     written_through dumps loads
       (call (create_entities dumps loads io batch) d)) /\
  (forall batch,
     written_through dumps loads
       (call (create_relations dumps loads io batch) d)) /\
  (forall name obs,
     written_through dumps loads
       (call (add_observations dumps loads io name obs) d)) /\
  (forall names,
     written_through dumps loads
       (call (delete_entities dumps loads io names) d)) /\
  (forall name obs,
     written_through dumps loads
       (call (delete_observations dumps loads io name obs) d)) /\
  (forall batch,
     written_through dumps loads
       (call (delete_relations dumps loads io batch) d)).
Proof.
  repeat split; intros.
  - apply (tool_written io (CreateEntities batch)).
  - apply (tool_written io (CreateRelations batch)).
  - apply (tool_written io (AddObservations name obs)).
  - apply (tool_written io (DeleteEntities names)).
  - apply (tool_written io (DeleteObservations name obs)).
  - apply (tool_written io (DeleteRelations batch)).
Qed.

(** X13. The file stays sound through any sequence of mutating tool calls,
    each a process of its own, in which the checks may fail and [mkdir] or
    [open] may fail, but no write is cut short: from no file or a sound one,
    after every call the file, if there is one, loads without a warning
    into a graph with distinct names, no dangling relation and no repeated
    relation. *)
Theorem file_stays_sound_unless_a_write_is_cut
  (calls : list (io_fault * op)) (d : file) :
  Forall (fun c => forall n, fst c <> WriteFails n) calls ->
  sound_file loads d ->
  Forall (sound_file loads) (session dumps loads calls d).
Proof.
  revert d. induction calls as [|[io o] calls IH]; intros d Hio Hs; simpl;
    constructor; inversion Hio as [|? ? Hc Hrest]; subst; simpl in Hc.
  - now apply serve_sound.
  - apply IH; [exact Hrest|]. now apply serve_sound.
Qed.

End Persisting.

Lemma torn_file_loads_entire_records_witness :
  unique_names Example.two /\
  (forall v, In v (records Example.two) ->
     codec_ok PyJson.dumps PyJson.loads v) /\
  cut 102 (KnowledgeGraph.save_lines PyJson.dumps Example.two) =
  Some (PyJson.text "{'type': 'entity', 'na") /\
  (102 < chars (KnowledgeGraph.save_lines PyJson.dumps Example.two))%nat /\
  KnowledgeGraph._save PyJson.dumps (WriteFails 102)
    (mkWorld Example.two None []) =
  Raise FailedToSave
    (mkWorld Example.two
       (Some [Example.alice_line; PyJson.text "{'type': 'entity', 'na"]) []) /\
  load_file PyJson.loads
    [Example.alice_line; PyJson.text "{'type': 'entity', 'na"] =
  Some (mkGraph [("Alice", mkData "person" [])] [], [JSONDecodeError]).
Proof.
  assert (Hu : unique_names Example.two).
  { repeat constructor; simpl; intuition discriminate. }
  assert (Hok : forall v, In v (records Example.two) ->
                  codec_ok PyJson.dumps PyJson.loads v).
  { intros v [<-|[<-|[<-|[]]]]; split; vm_compute; reflexivity. }
  assert (Hc : cut 102 (KnowledgeGraph.save_lines PyJson.dumps Example.two) =
               Some (PyJson.text "{'type': 'entity', 'na"))
    by (vm_compute; reflexivity).
  assert (Hcut : forall p,
             cut 102 (KnowledgeGraph.save_lines PyJson.dumps Example.two) =
             Some p ->
             PyStr.strip_nonempty p = true /\ PyJson.loads p = None).
  { intros p Hp. rewrite Hc in Hp. injection Hp as <-.
    split; vm_compute; reflexivity. }
  assert (Hn : (102 < chars (KnowledgeGraph.save_lines PyJson.dumps
                              Example.two))%nat)
    by (vm_compute; lia).
  split; [exact Hu|]. split; [exact Hok|]. split; [exact Hc|].
  split; [exact Hn|].
  destruct (torn_file_loads_entire_records PyJson.dumps PyJson.loads 102
              Example.two None [] Hu Hok Hcut Hn) as (T1 & T2 & _).
  split; [exact T1 | exact T2].
Defined.

Lemma empty_batch_rewrites_file_witness :
  loaded PyJson.loads
    (Some [Example.alice_line; Example.torn_line; Example.bob_line]) =
  Some (mkGraph [("Alice", mkData "person" [])] [], [JSONDecodeError]) /\
  call (create_entities PyJson.dumps PyJson.loads NoFault [])
    (Some [Example.alice_line; Example.torn_line; Example.bob_line]) =
  Return (success "create_entities" 0 [])
    (mkWorld (mkGraph [("Alice", mkData "person" [])] [])
       (Some (KnowledgeGraph.save_lines PyJson.dumps
                (mkGraph [("Alice", mkData "person" [])] [])))
       [JSONDecodeError]).
Proof.
  assert (H : loaded PyJson.loads
                (Some [Example.alice_line; Example.torn_line;
                       Example.bob_line]) =
              Some (mkGraph [("Alice", mkData "person" [])] [],
                    [JSONDecodeError])) by (vm_compute; reflexivity).
  split; [exact H|].
  exact (empty_batch_rewrites_file PyJson.dumps PyJson.loads _ _ _ H).
Defined.

Lemma successful_call_is_written_through_witness :
  (forall g v, In v (records g) -> codec_ok PyJson.dumps PyJson.loads v) /\
  written_through PyJson.dumps PyJson.loads
    (call (create_entities PyJson.dumps PyJson.loads NoFault
             [Example.alice])
       (Some [Example.bob_line; Example.torn_line])).
Proof.
  split; [exact PyJsonFacts.records_codec_ok|].
  exact (proj1 (successful_call_is_written_through PyJson.dumps PyJson.loads
                  PyJsonFacts.records_codec_ok NoFault
                  (Some [Example.bob_line; Example.torn_line]))
           [Example.alice]).
Defined.

Lemma file_stays_sound_unless_a_write_is_cut_witness :
  (forall g v, In v (records g) -> codec_ok PyJson.dumps PyJson.loads v) /\
  Forall (fun c : io_fault * op => forall n, fst c <> WriteFails n)
    [(NoFault, CreateEntities [Example.alice; Example.bob]);
     (OpenFails, CreateRelations [Example.knows]);
     (NoFault, CreateRelations [Example.knows; Example.ghost]);
     (MkdirFails, DeleteEntities ["Bob"])] /\
  sound_file PyJson.loads None /\
  Forall (sound_file PyJson.loads)
    (session PyJson.dumps PyJson.loads
       [(NoFault, CreateEntities [Example.alice; Example.bob]);
        (OpenFails, CreateRelations [Example.knows]);
        (NoFault, CreateRelations [Example.knows; Example.ghost]);
        (MkdirFails, DeleteEntities ["Bob"])]
       None).
Proof.
  assert (Hio : Forall (fun c : io_fault * op =>
                          forall n, fst c <> WriteFails n)
                  [(NoFault, CreateEntities [Example.alice; Example.bob]);
                   (OpenFails, CreateRelations [Example.knows]);
                   (NoFault, CreateRelations [Example.knows; Example.ghost]);
                   (MkdirFails, DeleteEntities ["Bob"])]).
  { repeat constructor; simpl; discriminate. }
  split; [exact PyJsonFacts.records_codec_ok|]. split; [exact Hio|].
  split; [exact I|].
  exact (file_stays_sound_unless_a_write_is_cut PyJson.dumps PyJson.loads
           PyJsonFacts.records_codec_ok _ None Hio I).
Defined.

(** ** What a creating call that returns has done *)

Lemma all_accepted_spec batch : forall g,
  all_accepted g batch ->
  (forall r, In r batch ->
     dict_mem (from r) (entities g) = true /\
     dict_mem (to r) (entities g) = true /\
     ~ In r (relations g)) /\
  NoDup batch.
Proof.
  induction batch as [|r batch IH]; intros g; simpl.
  - intros _. split; [tauto | constructor].
  - intros [Hr Hrest]. destruct (IH _ Hrest) as [H1 H2]. simpl in H1.
    unfold rejection in Hr.
    destruct (dict_mem (from r) (entities g)) eqn:Hf; [|discriminate].
    destruct (dict_mem (to r) (entities g)) eqn:Ht; [|discriminate].
    simpl in Hr.
    destruct (existsb _ (relations g)) eqn:He; [discriminate|].
    assert (Hnew : ~ In r (relations g)).
    { intros Hin. apply exists_same_triple in Hin. congruence. }
    split.
    + intros r' [<-|Hin]; [auto|].
      destruct (H1 r' Hin) as (Hf' & Ht' & Hn').
      split; [exact Hf'|]. split; [exact Ht'|].
      intros Hin'. apply Hn'. apply in_or_app. now left.
    + constructor; [|exact H2].
      intros Hin. destruct (H1 r Hin) as (_ & _ & Hn).
      apply Hn. apply in_or_app. right. now left.
Qed.

Section Returning.

Variable dumps : json -> string.

Ltac run_state :=
  unfold set_entities, set_relations, put_self, get_self, raise, ret, bind;
  simpl.

Lemma create_entities_loop_returns batch : forall w w',
  for_each batch KnowledgeGraph.create_entities_body w = Return tt w' ->
  NoDup (map in_name batch) /\
  (forall e, In e batch -> dict_mem (in_name e) (entities (self w)) = false).
Proof.
  induction batch as [|e batch IH]; intros [g d err] w'; simpl.
  - intros _. split; [constructor | tauto].
  - unfold bind at 1. unfold KnowledgeGraph.create_entities_body at 1.
    run_state.
    destruct (dict_mem (in_name e) (entities g)) eqn:Hm; simpl;
      [discriminate|].
    intros Hrest. apply IH in Hrest as [Hnd Hfresh]. simpl in Hfresh.
    assert (Hother : forall e', In e' batch ->
                       in_name e' <> in_name e /\
                       dict_mem (in_name e') (entities g) = false).
    { intros e' He'. specialize (Hfresh e' He').
      rewrite dict_mem_set in Hfresh. apply orb_false_iff in Hfresh as [H1 H2].
      split; [now apply String.eqb_neq | exact H2]. }
    split.
    + constructor; [|exact Hnd]. intros Hin.
      apply in_map_iff in Hin as (e' & E & He').
      now destruct (Hother e' He').
    + intros e' [<-|He']; [exact Hm | now destruct (Hother e' He')].
Qed.

Lemma create_relations_loop_returns batch : forall g d err w',
  for_each batch KnowledgeGraph.create_relations_body (mkWorld g d err) =
  Return tt w' ->
  all_accepted g batch.
Proof.
  induction batch as [|r batch IH]; intros g d err w'; simpl; auto.
  unfold bind at 1. rewrite create_relations_body_spec.
  destruct (rejection g r); [discriminate|].
  intros Hrest. split; [reflexivity|]. now apply IH in Hrest.
Qed.

Lemma then_save_returned (m : M unit) io w w' :
  bind m (fun _ => KnowledgeGraph._save dumps io) w = Return tt w' ->
  exists w1, m w = Return tt w1 /\ self w' = self w1.
Proof.
  unfold bind. destruct (m w) as [[] w1|e w1|]; try discriminate.
  intros E. exists w1. split; [reflexivity|].
  pose proof (_save_self dumps io w1) as Hs. rewrite E in Hs. exact Hs.
Qed.

(** X15. A creating call that returns has added its whole batch, and it
    returns only for a batch that passes every check. If [create_entities]
    returns, the names of the batch are pairwise distinct and none was in the
    store, and the store holds the old entities followed by the batch, in
    order. If [create_relations] returns, the relations of the batch are
    pairwise distinct, none was in the store, both ends of each are entities
    of the store, and the store holds the old relations followed by the
    batch, in order. *)
Theorem creating_call_returns_only_for_clean_batch (io : io_fault)
  (w w' : World) :
  (forall batch,
     KnowledgeGraph.create_entities dumps io batch w = Return tt w' ->
     NoDup (map in_name batch) /\
     (forall e, In e batch ->
        dict_mem (in_name e) (entities (self w)) = false) /\
     self w' = mkGraph (entities (self w) ++ map stored batch)
                 (relations (self w))) /\
  (forall batch,
     KnowledgeGraph.create_relations dumps io batch w = Return tt w' ->
     NoDup batch /\
     (forall r, In r batch ->
        dict_mem (from r) (entities (self w)) = true /\
        dict_mem (to r) (entities (self w)) = true /\
        ~ In r (relations (self w))) /\
     self w' = mkGraph (entities (self w)) (relations (self w) ++ batch)).
Proof.
  split; intros batch E.
  - apply then_save_returned in E as (w1 & E1 & ->).
    destruct (create_entities_loop_returns batch w w1 E1) as [Hnd Hfresh].
    split; [exact Hnd|]. split; [exact Hfresh|].
    rewrite (create_entities_loop_fresh batch w Hnd Hfresh) in E1.
    now injection E1 as <-.
  - apply then_save_returned in E as (w1 & E1 & ->).
    destruct w as [g d err].
    pose proof (create_relations_loop_returns batch g d err w1 E1) as Hacc.
    destruct (all_accepted_spec batch g Hacc) as [H1 H2].
    split; [exact H2|]. split; [exact H1|].
    rewrite (create_relations_loop_accepted batch g d err Hacc) in E1.
    now injection E1 as <-.
Qed.

End Returning.

Lemma creating_call_returns_only_for_clean_batch_witness :
  KnowledgeGraph.create_entities PyJson.dumps NoFault
    [Example.alice; Example.bob] Example.fresh =
  Return tt
    (mkWorld (mkGraph (entities Example.two) [])
       (Some [Example.alice_line; Example.bob_line]) []) /\
  NoDup (map in_name [Example.alice; Example.bob]) /\
  (forall e, In e [Example.alice; Example.bob] ->
     dict_mem (in_name e) (entities (self Example.fresh)) = false) /\
  mkGraph (entities Example.two) [] =
  mkGraph (entities (self Example.fresh) ++
           map stored [Example.alice; Example.bob])
    (relations (self Example.fresh)).
Proof.
  assert (H : KnowledgeGraph.create_entities PyJson.dumps NoFault
                [Example.alice; Example.bob] Example.fresh =
              Return tt
                (mkWorld (mkGraph (entities Example.two) [])
                   (Some [Example.alice_line; Example.bob_line]) []))
    by (vm_compute; reflexivity).
  split; [exact H|].
  exact (proj1 (creating_call_returns_only_for_clean_batch PyJson.dumps
                  NoFault Example.fresh _) _ H).
Defined.

(** ** Records the store did not write *)

Section Foreign.

Variable loads : string -> option json.

Lemma load_file_prefix pre g :
  load_file loads pre = Some (g, []) ->
  for_each pre (KnowledgeGraph.load_line loads) (mkWorld empty_graph None []) =
  Return tt (mkWorld g None []).
Proof.
  rewrite load_file_spec.
  pose proof (off_disk_load_lines loads pre empty_graph None None []) as Hd.
  destruct (for_each pre _ _) as [[] [g0 d0 err0]|e w|]; try discriminate.
  - simpl in Hd. injection Hd as ->. now intros [= -> ->].
  - intros [= _ Herr]. now destruct (stderr w).
Qed.

Lemma load_file_step pre line g :
  load_file loads pre = Some (g, []) ->
  load_file loads (pre ++ [line]) =
  match KnowledgeGraph.load_line loads line (mkWorld g None []) with
  | Return _ w => Some (self w, stderr w)
  | Raise e w => Some (self w, stderr w ++ [e])
  | Untyped => None
  end.
Proof.
  intros Hpre. rewrite load_file_spec, for_each_app.
  rewrite (load_file_prefix pre g Hpre). simpl. unfold bind.
  now destruct (KnowledgeGraph.load_line loads line _) as [[] w|e w|].
Qed.

Lemma load_file_raise pre line post g e :
  load_file loads pre = Some (g, []) ->
  KnowledgeGraph.load_line loads line (mkWorld g None []) =
  Raise e (mkWorld g None []) ->
  load_file loads (pre ++ line :: post) = Some (g, [e]).
Proof.
  intros Hpre Hline. rewrite load_file_spec, for_each_app.
  rewrite (load_file_prefix pre g Hpre). simpl.
  now rewrite (bind_raise _ _ _ _ _ Hline).
Qed.

Lemma getitem_missing key members w :
  dict_mem key members = false ->
  KnowledgeGraph.getitem (JObj members) key w = Raise (KeyError key) w.
Proof.
  unfold dict_mem, KnowledgeGraph.getitem.
  now destruct (dict_get key members).
Qed.

Lemma getitem_present key members w :
  dict_mem key members = true ->
  exists v, dict_get key members = Some v /\
            KnowledgeGraph.getitem (JObj members) key w = Return v w.
Proof.
  unfold dict_mem, KnowledgeGraph.getitem.
  destruct (dict_get key members) as [v|]; [|discriminate].
  intros _. now exists v.
Qed.

Lemma load_line_other_type line members ty w :
  PyStr.strip_nonempty line = true ->
  loads line = Some (JObj members) ->
  dict_get "type" members = Some ty ->
  KnowledgeGraph.is_str ty "entity" = false ->
  KnowledgeGraph.is_str ty "relation" = false ->
  KnowledgeGraph.load_line loads line w = Return tt w.
Proof.
  intros Hs Hl Hty He Hr. unfold KnowledgeGraph.load_line.
  rewrite Hs, Hl. unfold bind, KnowledgeGraph.getitem. rewrite Hty.
  unfold ret. now rewrite He, Hr.
Qed.

Lemma load_line_incomplete_entity line members key w :
  PyStr.strip_nonempty line = true ->
  loads line = Some (JObj members) ->
  dict_get "type" members = Some (JStr "entity") ->
  first_missing ["entityType"; "observations"; "name"] members = Some key ->
  KnowledgeGraph.load_line loads line w = Raise (KeyError key) w.
Proof.
  intros Hs Hl Hty Hmiss. unfold KnowledgeGraph.load_line.
  rewrite Hs, Hl. unfold bind at 1. unfold KnowledgeGraph.getitem at 1.
  rewrite Hty. unfold ret at 1. cbn [KnowledgeGraph.is_str].
  change ("entity" =? "entity") with true. cbv iota.
  unfold first_missing in Hmiss. simpl in Hmiss.
  destruct (dict_mem "entityType" members) eqn:H1; simpl in Hmiss.
  2:{ injection Hmiss as <-.
      now rewrite (bind_raise _ _ _ _ _ (getitem_missing _ _ w H1)). }
  destruct (getitem_present _ _ w H1) as (v1 & _ & E1).
  rewrite (bind_return _ _ _ _ _ E1).
  destruct (dict_mem "observations" members) eqn:H2; simpl in Hmiss.
  2:{ injection Hmiss as <-.
      now rewrite (bind_raise _ _ _ _ _ (getitem_missing _ _ w H2)). }
  destruct (getitem_present _ _ w H2) as (v2 & _ & E2).
  rewrite (bind_return _ _ _ _ _ E2).
  destruct (dict_mem "name" members) eqn:H3; simpl in Hmiss; [discriminate|].
  injection Hmiss as <-.
  now rewrite (bind_raise _ _ _ _ _ (getitem_missing _ _ w H3)).
Qed.

Lemma load_line_incomplete_relation line members key w :
  PyStr.strip_nonempty line = true ->
  loads line = Some (JObj members) ->
  dict_get "type" members = Some (JStr "relation") ->
  first_missing ["from"; "to"; "relationType"] members = Some key ->
  KnowledgeGraph.load_line loads line w = Raise (KeyError key) w.
Proof.
  intros Hs Hl Hty Hmiss. unfold KnowledgeGraph.load_line.
  rewrite Hs, Hl. unfold bind at 1. unfold KnowledgeGraph.getitem at 1.
  rewrite Hty. unfold ret at 1. cbn [KnowledgeGraph.is_str].
  change ("relation" =? "entity") with false. cbv iota.
  unfold bind at 1. unfold KnowledgeGraph.getitem at 1.
  rewrite Hty. unfold ret at 1. cbn [KnowledgeGraph.is_str].
  change ("relation" =? "relation") with true. cbv iota.
  unfold first_missing in Hmiss. simpl in Hmiss.
  destruct (dict_mem "from" members) eqn:H1; simpl in Hmiss.
  2:{ injection Hmiss as <-.
      now rewrite (bind_raise _ _ _ _ _ (getitem_missing _ _ w H1)). }
  destruct (getitem_present _ _ w H1) as (v1 & _ & E1).
  rewrite (bind_return _ _ _ _ _ E1).
  destruct (dict_mem "to" members) eqn:H2; simpl in Hmiss.
  2:{ injection Hmiss as <-.
      now rewrite (bind_raise _ _ _ _ _ (getitem_missing _ _ w H2)). }
  destruct (getitem_present _ _ w H2) as (v2 & _ & E2).
  rewrite (bind_return _ _ _ _ _ E2).
  destruct (dict_mem "relationType" members) eqn:H3; simpl in Hmiss;
    [discriminate|].
  injection Hmiss as <-.
  now rewrite (bind_raise _ _ _ _ _ (getitem_missing _ _ w H3)).
Qed.

(** X16. A line that parses to an object whose ['type'] is neither
    ['entity'] nor ['relation'] is passed over by the load without a warning:
    the file loads as if the line were not there. *)
Theorem load_ignores_other_types (pre post : list string) (line : string)
  (members : dict json) (ty : json) :
  PyStr.strip_nonempty line = true ->
  loads line = Some (JObj members) ->
  dict_get "type" members = Some ty ->
  KnowledgeGraph.is_str ty "entity" = false ->
  KnowledgeGraph.is_str ty "relation" = false ->
  load_file loads (pre ++ line :: post) = load_file loads (pre ++ post).
Proof.
  intros Hs Hl Hty He Hr. rewrite !load_file_spec, !for_each_app. simpl.
  destruct (for_each pre _ _) as [[] w|e w|]; auto.
  now rewrite (bind_return _ _ _ _ _
                 (load_line_other_type line members ty w Hs Hl Hty He Hr)).
Qed.

(** X17. The load stops, with one warning and with what it had loaded, at a
    line that parses to an object but lacks a key the code reads: ['type']
    first; for an entity ['entityType'], then ['observations'], then
    ['name']; for a relation ['from'], ['to'], ['relationType']. In
    particular an entity record without ['observations'] ends the load,
    although [create_entities] accepts an entity without them. *)
Theorem load_stops_at_incomplete_record (pre post : list string)
  (line : string) (g : Graph) (members : dict json) :
  load_file loads pre = Some (g, []) ->
  PyStr.strip_nonempty line = true ->
  loads line = Some (JObj members) ->
  (dict_mem "type" members = false ->
   load_file loads (pre ++ line :: post) = Some (g, [KeyError "type"])) /\
  (forall key,
     dict_get "type" members = Some (JStr "entity") ->
     first_missing ["entityType"; "observations"; "name"] members = Some key ->
     load_file loads (pre ++ line :: post) = Some (g, [KeyError key])) /\
  (forall key,
     dict_get "type" members = Some (JStr "relation") ->
     first_missing ["from"; "to"; "relationType"] members = Some key ->
     load_file loads (pre ++ line :: post) = Some (g, [KeyError key])).
Proof.
  intros Hpre Hs Hl. split; [|split].
  - intros Hty. apply load_file_raise; [exact Hpre|].
    unfold KnowledgeGraph.load_line. rewrite Hs, Hl.
    now rewrite (bind_raise _ _ _ _ _ (getitem_missing _ _ _ Hty)).
  - intros key Hty Hmiss. apply load_file_raise; [exact Hpre|].
    now apply (load_line_incomplete_entity line members).
  - intros key Hty Hmiss. apply load_file_raise; [exact Hpre|].
    now apply (load_line_incomplete_relation line members).
Qed.

(** X18. The load applies none of the checks of the store. An entity record
    whose name is already loaded replaces that entity's data, in its place; a
    relation record is appended whether or not its ends are entities and
    whether or not the same triple is already there. So a file the store did
    not write can load, without a warning, into a graph with a dangling or a
    repeated relation. *)
Theorem load_applies_no_check (pre : list string) (line : string)
  (g : Graph) :
  load_file loads pre = Some (g, []) ->
  PyStr.strip_nonempty line = true ->
  (forall name data,
     loads line = Some (entity_record name data) ->
     load_file loads (pre ++ [line]) =
     Some (mkGraph (dict_set name data (entities g)) (relations g), [])) /\
  (forall r,
     loads line = Some (relation_record r) ->
     load_file loads (pre ++ [line]) =
     Some (mkGraph (entities g) (relations g ++ [r]), []) /\
     (dict_mem (from r) (entities g) = false ->
      ~ no_dangling (mkGraph (entities g) (relations g ++ [r]))) /\
     (In r (relations g) ->
      ~ no_duplicate_relations (mkGraph (entities g) (relations g ++ [r])))).
Proof.
  intros Hpre Hs. split.
  - intros name data Hl. rewrite (load_file_step pre line g Hpre).
    now rewrite (load_line_entity loads line name data g None [] Hs Hl).
  - intros r Hl. split; [|split].
    + rewrite (load_file_step pre line g Hpre).
      now rewrite (load_line_relation loads line r g None [] Hs Hl).
    + intros Habs Hd. destruct (Hd r) as [Hf _].
      * simpl. apply in_or_app. right. now left.
      * simpl in Hf. congruence.
    + intros Hin Hn. unfold no_duplicate_relations in Hn. simpl in Hn.
      apply NoDup_remove_2 in Hn. apply Hn. now rewrite app_nil_r.
Qed.

End Foreign.

Lemma load_ignores_other_types_witness :
  PyStr.strip_nonempty (PyJson.text "{'type': 'note', 'text': 'hi'}") = true /\
  PyJson.loads (PyJson.text "{'type': 'note', 'text': 'hi'}") =
  Some (JObj [("type", JStr "note"); ("text", JStr "hi")]) /\
  load_file PyJson.loads
    ([Example.alice_line] ++
     PyJson.text "{'type': 'note', 'text': 'hi'}" :: [Example.bob_line]) =
  load_file PyJson.loads ([Example.alice_line] ++ [Example.bob_line]).
Proof.
  assert (Hs : PyStr.strip_nonempty
                 (PyJson.text "{'type': 'note', 'text': 'hi'}") = true)
    by (vm_compute; reflexivity).
  assert (Hl : PyJson.loads (PyJson.text "{'type': 'note', 'text': 'hi'}") =
               Some (JObj [("type", JStr "note"); ("text", JStr "hi")]))
    by (vm_compute; reflexivity).
  split; [exact Hs|]. split; [exact Hl|].
  exact (load_ignores_other_types PyJson.loads [Example.alice_line]
           [Example.bob_line] _ _ (JStr "note") Hs Hl eq_refl eq_refl eq_refl).
Defined.

Lemma load_stops_at_incomplete_record_witness :
  load_file PyJson.loads [Example.alice_line] =
  Some (mkGraph [("Alice", mkData "person" [])] [], []) /\
  PyJson.loads
    (PyJson.text "{'type': 'entity', 'name': 'Bob', 'entityType': 'person'}") =
  Some (JObj [("type", JStr "entity"); ("name", JStr "Bob");
              ("entityType", JStr "person")]) /\
  first_missing ["entityType"; "observations"; "name"]
    [("type", JStr "entity"); ("name", JStr "Bob");
     ("entityType", JStr "person")] = Some "observations" /\
  load_file PyJson.loads
    ([Example.alice_line] ++
     PyJson.text "{'type': 'entity', 'name': 'Bob', 'entityType': 'person'}"
     :: [Example.knows_line]) =
  Some (mkGraph [("Alice", mkData "person" [])] [],
        [KeyError "observations"]).
Proof.
  assert (Hpre : load_file PyJson.loads [Example.alice_line] =
                 Some (mkGraph [("Alice", mkData "person" [])] [], []))
    by (vm_compute; reflexivity).
  assert (Hs : PyStr.strip_nonempty
                 (PyJson.text
                    "{'type': 'entity', 'name': 'Bob', 'entityType': 'person'}")
               = true) by (vm_compute; reflexivity).
  assert (Hl : PyJson.loads
                 (PyJson.text
                    "{'type': 'entity', 'name': 'Bob', 'entityType': 'person'}")
               = Some (JObj [("type", JStr "entity"); ("name", JStr "Bob");
                             ("entityType", JStr "person")]))
    by (vm_compute; reflexivity).
  split; [exact Hpre|]. split; [exact Hl|]. split; [reflexivity|].
  exact (proj1 (proj2 (load_stops_at_incomplete_record PyJson.loads
                         [Example.alice_line] [Example.knows_line] _ _ _
                         Hpre Hs Hl))
           "observations" eq_refl eq_refl).
Defined.

Lemma load_applies_no_check_witness :
  load_file PyJson.loads [] = Some (empty_graph, []) /\
  PyStr.strip_nonempty Example.knows_line = true /\
  PyJson.loads Example.knows_line = Some (relation_record Example.knows) /\
  load_file PyJson.loads ([] ++ [Example.knows_line]) =
  Some (mkGraph [] [Example.knows], []) /\
  ~ no_dangling (mkGraph [] [Example.knows]).
Proof.
  assert (Hpre : load_file PyJson.loads [] = Some (empty_graph, []))
    by reflexivity.
  assert (Hs : PyStr.strip_nonempty Example.knows_line = true)
    by (vm_compute; reflexivity).
  assert (Hl : PyJson.loads Example.knows_line =
               Some (relation_record Example.knows))
    by (vm_compute; reflexivity).
  split; [exact Hpre|]. split; [exact Hs|]. split; [exact Hl|].
  pose proof (proj2 (load_applies_no_check PyJson.loads [] Example.knows_line
                       empty_graph Hpre Hs) Example.knows Hl) as [H1 [H2 _]].
  split; [exact H1 | exact (H2 eq_refl)].
Defined.
